(** * Sales dashboard: the filter-to-aggregation pipeline of [app.py]

    A shallow embedding of the two callbacks of the dashboard,
    [update_dashboard] (one filter cycle) and [download_report] (the CSV
    export), together with the module-level state they close over: the base
    table [df], the date bounds [min_date]/[max_date] and [TARGETS].

    Data frames live in a small object store, because the cycle rebinds and
    mutates [filtered_df] in place; everything computed from a frame is a pure
    function of its rows.  The statistics of the summary table are kept
    exact: a rational, the square root of a rational, or NaN.  What the
    libraries compute outside the source (the date parser of pandas, its
    sums of a float column, the scope check of plotly) is a parameter of the
    development, the record [Libraries], of which nothing is assumed. *)

From Stdlib Require Import ZArith QArith Qround Qreduction List String Ascii Bool Lia Permutation Sorted.
From Stdlib Require OrderedTypeEx.
From Stdlib Require Import Lqa.
Import ListNotations.
Local Open Scope string_scope.
Local Open Scope list_scope.
Local Open Scope Z_scope.

Set Implicit Arguments.

(** ** Calendar

    A pandas timestamp is a count of time units since the epoch; the data set
    has second resolution ([format='%Y-%m-%d %H:%M:%S']).  A calendar date is
    the number of whole days since 1970-01-01, so that the order on dates is
    the order on [Z]. *)

Definition Timestamp := Z.
Definition Date := Z.

(** [timestamp.dt.date] *)
Definition dt_date (t : Timestamp) : Date := t / 86400.

(** [timestamp.dt.hour] *)
Definition dt_hour (t : Timestamp) : Z := (t mod 86400) / 3600.

(** Days since the epoch of the proleptic Gregorian date [y-m-d]. *)
Definition days_from_civil (y m d : Z) : Date :=
  let y := if m <=? 2 then y - 1 else y in
  let era := y / 400 in
  let yoe := y - era * 400 in
  let doy := (153 * (if 2 <? m then m - 3 else m + 9) + 2) / 5 + d - 1 in
  let doe := yoe * 365 + yoe / 4 - yoe / 100 + doy in
  era * 146097 + doe - 719468.

(** The inverse conversion: year, month and day of a day count. *)
Definition civil_from_days (z : Date) : Z * Z * Z :=
  let z := z + 719468 in
  let era := z / 146097 in
  let doe := z - era * 146097 in
  let yoe := (doe - doe / 1460 + doe / 36524 - doe / 146096) / 365 in
  let doy := doe - (365 * yoe + yoe / 4 - yoe / 100) in
  let mp := (5 * doy + 2) / 153 in
  let d := doy - (153 * mp + 2) / 5 + 1 in
  let m := if mp <? 10 then mp + 3 else mp - 9 in
  let y := yoe + era * 400 in
  ((if m <=? 2 then y + 1 else y), m, d).

(** [datetime(y, m, d, hh, mm, ss)] as a timestamp. *)
Definition datetime (y m d hh mm ss : Z) : Timestamp :=
  days_from_civil y m d * 86400 + hh * 3600 + mm * 60 + ss.

Definition digit_of (c : ascii) : option Z :=
  let n := Z.of_nat (nat_of_ascii c) in
  if (48 <=? n) && (n <=? 57) then Some (n - 48) else None.

Fixpoint digits_value (acc : Z) (s : string) : option Z :=
  match s with
  | EmptyString => Some acc
  | String c s' =>
      match digit_of c with
      | Some k => digits_value (10 * acc + k) s'
      | None => None
      end
  end.

(** The ISO calendar format [YYYY-MM-DD], the form in which the date picker
    hands its bounds to the callback. *)
Definition fromisoformat (s : string) : option Date :=
  if negb (Nat.eqb (String.length s) 10) then None else
  if negb (String.eqb (substring 4 1 s) "-" && String.eqb (substring 7 1 s) "-") then None else
  match digits_value 0 (substring 0 4 s),
        digits_value 0 (substring 5 2 s),
        digits_value 0 (substring 8 2 s) with
  | Some y, Some m, Some d =>
      let z := days_from_civil y m d in
      let '(y', m', d') := civil_from_days z in
      if (y' =? y) && (m' =? m) && (d' =? d) then Some z else None
  | _, _, _ => None
  end.

Definition digit_char (k : Z) : ascii := ascii_of_nat (Z.to_nat (48 + k mod 10)).

Fixpoint zero_padded (width : nat) (n : Z) : string :=
  match width with
  | O => EmptyString
  | S w => (zero_padded w (n / 10) ++ String (digit_char n) EmptyString)%string
  end.

(** [str(date)] *)
Definition isoformat (z : Date) : string :=
  let '(y, m, d) := civil_from_days z in
  (zero_padded 4 y ++ "-" ++ zero_padded 2 m ++ "-" ++ zero_padded 2 d)%string.

(** ** The data model (columns of the cleaned base table) *)

Record Row := {
  timestamp : Timestamp;
  continent : string;
  country : string;
  salesperson_id : string;
  product_type : string;
  request_type : string;
  job_type : string;           (* the sentinel "None" when the request is not a job *)
  revenue : Q;                 (* column 'revenue ($)' *)
  purchase_flag : Z;
  affiliate_code : string      (* the sentinel "None" when absent *)
}.

(** A row of a data frame: the schema columns plus the derived columns
    ['date'] and ['hour'], absent until the cycle assigns them. *)
Record DfRow := {
  base : Row;
  date : option Date;
  hour : option Z
}.

(** [pd.DataFrame()] has no columns at all; every other frame of the program
    carries the schema columns. *)
Inductive DataFrame :=
| NoColumns
| Table (rows : list DfRow).

Definition rows_of (f : DataFrame) : list DfRow :=
  match f with NoColumns => [] | Table rows => rows end.

(** [f.empty] *)
Definition df_empty (f : DataFrame) : bool :=
  match rows_of f with [] => true | _ => false end.

(** The base table as loaded: schema columns only. *)
Definition loaded (r : Row) : DfRow := {| base := r; date := None; hour := None |}.
Definition load (csv : list Row) : DataFrame := Table (map loaded csv).

(** ** Object store, exceptions, and the monad of a callback *)

Definition loc := nat.
Definition heap := list DataFrame.

Inductive exn :=
| KeyError (column : string)
| ParseError (text : string)        (* [pd.to_datetime] rejects the text *)
| AttributeError                    (* [None.date()] *)
| ValueError (scope : string)       (* plotly rejects the scope of the map *)
| NameError.

Inductive outcome (A : Type) :=
| Ok (a : A)
| Raise (e : exn).
Arguments Raise {A} e.

(** A computation reads and writes the store and either returns or raises;
    the store survives an exception. *)
Definition M (A : Type) := heap -> outcome A * heap.

Definition ret {A} (a : A) : M A := fun h => (Ok a, h).

Definition bind {A B} (m : M A) (k : A -> M B) : M B :=
  fun h => match m h with
           | (Ok a, h') => k a h'
           | (Raise e, h') => (Raise e, h')
           end.

Definition raise {A} (e : exn) : M A := fun h => (Raise e, h).

(** [try: body except Exception as e: handler(e)] *)
Definition try_except {A} (body : M A) (handler : exn -> M A) : M A :=
  fun h => match body h with
           | (Ok a, h') => (Ok a, h')
           | (Raise e, h') => handler e h'
           end.

Declare Scope monad_scope.
Delimit Scope monad_scope with monad.
Notation "x <- c ;; k" := (bind c (fun x => k))
  (at level 61, c at next level, right associativity) : monad_scope.
Notation "c ;;; k" := (bind c (fun _ => k))
  (at level 61, right associativity) : monad_scope.
Local Open Scope monad_scope.

(** A new object. *)
Definition alloc (f : DataFrame) : M loc :=
  fun h => (Ok (List.length h), h ++ [f]).

Definition deref (l : loc) : M DataFrame :=
  fun h => match nth_error h l with
           | Some f => (Ok f, h)
           | None => (Raise NameError, h)
           end.

Fixpoint update_nth (l : loc) (f : DataFrame) (h : heap) : heap :=
  match h, l with
  | [], _ => []
  | _ :: h', O => f :: h'
  | g :: h', S l' => g :: update_nth l' f h'
  end.

(** In-place update of the object at [l]. *)
Definition store (l : loc) (f : DataFrame) : M unit :=
  fun h => (Ok tt, update_nth l f h).

(** [frame[mask]]: boolean indexing builds a new frame; the mask reads the
    schema column [column]. *)
Definition select (column : string) (mask : Row -> bool) (l : loc) : M loc :=
  f <- deref l ;;
  match f with
  | NoColumns => raise (KeyError column)
  | Table rows => alloc (Table (filter (fun r => mask (base r)) rows))
  end.

Definition with_date (r : DfRow) : DfRow :=
  {| base := base r; date := Some (dt_date (timestamp (base r))); hour := hour r |}.

Definition with_hour (r : DfRow) : DfRow :=
  {| base := base r; date := date r; hour := Some (dt_hour (timestamp (base r))) |}.

(** [frame[name] = f(frame['timestamp'])]: column assignment, in place. *)
Definition assign_column (set : DfRow -> DfRow) (l : loc) : M unit :=
  f <- deref l ;;
  match f with
  | NoColumns => raise (KeyError "timestamp")
  | Table rows => store l (Table (map set rows))
  end.

(** ** Module-level state *)

(** The base table is the first object of the store. *)
Definition df : loc := O.

Definition initial_heap (csv : list Row) : heap := [load csv].

Definition minimum (t : Timestamp) (ts : list Timestamp) : Timestamp := fold_right Z.min t ts.
Definition maximum (t : Timestamp) (ts : list Timestamp) : Timestamp := fold_right Z.max t ts.

(** [df['timestamp'].min().date() if not df.empty else datetime(2024, 1, 1).date()] *)
Definition min_date_of (csv : list Row) : Date :=
  match map timestamp csv with
  | [] => days_from_civil 2024 1 1
  | t :: ts => dt_date (minimum t ts)
  end.

(** [df['timestamp'].max().date() if not df.empty else datetime(2025, 5, 31).date()] *)
Definition max_date_of (csv : list Row) : Date :=
  match map timestamp csv with
  | [] => days_from_civil 2025 5 31
  | t :: ts => dt_date (maximum t ts)
  end.

Module TARGETS.
Definition revenue : Q := 500000.
Definition conversion_rate : Q := 20.
Definition demo_to_purchase : Q := 30.
Definition jobs_placed : Q := 50.
Definition ai_assist_requests : Q := 100.
Definition promo_requests : Q := 50.
End TARGETS.

(** ** Callback arguments *)

(** A date property of the picker: absent, a text, or already a date; and
    NaT, which the picker never sends but to which the date filter rebinds
    its variable when pandas reads a bound as "not a time". *)
Inductive DateInput :=
| DNone
| DStr (s : string)
| DDate (d : Date)
| DNaT.

(** Python truthiness of the callback arguments. *)
Definition truthy_str (v : option string) : bool :=
  match v with Some s => negb (String.eqb s EmptyString) | None => false end.

Definition truthy_list (v : option (list string)) : bool :=
  match v with Some (_ :: _) => true | _ => false end.

Definition truthy_date (v : DateInput) : bool :=
  match v with
  | DNone => false
  | DStr s => negb (String.eqb s EmptyString)
  | DDate _ | DNaT => true       (* objects without [__bool__] or [__len__] *)
  end.

(** The local variables of [update_dashboard] that the cycle rebinds. *)
Module Var.
Record locals := {
  filtered_df : loc;
  continent : option string;
  countries : option (list string);
  products : option (list string);
  start_date : DateInput;
  end_date : DateInput;
  trend_view : option string
}.
End Var.
Definition locals := Var.locals.

Definition rebind_df (v : locals) (l : loc) : locals :=
  {| Var.filtered_df := l; Var.continent := Var.continent v;
     Var.countries := Var.countries v; Var.products := Var.products v;
     Var.start_date := Var.start_date v; Var.end_date := Var.end_date v;
     Var.trend_view := Var.trend_view v |}.

(** The result of [.date()], a date or NaT ([None] here), as a value of a
    date variable. *)
Definition date_input (d : option Date) : DateInput :=
  match d with Some d => DDate d | None => DNaT end.

Definition rebind_dates (v : locals) (l : loc) (s e : option Date) : locals :=
  {| Var.filtered_df := l; Var.continent := Var.continent v;
     Var.countries := Var.countries v; Var.products := Var.products v;
     Var.start_date := date_input s; Var.end_date := date_input e;
     Var.trend_view := Var.trend_view v |}.

Definition isin (x : string) (xs : list string) : bool := existsb (String.eqb x) xs.

Definition unwrap_str (v : option string) : string :=
  match v with Some s => s | None => EmptyString end.

Definition unwrap_list (v : option (list string)) : list string :=
  match v with Some l => l | None => [] end.

(** The message shown under the charts: the empty text, ["Invalid date range selected"],
    ["No data available for selected filters"], or
    [f"Error updating dashboard: {str(e)}"]. *)
Inductive Message :=
| healthy
| invalid_date_range_selected
| no_data_available
| error_updating_dashboard (e : exn).

Inductive filter_kind := ByContinent | ByCountries | ByProducts | ByDates.

(** An entry of a dropdown: [{'label': ..., 'value': ...}]. *)
Module Dropdown.
Record entry := { label : string; value : string }.
End Dropdown.

(** ** The library functions that the callbacks call

    What pandas and plotly compute is not in the source; the program is
    verified for every behaviour of these functions. *)

(** What [pd.to_datetime(x)] returns: a timestamp, given here by its calendar
    date; NaT, as for the texts ['NaT'], ['nan'] and the empty text; or the
    argument [None] handed back, as pandas 2 does (pandas 3 answers NaT). *)
Inductive datetime_value :=
| Stamp (d : Date)
| NaT
| PyNone.

Record Libraries := {
  (** [pd.to_datetime(x)] on [None] or a text: a value, or an exception *)
  pd_to_datetime : option string -> outcome datetime_value;
  (** [series.sum()] of a float64 column: the doubles added in the order and
      with the roundings of the library *)
  float_sum : list Q -> Q;
  (** the sum of one group of [groupby(...)[column].sum()] *)
  group_sum : list Q -> Q;
  (** the geo scopes that [px.choropleth] accepts besides ['world'] *)
  geo_scope : string -> bool
}.

Section Dashboard.

Variable lib : Libraries.

(** ** pandas primitives used by the aggregations *)

Definition len {A} (l : list A) : Z := Z.of_nat (List.length l).

(** Sorted distinct keys, as [groupby] orders its groups. *)
Section GroupKeys.
Variable K : Type.
Variable cmp : K -> K -> comparison.

Fixpoint insert_key (k : K) (ks : list K) : list K :=
  match ks with
  | [] => [k]
  | k' :: ks' =>
      match cmp k k' with
      | Lt => k :: ks
      | Eq => ks
      | Gt => k' :: insert_key k ks'
      end
  end.

Definition group_keys (ks : list K) : list K := fold_right insert_key [] ks.
End GroupKeys.

(** [rows[column].sum()] of a float64 column: the cells, in table order,
    added by the library. *)
Definition col_sum (f : Row -> Q) (rows : list DfRow) : Q :=
  float_sum lib (map (fun r => f (base r)) rows).

(** The rows of the group [k] of [rows.groupby(key)], in table order. *)
Definition group_rows (key : Row -> string) (k : string) (rows : list DfRow) : list DfRow :=
  filter (fun r => String.eqb (key (base r)) k) rows.

(** [rows.groupby(key)['revenue ($)'].sum().reset_index()] *)
Definition groupby_revenue (key : Row -> string) (rows : list DfRow) : list (string * Q) :=
  map (fun k => (k, group_sum lib (map (fun r => revenue (base r)) (group_rows key k rows))))
      (group_keys String.compare (map (fun r => key (base r)) rows)).

(** Distinct values in order of first appearance. *)
Fixpoint distinct (seen : list string) (ks : list string) : list string :=
  match ks with
  | [] => []
  | k :: ks' => if isin k seen then distinct seen ks' else k :: distinct (k :: seen) ks'
  end.

Fixpoint insert_by_count (x : string * Z) (l : list (string * Z)) : list (string * Z) :=
  match l with
  | [] => [x]
  | y :: l' => if snd y <=? snd x then x :: l else y :: insert_by_count x l'
  end.

(** [series.value_counts().reset_index()]: counts by value, largest first. *)
Definition value_counts (ks : list string) : list (string * Z) :=
  fold_right insert_by_count []
    (map (fun k => (k, len (filter (String.eqb k) ks))) (distinct [] ks)).

Definition lower_char (c : ascii) : ascii :=
  let n := nat_of_ascii c in
  if (Nat.leb 65 n && Nat.leb n 90)%bool then ascii_of_nat (n + 32) else c.

(** [s.lower()] on ASCII letters. *)
Fixpoint lower (s : string) : string :=
  match s with
  | EmptyString => EmptyString
  | String c s' => String (lower_char c) (lower s')
  end.

(** *** Counting by a derived key ([date] or [hour]) *)

Section ByKey.
Variable key : DfRow -> option Z.

Definition key_is (k : Z) (r : DfRow) : bool :=
  match key r with Some k' => k' =? k | None => false end.

(** The group index; rows without a key value are dropped. *)
Definition key_index (rows : list DfRow) : list Z :=
  group_keys Z.compare
    (flat_map (fun r => match key r with Some k => [k] | None => [] end) rows).

(** [rows.groupby(key).size().reset_index(name=...)] *)
Definition groupby_size (rows : list DfRow) : list (Z * Z) :=
  map (fun k => (k, len (filter (key_is k) rows))) (key_index rows).

(** One column of
    [rows.groupby([key, 'request_type']).size().unstack(fill_value=0)]:
    the column exists when the request type occurs.  The labels of the data
    model (demo, ai_assist, promo, job, Unknown) differ from the names of the
    key columns and of the merged column ('date', 'hour', 'job_placements'),
    so a column is found by its request type alone. *)
Definition unstacked (rows : list DfRow) (name : string) : option (list Z) :=
  if existsb (fun r => match key r with
                       | Some _ => String.eqb (request_type (base r)) name
                       | None => false
                       end) rows
  then Some (map (fun k => len (filter (fun r => key_is k r &&
                                 String.eqb (request_type (base r)) name) rows))
                 (key_index rows))
  else None.
End ByKey.

Fixpoint lookup (k : Z) (tbl : list (Z * Z)) : option Z :=
  match tbl with
  | [] => None
  | (k', v) :: tbl' => if k' =? k then Some v else lookup k tbl'
  end.

(** [left.merge(right, on=key, how='left').fillna(0)]: the merged column. *)
Definition merge_left (index : list Z) (right : list (Z * Z)) : list Z :=
  map (fun k => match lookup k right with Some v => v | None => 0 end) index.

(** [frame.get(name, pd.Series(0, index=frame.index))] *)
Definition get_or_zeros (column : option (list Z)) (index : list Z) : list Z :=
  match column with
  | Some c => c
  | None => map (fun _ => 0) index
  end.

Definition is_job (r : DfRow) : bool := negb (String.eqb (job_type (base r)) "None").

(** ** Exact floating-point results *)

Inductive fnum :=
| NaN
| Rat (q : Q)
| Sqrt (q : Q).      (* the square root of a rational that is not a square *)

Definition rat (q : Q) : fnum := Rat (Qred q).

(** The square root, rational when the radicand is the square of a rational. *)
Definition fsqrt (q : Q) : fnum :=
  let r := Qred q in
  let n := Z.sqrt (Qnum r) in
  let d := Z.sqrt (Zpos (Qden r)) in
  if (n * n =? Qnum r) && (d * d =? Zpos (Qden r))
  then rat (inject_Z n / inject_Z d)
  else Sqrt r.

Definition series_sum (xs : list Z) : Z := fold_right Z.add 0 xs.

(** [series.mean()] *)
Definition mean (xs : list Z) : fnum :=
  match xs with
  | [] => NaN
  | _ => rat (inject_Z (series_sum xs) / inject_Z (len xs))
  end.

Fixpoint insert_sorted (x : Z) (l : list Z) : list Z :=
  match l with
  | [] => [x]
  | y :: l' => if x <=? y then x :: l else y :: insert_sorted x l'
  end.

Definition sort_values (xs : list Z) : list Z := fold_right insert_sorted [] xs.

(** [series.median()] *)
Definition median (xs : list Z) : fnum :=
  let n := List.length xs in
  let s := sort_values xs in
  match n with
  | O => NaN
  | _ => if Nat.even n
         then rat ((inject_Z (nth (n / 2 - 1) s 0) + inject_Z (nth (n / 2) s 0)) / 2)
         else rat (inject_Z (nth (n / 2) s 0))
  end.

(** Sum of squared deviations from the mean. *)
Definition squared_deviations (xs : list Z) : Q :=
  let m := (inject_Z (series_sum xs) / inject_Z (len xs))%Q in
  fold_right (fun x acc => ((inject_Z x - m) * (inject_Z x - m) + acc)%Q) 0%Q xs.

(** [series.std()]: pandas' default, the sample standard deviation
    ([ddof=1]), NaN when fewer than two observations. *)
Definition std (xs : list Z) : fnum :=
  if len xs <? 2 then NaN
  else fsqrt (squared_deviations xs / inject_Z (len xs - 1)).

(** Nearest integer, ties to even. *)
Definition round_half_even (q : Q) : Z :=
  let f := Qfloor q in
  match Qcompare (q - inject_Z f) (1 # 2) with
  | Lt => f
  | Gt => f + 1
  | Eq => if Z.even f then f else f + 1
  end.

(** Nearest integer to the square root of a non-negative rational. *)
Definition round_sqrt (q : Q) : Z :=
  let k := Z.sqrt (Qfloor q) in
  match Qcompare q ((inject_Z k + (1 # 2)) * (inject_Z k + (1 # 2))) with
  | Lt => k
  | Gt => k + 1
  | Eq => if Z.even k then k else k + 1
  end.

(** [x.round(2)] *)
Definition round2 (x : fnum) : fnum :=
  match x with
  | NaN => NaN
  | Rat q => rat (inject_Z (round_half_even (q * 100)) / 100)
  | Sqrt v => rat (inject_Z (round_sqrt (v * 10000)) / 100)
  end.

(** ** The Aggregation Engine *)

Record KPIs := {
  total_revenue : Q;
  total_interactions : Z;
  purchases : Z;
  conversion_rate : Q;
  demo_count : Z;
  demo_purchases : Z;
  demo_rate : Q;
  jobs_placed : Z;
  ai_assist_requests : Z;
  promo_requests : Z
}.

Definition request_is (name : string) (r : DfRow) : bool :=
  String.eqb (request_type (base r)) name.

Definition compute_kpis (rows : list DfRow) : KPIs :=
  let total_revenue := col_sum revenue rows in
  let total_interactions := len rows in
  let purchases := series_sum (map (fun r => purchase_flag (base r)) rows) in
  let conversion_rate :=
    if 0 <? total_interactions
    then (inject_Z purchases / inject_Z total_interactions * 100)%Q else 0%Q in
  let demo_count := len (filter (request_is "demo") rows) in
  let demo_purchases :=
    len (filter (fun r => request_is "demo" r && (purchase_flag (base r) =? 1)) rows) in
  let demo_rate :=
    if 0 <? demo_count
    then (inject_Z demo_purchases / inject_Z demo_count * 100)%Q else 0%Q in
  {| total_revenue := total_revenue;
     total_interactions := total_interactions;
     purchases := purchases;
     conversion_rate := conversion_rate;
     demo_count := demo_count;
     demo_purchases := demo_purchases;
     demo_rate := demo_rate;
     jobs_placed := len (filter is_job rows);
     ai_assist_requests := len (filter (request_is "ai_assist") rows);
     promo_requests := len (filter (request_is "promo") rows) |}.

Inductive Status := success | warning | danger.

Record MetricCard := {
  title : string;
  value : Q;
  target : Q;
  unit : string;
  status : Status
}.

Definition create_metric_card (title : string) (value target : Q) (unit : string) : MetricCard :=
  let status :=
    if Qle_bool (target * (9 # 10)) value then success
    else if Qle_bool (target * (7 # 10)) value then warning
    else danger in
  {| title := title; value := value; target := target; unit := unit; status := status |}.

Definition kpi_cards_of (k : KPIs) : list MetricCard :=
  [ create_metric_card "Revenue" (total_revenue k) TARGETS.revenue "$";
    create_metric_card "Conversion Rate" (conversion_rate k) TARGETS.conversion_rate "%";
    create_metric_card "Demo-to-Purchase" (demo_rate k) TARGETS.demo_to_purchase "%";
    create_metric_card "Jobs Placed" (inject_Z (jobs_placed k)) TARGETS.jobs_placed EmptyString;
    create_metric_card "AI Assist Requests" (inject_Z (ai_assist_requests k))
      TARGETS.ai_assist_requests EmptyString;
    create_metric_card "Promo Requests" (inject_Z (promo_requests k))
      TARGETS.promo_requests EmptyString ].

(** The hourly trend frame, by column. *)
Record TrendData := {
  hours : list Z;
  promo : list Z;
  demo : list Z;
  ai_assist : list Z;
  job_placements : list Z
}.

(** A chart description handed to the presentation layer. *)
Inductive Figure :=
| empty_fig (title : string)
| fig_bar (revenue_data : list (string * Q)) (target : Q)
| fig_pie (request_dist : list (string * Z))
| fig_job (job_types : list (string * Z))
| fig_affiliate (affiliate_data : list (string * Q))
| fig_map (scope : string) (revenue_by_country : list (string * Q))
| fig_trend (title : string) (trend_data : TrendData).

Definition revenue_bar_of (rows : list DfRow) : Figure :=
  fig_bar (groupby_revenue salesperson_id rows) TARGETS.revenue.

Definition request_pie_of (rows : list DfRow) : Figure :=
  fig_pie (value_counts (map (fun r => request_type (base r)) rows)).

Definition job_type_bar_of (rows : list DfRow) : Figure :=
  fig_job (value_counts (map (fun r => job_type (base r)) (filter is_job rows))).

Definition affiliate_bar_of (rows : list DfRow) : Figure :=
  fig_affiliate
    (filter (fun kv => negb (String.eqb (fst kv) "None")) (groupby_revenue affiliate_code rows)).

(** [continent.lower() if continent else 'world'] *)
Definition scope_of (selected : option string) : string :=
  if truthy_str selected then lower (unwrap_str selected) else "world".

(** plotly validates the scope against its list, of which ['world'] is the
    default. *)
Definition accepts_scope (scope : string) : bool :=
  String.eqb scope "world" || geo_scope lib scope.

(** The map that [px.choropleth] draws when it accepts the scope. *)
Definition revenue_map_figure (selected : option string) (rows : list DfRow) : Figure :=
  fig_map (scope_of selected) (groupby_revenue country rows).

(** Lines 542-553: [px.choropleth(..., scope=...)] raises [ValueError] on a
    scope that is not one of plotly's. *)
Definition revenue_map_of (selected : option string) (rows : list DfRow) : M Figure :=
  let revenue_by_country := groupby_revenue country rows in
  let scope := scope_of selected in
  if accepts_scope scope then ret (fig_map scope revenue_by_country)
  else raise (ValueError scope).

Definition all_hours : list Z := map Z.of_nat (seq 0 24).

(** Lines 559-561 and 567-569, then 573-578: counts by hour of the rows
    [sub], the job placements merged in, all 24 hours made present. *)
Definition hourly_trend (sub : list DfRow) : TrendData :=
  let index := key_index hour sub in
  let job_placement_data := groupby_size hour (filter is_job sub) in
  let merged := merge_left index job_placement_data in
  let onto_all_hours (column : list Z) := merge_left all_hours (combine index column) in
  let column (name : string) := option_map onto_all_hours (unstacked hour sub name) in
  {| hours := all_hours;
     promo := get_or_zeros (column "promo") all_hours;
     demo := get_or_zeros (column "demo") all_hours;
     ai_assist := get_or_zeros (column "ai_assist") all_hours;
     job_placements := get_or_zeros (Some (onto_all_hours merged)) all_hours |}.

(** ** The Summary Statistics Engine *)

Record StatRow := {
  Metric : string;
  Mean : fnum;
  Median : fnum;
  Standard_Deviation : fnum
}.

Definition stat_row (name : string) (series : list Z) : StatRow :=
  {| Metric := name; Mean := mean series; Median := median series;
     Standard_Deviation := std series |}.

Definition round_row (r : StatRow) : StatRow :=
  {| Metric := Metric r; Mean := round2 (Mean r); Median := round2 (Median r);
     Standard_Deviation := round2 (Standard_Deviation r) |}.

(** The daily count series of [stats_data] (lines 429-434, and again
    268-273): demo, ai_assist, promo, job placements. *)
Record StatsData := {
  s_date : list Date;
  s_demo : list Z;
  s_ai_assist : list Z;
  s_promo : list Z;
  s_job_placements : list Z
}.

Definition stats_data_of (rows : list DfRow) : StatsData :=
  let index := key_index date rows in
  let job_placement_data := groupby_size date (filter is_job rows) in
  {| s_date := index;
     s_promo := get_or_zeros (unstacked date rows "promo") index;
     s_demo := get_or_zeros (unstacked date rows "demo") index;
     s_ai_assist := get_or_zeros (unstacked date rows "ai_assist") index;
     s_job_placements := merge_left index job_placement_data |}.

(** Lines 436-460 of [update_dashboard]: the table shown on screen. *)
Definition live_summary_stats (rows : list DfRow) : list StatRow :=
  let stats_data := stats_data_of rows in
  let summary_stats :=
    [ stat_row "Demo Requests" (s_demo stats_data);
      stat_row "AI Assist Requests" (s_ai_assist stats_data);
      stat_row "Promo Events" (s_promo stats_data);
      stat_row "Job Placements" (s_job_placements stats_data) ] in
  map round_row summary_stats.


(** The fifteen outputs of the main callback, in the callback's order. *)
Record Outputs := {
  kpi_cards : list MetricCard;
  revenue_bar : Figure;
  request_pie : Figure;
  job_type_bar : Figure;
  affiliate_bar : Figure;
  revenue_map : Figure;
  trend_graph : Figure;
  filtered_data : list DfRow;           (* the store read by the download *)
  error_message : Message;
  continent_value : option string;
  country_value : option (list string);
  product_value : option (list string);
  start_date_value : DateInput;
  end_date_value : DateInput;
  summary_stats_table : list StatRow
}.

(** The computed part of the outputs: KPI cards, charts, summary table,
    retained rows and message, without the values sent back to the controls. *)
Definition same_bundle (a b : Outputs) : Prop :=
  kpi_cards a = kpi_cards b
  /\ revenue_bar a = revenue_bar b /\ request_pie a = request_pie b
  /\ job_type_bar a = job_type_bar b /\ affiliate_bar a = affiliate_bar b
  /\ revenue_map a = revenue_map b /\ trend_graph a = trend_graph b
  /\ filtered_data a = filtered_data b
  /\ error_message a = error_message b
  /\ summary_stats_table a = summary_stats_table b.

(** The values of the six filter controls in the browser. *)
Record Controls := {
  c_continent : option string;
  c_countries : option (list string);
  c_products : option (list string);
  c_start_date : DateInput;
  c_end_date : DateInput;
  c_trend_view : option string
}.

(** The controls after a cycle: the five properties that the main callback
    lists as [Output] (lines 314-318) take the values it returns; the
    trend-view dropdown is among its [Input]s only (line 328), so it keeps
    the value it had. *)
Definition controls_after (before : Controls) (outputs : Outputs) : Controls :=
  {| c_continent := continent_value outputs;
     c_countries := country_value outputs;
     c_products := product_value outputs;
     c_start_date := start_date_value outputs;
     c_end_date := end_date_value outputs;
     c_trend_view := c_trend_view before |}.

(** A retained record: the schema columns of [r] with the two derived ones. *)
Definition retained (r : Row) : DfRow :=
  {| base := r; date := Some (dt_date (timestamp r)); hour := Some (dt_hour (timestamp r)) |}.

(** ** The download callback *)

(** Lines 262-300.  The stored records come back with their timestamps as
    texts, which [pd.to_datetime] reads back unchanged; the file is the table
    below written as CSV (the file name carries the wall-clock time). *)
Definition download_report (filtered_data : option (list DfRow)) : option (list StatRow) :=
  match filtered_data with
  | None | Some [] => None
  | Some records =>
      let filtered_df := map with_date records in
      let stats_data := stats_data_of filtered_df in
      let summary_stats :=
        [ stat_row "Demo Requests" (s_demo stats_data);
          stat_row "AI Assist Requests" (s_ai_assist stats_data);
          stat_row "Promo Events" (s_promo stats_data);
          stat_row "Job Placements" (s_job_placements stats_data) ] in
      Some summary_stats
  end.

(** ** The filter options (lines 42-47, 155-160 and 244-253) *)

Section SortedUnique.
Variable A : Type.
Variable eqb leb : A -> A -> bool.

(** [xs.unique()]: the distinct values, in order of first appearance. *)
Fixpoint unique_from (seen xs : list A) : list A :=
  match xs with
  | [] => []
  | x :: xs' =>
      if existsb (eqb x) seen then unique_from seen xs'
      else x :: unique_from (x :: seen) xs'
  end.

Definition unique (xs : list A) : list A := unique_from [] xs.

Fixpoint insort (x : A) (l : list A) : list A :=
  match l with
  | [] => [x]
  | y :: l' => if leb x y then x :: l else y :: insort x l'
  end.

(** [sorted(xs)] *)
Definition sorted (xs : list A) : list A := fold_right insort [] xs.
End SortedUnique.

(** [[{'label': c, 'value': c} for c in values]] *)
Definition options_of (values : list string) : list Dropdown.entry :=
  map (fun c => {| Dropdown.label := c; Dropdown.value := c |}) values.

Definition is_empty_table (csv : list Row) : bool :=
  match csv with [] => true | _ => false end.

(** [df.groupby('continent')['country'].unique().to_dict() if not df.empty else {}] *)
Definition continent_countries (csv : list Row) : list (string * list string) :=
  if is_empty_table csv then []
  else map (fun c => (c, unique String.eqb
                           (map country (filter (fun r => String.eqb (continent r) c) csv))))
           (group_keys String.compare (map continent csv)).

(** [d.get(key, default)] *)
Fixpoint dict_get (key : string) (d : list (string * list string)) (default : list string)
  : list string :=
  match d with
  | [] => default
  | (k, v) :: d' => if String.eqb k key then v else dict_get key d' default
  end.

(** Line 44. *)
Definition continent_options (csv : list Row) : list Dropdown.entry :=
  if is_empty_table csv then []
  else options_of (sorted String.leb (unique String.eqb (map continent csv))).

(** Line 47. *)
Definition product_options (csv : list Row) : list Dropdown.entry :=
  if is_empty_table csv then []
  else options_of (sorted String.leb (unique String.eqb (map product_type csv))).

(** The callback of the country dropdown (lines 249-253). *)
Definition update_country_filter (csv : list Row) (continent : option string)
  : list Dropdown.entry :=
  if negb (truthy_str continent) || is_empty_table csv then
    if negb (is_empty_table csv)
    then options_of (sorted String.leb (unique String.eqb (map country csv)))
    else []
  else
    let countries := sorted String.leb
                       (dict_get (unwrap_str continent) (continent_countries csv) []) in
    options_of countries.

(** The options of the trend-view dropdown (lines 155-160), for a table
    whose timestamp column holds timestamps: the table read from the file,
    also when cleaning has dropped all of its rows.  (The frame that replaces
    an unreadable file has no timestamps, and [.dt] raises on it.) *)
Definition trend_view_options (csv : list Row) : list Dropdown.entry :=
  {| Dropdown.label := "Average 24-Hour Trend"; Dropdown.value := "average" |}
  :: map (fun d => {| Dropdown.label := isoformat d; Dropdown.value := isoformat d |})
         (sorted Z.leb (unique Z.eqb (map (fun r => dt_date (timestamp r)) csv))).

(** The order of the three card statuses, worst first. *)
Definition status_rank (s : Status) : Z :=
  match s with danger => 0 | warning => 1 | success => 2 end.

(** [sum] of a list of amounts. *)
Definition amount_sum (xs : list Q) : Q := fold_right Qplus 0%Q xs.

(** ** Loading and cleaning the data set (lines 27-40) *)

(** A row as [pd.read_csv] hands it over: a missing cell is [None]; the two
    numeric cells hold what [pd.to_numeric(errors='coerce')] makes of them, a
    number or [None] for NaN. *)
Record RawRow := {
  raw_timestamp : option string;
  raw_continent : option string;
  raw_country : option string;
  raw_salesperson_id : option string;
  raw_product_type : option string;
  raw_request_type : option string;
  raw_job_type : option string;
  raw_revenue : option Q;
  raw_purchase_flag : option Z;
  raw_affiliate_code : option string
}.

(** [cell.fillna(default)] *)
Definition fillna {A} (default : A) (cell : option A) : A :=
  match cell with Some x => x | None => default end.

(** What [pd.read_csv] yields: an exception, or the rows of the file. *)
Inductive CsvFile :=
| Unreadable
| Frame (rows : list RawRow).

Section Loader.

(** [pd.to_datetime(text, format='%Y-%m-%d %H:%M:%S', errors='coerce')] on
    one cell, NaT as [None]. *)
Variable strptime : string -> option Timestamp.

Definition coerce_timestamp (cell : option string) : option Timestamp :=
  match cell with Some text => strptime text | None => None end.

(** Lines 30-36 on one row: [None] when [dropna] drops the row. *)
Definition clean_row (raw : RawRow) : option Row :=
  match coerce_timestamp (raw_timestamp raw), raw_continent raw, raw_country raw,
        raw_product_type raw, raw_request_type raw, raw_salesperson_id raw with
  | Some t, Some continent, Some country, Some product, Some _, Some salesperson =>
      Some {| timestamp := t;
              continent := continent;
              country := country;
              salesperson_id := salesperson;
              product_type := product;
              request_type := fillna "Unknown" (raw_request_type raw);
              job_type := fillna "None" (raw_job_type raw);
              revenue := fillna 0%Q (raw_revenue raw);
              purchase_flag := fillna 0 (raw_purchase_flag raw);
              affiliate_code := fillna "None" (raw_affiliate_code raw) |}
  | _, _, _, _, _, _ => None
  end.

(** Lines 28-40: the cleaned table, empty when reading raises. *)
Definition load_data (file : CsvFile) : list Row :=
  match file with
  | Unreadable => []
  | Frame rows =>
      flat_map (fun raw => match clean_row raw with Some r => [r] | None => [] end) rows
  end.

End Loader.

(** A raw row has the six cells that [dropna] requires. *)
Definition complete (strptime : string -> option Timestamp) (raw : RawRow) : bool :=
  match coerce_timestamp strptime (raw_timestamp raw), raw_continent raw, raw_country raw,
        raw_product_type raw, raw_request_type raw, raw_salesperson_id raw with
  | Some _, Some _, Some _, Some _, Some _, Some _ => true
  | _, _, _, _, _, _ => false
  end.

(** ** The synthetic data set ([synthetic_dataset.py]) *)

Definition CONTINENTS : list (string * list string) :=
  [ ("North America", ["USA"; "Canada"; "Mexico"]);
    ("Europe", ["UK"; "Germany"; "France"; "Italy"; "Spain"]);
    ("Asia", ["Japan"; "China"; "India"; "UAE"; "South Korea"]);
    ("Africa", ["South Africa"; "Nigeria"; "Kenya"; "Egypt"; "Ghana"; "Ethiopia";
                "Algeria"; "Uganda"; "Morocco"; "Tanzania"]);
    ("South America", ["Brazil"; "Argentina"]);
    ("Oceania", ["Australia"; "New Zealand"]) ].

(** [list(DISTRIBUTION.keys())] *)
Definition DISTRIBUTION_keys : list string :=
  ["North America"; "Europe"; "Asia"; "Africa"; "South America"; "Oceania"].

Definition SALESPEOPLE : list string := ["SP001"; "SP002"; "SP003"; "SP004"; "SP005"; "SP006"].
Definition PRODUCT_TYPES : list string :=
  ["AI-Powered CRM"; "Virtual Assistant Suite"; "Predictive Analytics Platform";
   "Automated Workflow Engine"].
Definition REQUEST_TYPES : list string := ["demo"; "ai_assist"; "promo"; "job"].
Definition JOB_TYPES : list string := ["software_dev"; "prototyping"; "consulting"].
Definition STATUS_CODES : list Z := [200; 404].
Definition START_DATE : Timestamp := datetime 2024 1 1 0 0 0.
Definition END_DATE : Timestamp := datetime 2025 5 31 0 0 0.

(** The random draws that one pass of the loop can consume (the job type,
    the amount and the purchase coin are drawn only when needed).  A draw of
    [random.choice] or [random.choices] is the position of the element it
    picks. *)
Record Draws := {
  draw_continent : nat;
  draw_country : nat;
  draw_day : Z;                (* random.randint(0, days) *)
  draw_hour : Z;
  draw_minute : Z;
  draw_second : Z;
  draw_salesperson : nat;
  draw_product : nat;
  draw_request : nat;
  draw_job : nat;
  draw_status : nat;
  draw_affiliate : nat;
  draw_revenue_coin : Q;       (* random.random() *)
  draw_uniform : Q;            (* random.uniform(100, 300) *)
  draw_purchase_coin : Q       (* random.random() *)
}.

(** One line of the generated file (the columns of line 69). *)
Record GeneratedRow := {
  g_timestamp : Timestamp;     (* written with strftime('%Y-%m-%d %H:%M:%S') *)
  g_country : string;
  g_continent : string;
  g_salesperson_id : string;
  g_product_type : string;
  g_request_type : string;
  g_job_type : string;
  g_status_code : Z;
  g_affiliate_code : string;
  g_revenue : Q;
  g_purchase_flag : Z
}.

(** [round(x, 2)] *)
Definition round_2 (x : Q) : Q := (inject_Z (round_half_even (x * 100)) / 100)%Q.

(** The body of the loop (lines 32-66). *)
Definition generate_row (AFFILIATE_CODES : list string) (d : Draws) : GeneratedRow :=
  let continent := nth (draw_continent d) DISTRIBUTION_keys EmptyString in
  let country := nth (draw_country d) (dict_get continent CONTINENTS []) EmptyString in
  let days := (END_DATE - START_DATE) / 86400 in
  let random_date := START_DATE + draw_day d * 86400 in
  let timestamp := dt_date random_date * 86400
                   + draw_hour d * 3600 + draw_minute d * 60 + draw_second d in
  let salesperson := nth (draw_salesperson d) SALESPEOPLE EmptyString in
  let product_type := nth (draw_product d) PRODUCT_TYPES EmptyString in
  let request_type := nth (draw_request d) REQUEST_TYPES EmptyString in
  let job_type := if String.eqb request_type "job"
                  then nth (draw_job d) JOB_TYPES EmptyString else EmptyString in
  let status_code := nth (draw_status d) STATUS_CODES 0 in
  let affiliate_code := nth (draw_affiliate d) AFFILIATE_CODES EmptyString in
  let revenue :=
    if isin request_type ["job"; "demo"] && negb (Qle_bool (3 # 10) (draw_revenue_coin d))
    then round_2 (draw_uniform d) else 0%Q in
  let purchase_flag :=
    if negb (Qle_bool revenue 0) && negb (Qle_bool (1 # 2) (draw_purchase_coin d))
    then 1 else 0 in
  {| g_timestamp := timestamp; g_country := country; g_continent := continent;
     g_salesperson_id := salesperson; g_product_type := product_type;
     g_request_type := request_type; g_job_type := job_type;
     g_status_code := status_code; g_affiliate_code := affiliate_code;
     g_revenue := revenue; g_purchase_flag := purchase_flag |}.

(** The draws are within the ranges of the calls that make them. *)
Definition in_range_draws (AFFILIATE_CODES : list string) (d : Draws) : Prop :=
  (draw_continent d < List.length DISTRIBUTION_keys)%nat
  /\ (draw_country d
      < List.length (dict_get (nth (draw_continent d) DISTRIBUTION_keys EmptyString)
                       CONTINENTS []))%nat
  /\ 0 <= draw_day d <= (END_DATE - START_DATE) / 86400
  /\ 0 <= draw_hour d <= 23 /\ 0 <= draw_minute d <= 59 /\ 0 <= draw_second d <= 59
  /\ (draw_salesperson d < List.length SALESPEOPLE)%nat
  /\ (draw_product d < List.length PRODUCT_TYPES)%nat
  /\ (draw_request d < List.length REQUEST_TYPES)%nat
  /\ (draw_job d < List.length JOB_TYPES)%nat
  /\ (draw_status d < List.length STATUS_CODES)%nat
  /\ (draw_affiliate d < List.length AFFILIATE_CODES)%nat
  /\ (100 <= draw_uniform d <= 300)%Q.

(** The rows of the file: one per pass of the loop. *)
Definition generate (AFFILIATE_CODES : list string) (draws : list Draws)
  : list GeneratedRow :=
  map (generate_row AFFILIATE_CODES) draws.

(** ** Sample tables and one behaviour of the libraries *)

(** The texts that pandas reads as NaT. *)
Definition nat_texts : list string :=
  [EmptyString; "NaT"; "nat"; "NAT"; "nan"; "NaN"; "NAN"].

(** For the concrete runs: ISO dates and the NaT texts, [None] answered by
    NaT; sums without rounding, which is what the doubles give on the whole
    amounts of the sample tables; the scopes of plotly's documentation. *)
Definition sample_to_datetime (x : option string) : outcome datetime_value :=
  match x with
  | None => Ok NaT
  | Some s =>
      if isin s nat_texts then Ok NaT
      else match fromisoformat s with
           | Some d => Ok (Stamp d)
           | None => Raise (ParseError s)
           end
  end.

Definition sample_libraries : Libraries :=
  {| pd_to_datetime := sample_to_datetime;
     float_sum := amount_sum;
     group_sum := amount_sum;
     geo_scope := fun scope =>
       isin scope ["usa"; "europe"; "asia"; "africa"; "north america"; "south america"] |}.

Definition sample_row (t : Timestamp) (continent country request job : string)
    (revenue : Q) (flag : Z) : Row :=
  {| timestamp := t; continent := continent; country := country;
     salesperson_id := "SP001"; product_type := "AI-Powered CRM";
     request_type := request; job_type := job; revenue := revenue;
     purchase_flag := flag; affiliate_code := "AF001" |}.

(** The single row of the scenarios of the specification. *)
Definition germany_demo : Row :=
  sample_row (datetime 2024 3 1 10 0 0) "Europe" "Germany" "demo" "None" 150 1.

Definition one_row_table : list Row := [germany_demo].

(** Four events over three days. *)
Definition four_row_table : list Row :=
  [ germany_demo;
    sample_row (datetime 2024 3 2 11 0 0) "Europe" "France" "job" "consulting" 200 0;
    sample_row (datetime 2024 3 2 11 30 0) "Europe" "France" "job" "consulting" 200 0;
    sample_row (datetime 2024 3 4 23 59 59) "Asia" "Japan" "promo" "None" 0 0 ].

(** A demo request that did not end in a purchase. *)
Definition no_purchase_table : list Row :=
  [ sample_row (datetime 2024 3 1 10 0 0) "Europe" "Germany" "demo" "None" 0 0 ].

(** A filter state: Europe, one product, the first three days of March. *)
Definition europe_in_march : locals :=
  {| Var.filtered_df := df; Var.continent := Some "Europe"; Var.countries := None;
     Var.products := Some ["AI-Powered CRM"];
     Var.start_date := DStr "2024-03-01"; Var.end_date := DStr "2024-03-03";
     Var.trend_view := Some "average" |}.

(** One instance of the timestamp parser of the loader: the texts of the
    format ['%Y-%m-%d %H:%M:%S']. *)
Definition parse_timestamp (text : string) : option Timestamp :=
  if negb (Nat.eqb (String.length text) 19) then None else
  if negb (String.eqb (substring 10 1 text) " " && String.eqb (substring 13 1 text) ":"
           && String.eqb (substring 16 1 text) ":") then None else
  match fromisoformat (substring 0 10 text),
        digits_value 0 (substring 11 2 text),
        digits_value 0 (substring 14 2 text),
        digits_value 0 (substring 17 2 text) with
  | Some d, Some hh, Some mm, Some ss =>
      if (hh <? 24) && (mm <? 60) && (ss <? 60)
      then Some (d * 86400 + hh * 3600 + mm * 60 + ss) else None
  | _, _, _, _ => None
  end.

(** A file of three lines: the demo request from Germany with its job type
    left empty, a line without a request type, and a line whose timestamp
    is not of the expected format. *)
Definition sample_file : CsvFile :=
  Frame
    [ {| raw_timestamp := Some "2024-03-01 10:00:00"; raw_continent := Some "Europe";
         raw_country := Some "Germany"; raw_salesperson_id := Some "SP001";
         raw_product_type := Some "AI-Powered CRM"; raw_request_type := Some "demo";
         raw_job_type := None; raw_revenue := Some 150%Q; raw_purchase_flag := Some 1;
         raw_affiliate_code := Some "AF001" |};
      {| raw_timestamp := Some "2024-03-02 11:00:00"; raw_continent := Some "Europe";
         raw_country := Some "France"; raw_salesperson_id := Some "SP002";
         raw_product_type := Some "AI-Powered CRM"; raw_request_type := None;
         raw_job_type := Some "consulting"; raw_revenue := Some 200%Q;
         raw_purchase_flag := Some 0; raw_affiliate_code := None |};
      {| raw_timestamp := Some "02/03/2024 11:30"; raw_continent := Some "Asia";
         raw_country := Some "Japan"; raw_salesperson_id := Some "SP003";
         raw_product_type := Some "AI-Powered CRM"; raw_request_type := Some "promo";
         raw_job_type := None; raw_revenue := None; raw_purchase_flag := None;
         raw_affiliate_code := None |} ].

Definition sample_codes : list string := ["AF001"; "AF002"].

(** Two passes of the generator loop: a paid demo from Germany on
    2024-01-15, and a job request from Japan on the last day. *)
Definition sample_draws : list Draws :=
  [ {| draw_continent := 1; draw_country := 1; draw_day := 14; draw_hour := 10;
       draw_minute := 30; draw_second := 0; draw_salesperson := 0; draw_product := 0;
       draw_request := 0; draw_job := 0; draw_status := 0; draw_affiliate := 0;
       draw_revenue_coin := 1 # 10; draw_uniform := 15012345 # 100000;
       draw_purchase_coin := 1 # 4 |};
    {| draw_continent := 2; draw_country := 0; draw_day := 516; draw_hour := 23;
       draw_minute := 59; draw_second := 59; draw_salesperson := 5; draw_product := 3;
       draw_request := 3; draw_job := 2; draw_status := 1; draw_affiliate := 1;
       draw_revenue_coin := 9 # 10; draw_uniform := 250;
       draw_purchase_coin := 1 # 4 |} ].


(** ** The callbacks *)

(** The date that pandas reads the text as, when it reads it as a
    timestamp. *)
Definition to_datetime (s : string) : option Date :=
  match pd_to_datetime lib (Some s) with
  | Ok (Stamp d) => Some d
  | _ => None
  end.

(** [x.date()] on what [pd.to_datetime] answered: the date of a timestamp;
    NaT again for NaT, [None] here; an exception for [None]. *)
Definition date_of (x : outcome datetime_value) : outcome (option Date) :=
  match x with
  | Ok (Stamp d) => Ok (Some d)
  | Ok NaT => Ok None
  | Ok PyNone => Raise AttributeError
  | Raise e => Raise e
  end.

(** [pd.to_datetime(v).date()] as a value or an exception. *)
Definition date_outcome (v : DateInput) : outcome (option Date) :=
  match v with
  | DNone => date_of (pd_to_datetime lib None)
  | DStr s => date_of (pd_to_datetime lib (Some s))
  | DDate d => Ok (Some d)
  | DNaT => Ok None
  end.

(** [pd.to_datetime(v).date()] *)
Definition to_date (v : DateInput) : M (option Date) :=
  match date_outcome v with
  | Ok d => ret d
  | Raise e => raise e
  end.

(** *** The Filter Engine: the four filter statements (lines 346-360) *)

Definition filter_continent (v : locals) : M locals :=
  if truthy_str (Var.continent v) then
    l <- select "continent"
           (fun r => String.eqb (continent r) (unwrap_str (Var.continent v)))
           (Var.filtered_df v) ;;
    ret (rebind_df v l)
  else ret v.

Definition filter_countries (v : locals) : M locals :=
  if truthy_list (Var.countries v) then
    l <- select "country" (fun r => isin (country r) (unwrap_list (Var.countries v)))
           (Var.filtered_df v) ;;
    ret (rebind_df v l)
  else ret v.

Definition filter_products (v : locals) : M locals :=
  if truthy_list (Var.products v) then
    l <- select "product_type"
           (fun r => isin (product_type r) (unwrap_list (Var.products v)))
           (Var.filtered_df v) ;;
    ret (rebind_df v l)
  else ret v.

Definition in_range (s e : Date) (r : Row) : bool :=
  (s <=? dt_date (timestamp r)) && (dt_date (timestamp r) <=? e).

(** [date >= bound] and [date <= bound]: every comparison with NaT is
    false. *)
Definition date_ge (x : Date) (bound : option Date) : bool :=
  match bound with Some d => d <=? x | None => false end.

Definition date_le (x : Date) (bound : option Date) : bool :=
  match bound with Some d => x <=? d | None => false end.

(** [(dt.date >= start_date) & (dt.date <= end_date)] *)
Definition in_bounds (s e : option Date) (r : Row) : bool :=
  date_ge (dt_date (timestamp r)) s && date_le (dt_date (timestamp r)) e.

Definition filter_dates (v : locals) : M locals :=
  if truthy_date (Var.start_date v) && truthy_date (Var.end_date v) then
    s <- to_date (Var.start_date v) ;;
    e <- to_date (Var.end_date v) ;;
    l <- select "timestamp" (in_bounds s e) (Var.filtered_df v) ;;
    ret (rebind_dates v l s e)
  else ret v.

Definition apply_filter (k : filter_kind) : locals -> M locals :=
  match k with
  | ByContinent => filter_continent
  | ByCountries => filter_countries
  | ByProducts => filter_products
  | ByDates => filter_dates
  end.

(** The filter statements run one after the other, in a given order. *)
Fixpoint apply_filters (order : list filter_kind) (v : locals) : M locals :=
  match order with
  | [] => ret v
  | k :: order' => v' <- apply_filter k v ;; apply_filters order' v'
  end.

(** The order in which [update_dashboard] writes them. *)
Definition source_order : list filter_kind :=
  [ByContinent; ByCountries; ByProducts; ByDates].

(** *** The filter predicates in the words of the specification (section 4.1) *)

Definition parsed (d : DateInput) : option Date :=
  match d with
  | DNone => None
  | DStr s => to_datetime s
  | DDate d => Some d
  | DNaT => None
  end.

Definition dates_given (v : locals) : bool :=
  truthy_date (Var.start_date v) && truthy_date (Var.end_date v).

(** The inclusive range [start, end] of a filter state whose bounds parse. *)
Definition range_of (v : locals) : option (Date * Date) :=
  if dates_given v then
    match parsed (Var.start_date v), parsed (Var.end_date v) with
    | Some s, Some e => Some (s, e)
    | _, _ => None
    end
  else None.

(** The bounds of the filter state, when given, parse as dates. *)
Definition dates_parse (v : locals) : bool :=
  if dates_given v then
    match parsed (Var.start_date v), parsed (Var.end_date v) with
    | Some _, Some _ => true
    | _, _ => false
    end
  else true.

(** "keep rows where ..., if set" *)
Definition passes (k : filter_kind) (v : locals) (r : Row) : bool :=
  match k with
  | ByContinent =>
      if truthy_str (Var.continent v)
      then String.eqb (continent r) (unwrap_str (Var.continent v)) else true
  | ByCountries =>
      if truthy_list (Var.countries v)
      then isin (country r) (unwrap_list (Var.countries v)) else true
  | ByProducts =>
      if truthy_list (Var.products v)
      then isin (product_type r) (unwrap_list (Var.products v)) else true
  | ByDates =>
      match range_of v with
      | Some (s, e) => in_range s e r
      | None => true
      end
  end.

(** "Filters compose by conjunction (AND)" *)
Definition passes_all (v : locals) (r : Row) : bool :=
  passes ByContinent v r && passes ByCountries v r
  && passes ByProducts v r && passes ByDates v r.

(** The rows of a frame that the filter state keeps. *)
Definition filtered (v : locals) (rows : list DfRow) : list DfRow :=
  filter (fun r => passes_all v (base r)) rows.

(** The date variables after the date filter has run: rebound to the parsed
    dates when both were given (lines 355-356). *)
Definition echo_date (given : bool) (d : DateInput) : DateInput :=
  if given then match parsed d with Some s => DDate s | None => d end else d.

Definition echo_dates (v : locals) : locals :=
  {| Var.filtered_df := Var.filtered_df v; Var.continent := Var.continent v;
     Var.countries := Var.countries v; Var.products := Var.products v;
     Var.start_date := echo_date (dates_given v) (Var.start_date v);
     Var.end_date := echo_date (dates_given v) (Var.end_date v);
     Var.trend_view := Var.trend_view v |}.

(** What a filter statement leaves in the variables. *)
Definition after (k : filter_kind) (v : locals) : locals :=
  match k with ByDates => echo_dates v | _ => v end.

(** The frame that [filtered_df] names holds the rows [rows]. *)
Definition holds (h : heap) (v : locals) (rows : list DfRow) : Prop :=
  nth_error h (Var.filtered_df v) = Some (Table rows).

(** *** The Interaction Controller *)

Section Cycle.

(** The module-level bounds computed at load. *)
Variables min_date max_date : Date.

(** The tuple returned on the three failure branches (lines 365-369,
    375-379 and 635-639). *)
Definition placeholder (title : string) (message : Message) : Outputs :=
  let empty_fig := empty_fig title in
  {| kpi_cards := [];
     revenue_bar := empty_fig; request_pie := empty_fig; job_type_bar := empty_fig;
     affiliate_bar := empty_fig; revenue_map := empty_fig; trend_graph := empty_fig;
     filtered_data := [];
     error_message := message;
     continent_value := None; country_value := Some []; product_value := Some [];
     start_date_value := DDate min_date; end_date_value := DDate max_date;
     summary_stats_table := [] |}.

Definition is_average (trend_view : option string) : bool :=
  match trend_view with Some s => String.eqb s "average" | None => false end.

(** [dt.date == selected_date]: false for NaT. *)
Definition same_date (x : Date) (selected_date : option Date) : bool :=
  match selected_date with Some d => x =? d | None => false end.

(** [f'{selected_date}'] *)
Definition str_date (selected_date : option Date) : string :=
  match selected_date with Some d => isoformat d | None => "NaT" end.

(** The trend view as the argument of [pd.to_datetime]. *)
Definition trend_input (trend_view : option string) : DateInput :=
  match trend_view with Some s => DStr s | None => DNone end.

(** Lines 557-578: the trend frame and its title. *)
Definition trend_figure (trend_view : option string) (rows : list DfRow) : M Figure :=
  if is_average trend_view then
    ret (fig_trend "Average Hourly Trends: Promo, Demo, AI Assist, and Job Placements"
                   (hourly_trend rows))
  else
    selected_date <- to_date (trend_input trend_view) ;;
    let on_date :=
      filter (fun r => same_date (dt_date (timestamp (base r))) selected_date) rows in
    ret (fig_trend ("Hourly Trends on " ++ str_date selected_date
                      ++ ": Promo, Demo, AI Assist, and Job Placements")%string
                   (hourly_trend on_date)).

Definition is_reset (triggered_id : option string) : bool :=
  match triggered_id with Some s => String.eqb s "reset-button" | None => false end.

(** Lines 336-343: the arguments as the body sees them. *)
Definition handle_reset (triggered_id : option string) (filtered_df : loc)
    (continent : option string) (countries products : option (list string))
    (start_date end_date : DateInput) (trend_view : option string) : locals :=
  if is_reset triggered_id then
    {| Var.filtered_df := filtered_df; Var.continent := None; Var.countries := Some [];
       Var.products := Some []; Var.start_date := DDate min_date;
       Var.end_date := DDate max_date; Var.trend_view := Some "average" |}
  else
    {| Var.filtered_df := filtered_df; Var.continent := continent;
       Var.countries := countries; Var.products := products;
       Var.start_date := start_date; Var.end_date := end_date;
       Var.trend_view := trend_view |}.

(** Lines 371-629: the empty check, then the aggregates of the filtered
    frame and the tuple of outputs. *)
Definition aggregate (v : locals) : M Outputs :=
  f <- deref (Var.filtered_df v) ;;
  if df_empty f then ret (placeholder "No Data Available" no_data_available)
  else
    let kpi_cards := kpi_cards_of (compute_kpis (rows_of f)) in
    assign_column with_date (Var.filtered_df v) ;;;
    f <- deref (Var.filtered_df v) ;;
    let stats_table := live_summary_stats (rows_of f) in
    let fig_bar := revenue_bar_of (rows_of f) in
    let fig_pie := request_pie_of (rows_of f) in
    let fig_job := job_type_bar_of (rows_of f) in
    let fig_affiliate := affiliate_bar_of (rows_of f) in
    fig_map <- revenue_map_of (Var.continent v) (rows_of f) ;;
    assign_column with_hour (Var.filtered_df v) ;;;
    f <- deref (Var.filtered_df v) ;;
    fig_trend <- trend_figure (Var.trend_view v) (rows_of f) ;;
    f <- deref (Var.filtered_df v) ;;
    ret {| kpi_cards := kpi_cards;
           revenue_bar := fig_bar; request_pie := fig_pie; job_type_bar := fig_job;
           affiliate_bar := fig_affiliate; revenue_map := fig_map;
           trend_graph := fig_trend;
           filtered_data := rows_of f;
           error_message := healthy;
           continent_value := Var.continent v; country_value := Var.countries v;
           product_value := Var.products v;
           start_date_value := Var.start_date v; end_date_value := Var.end_date v;
           summary_stats_table := stats_table |}.

(** The outputs of [aggregate] on a non-empty frame with rows [rows], when
    the map is drawn, given the trend figure. *)
Definition cycle_outputs (v : locals) (rows : list DfRow) (fig_trend : Figure) : Outputs :=
  {| kpi_cards := kpi_cards_of (compute_kpis rows);
     revenue_bar := revenue_bar_of (map with_date rows);
     request_pie := request_pie_of (map with_date rows);
     job_type_bar := job_type_bar_of (map with_date rows);
     affiliate_bar := affiliate_bar_of (map with_date rows);
     revenue_map := revenue_map_figure (Var.continent v) (map with_date rows);
     trend_graph := fig_trend;
     filtered_data := map with_hour (map with_date rows);
     error_message := healthy;
     continent_value := Var.continent v; country_value := Var.countries v;
     product_value := Var.products v;
     start_date_value := Var.start_date v; end_date_value := Var.end_date v;
     summary_stats_table := live_summary_stats (map with_date rows) |}.

(** The trend figure, or the exception of a trend view that is no date. *)
Definition trend_of (trend_view : option string) (rows : list DfRow) : outcome Figure :=
  fst (trend_figure trend_view rows []).

(** What the body of the outer [try] computes when [filtered_df] names a
    frame with the rows [rows]. *)
Definition cycle_on_table (v : locals) (rows : list DfRow) : outcome Outputs :=
  if dates_parse v then
    match filtered v rows with
    | [] => Ok (placeholder "No Data Available" no_data_available)
    | kept =>
        if accepts_scope (scope_of (Var.continent v)) then
          match trend_of (Var.trend_view v) (map with_hour (map with_date kept)) with
          | Ok fig => Ok (cycle_outputs (echo_dates v) kept fig)
          | Raise e => Raise e
          end
        else Raise (ValueError (scope_of (Var.continent v)))
    end
  else
    match date_outcome (Var.start_date v), date_outcome (Var.end_date v) with
    | Ok _, Ok _ =>
        (* a bound is NaT: no row is in the range *)
        Ok (placeholder "No Data Available" no_data_available)
    | _, _ => Ok (placeholder "Invalid Date Range" invalid_date_range_selected)
    end.

(** Lines 346-629: the body of the outer [try]. *)
Definition filter_and_aggregate (v : locals) : M Outputs :=
  v <- filter_continent v ;;
  v <- filter_countries v ;;
  v <- filter_products v ;;
  dated <- try_except (v' <- filter_dates v ;; ret (Some v')) (fun _ => ret None) ;;
  match dated with
  | None => ret (placeholder "Invalid Date Range" invalid_date_range_selected)
  | Some v => aggregate v
  end.

(** The main callback.  [reset_clicks] is an argument of the source that the
    body never reads; [triggered_id] is [callback_context.triggered_id]. *)
Definition update_dashboard (triggered_id : option string)
    (continent : option string) (countries products : option (list string))
    (start_date end_date : DateInput) (trend_view : option string) : M Outputs :=
  base_table <- deref df ;;
  filtered_df <- (if negb (df_empty base_table) then alloc base_table else alloc NoColumns) ;;
  let v := handle_reset triggered_id filtered_df
             continent countries products start_date end_date trend_view in
  try_except (filter_and_aggregate v)
    (fun e => ret (placeholder "Error Occurred" (error_updating_dashboard e))).

End Cycle.

(** One filter cycle from the state at load: the outputs and the store the
    cycle leaves behind. *)
Definition run_cycle (csv : list Row) (triggered_id : option string)
    (continent : option string) (countries products : option (list string))
    (start_date end_date : DateInput) (trend_view : option string)
  : outcome Outputs * heap :=
  update_dashboard (min_date_of csv) (max_date_of csv) triggered_id
    continent countries products start_date end_date trend_view (initial_heap csv).

(** * Properties *)

Unset Implicit Arguments.

(** ** The object store and the monad *)

Lemma nth_error_alloc (h : heap) (f : DataFrame) :
  nth_error (h ++ [f]) (List.length h) = Some f.
Proof.
  induction h as [|g h IH]; simpl; auto.
Qed.

Lemma nth_error_kept (h t : heap) (l : loc) (g : DataFrame) :
  nth_error h l = Some g -> nth_error (h ++ t) l = Some g.
Proof.
  intros H. rewrite nth_error_app1; auto.
  apply nth_error_Some. congruence.
Qed.

Lemma update_nth_same (h : heap) : forall (l : loc) (f g : DataFrame),
  nth_error h l = Some g -> nth_error (update_nth l f h) l = Some f.
Proof.
  induction h as [|x h IH]; intros [|l] f g H; simpl in *; try discriminate; eauto.
Qed.

Lemma update_nth_other (h : heap) : forall (l l' : loc) (f : DataFrame),
  l <> l' -> nth_error (update_nth l f h) l' = nth_error h l'.
Proof.
  induction h as [|x h IH]; intros [|l] [|l'] f H; simpl; auto; try congruence.
Qed.

Lemma bind_ok {A B} (m : M A) (k : A -> M B) (h h' : heap) (a : A) :
  m h = (Ok a, h') -> bind m k h = k a h'.
Proof. intros H. unfold bind. rewrite H. reflexivity. Qed.

Lemma bind_raise {A B} (m : M A) (k : A -> M B) (h h' : heap) (e : exn) :
  m h = (Raise e, h') -> bind m k h = (Raise e, h').
Proof. intros H. unfold bind. rewrite H. reflexivity. Qed.

Lemma try_ok {A} (m : M A) (k : exn -> M A) (h h' : heap) (a : A) :
  m h = (Ok a, h') -> try_except m k h = (Ok a, h').
Proof. intros H. unfold try_except. rewrite H. reflexivity. Qed.

Lemma try_raise {A} (m : M A) (k : exn -> M A) (h h' : heap) (e : exn) :
  m h = (Raise e, h') -> try_except m k h = k e h'.
Proof. intros H. unfold try_except. rewrite H. reflexivity. Qed.

Lemma select_table (column : string) (mask : Row -> bool) (l : loc) (h : heap)
    (rows : list DfRow) :
  nth_error h l = Some (Table rows) ->
  select column mask l h
  = (Ok (List.length h), h ++ [Table (filter (fun r => mask (base r)) rows)]).
Proof.
  intros H. unfold select, bind, deref. rewrite H. reflexivity.
Qed.

Lemma select_no_columns (column : string) (mask : Row -> bool) (l : loc) (h : heap) :
  nth_error h l = Some NoColumns ->
  select column mask l h = (Raise (KeyError column), h).
Proof.
  intros H. unfold select, bind, deref. rewrite H. reflexivity.
Qed.

Lemma filter_true {A} (l : list A) : filter (fun _ => true) l = l.
Proof. induction l; simpl; congruence. Qed.

Lemma filter_filter {A} (p q : A -> bool) (l : list A) :
  filter q (filter p l) = filter (fun x => p x && q x) l.
Proof.
  induction l as [|x l IH]; simpl; auto.
  destruct (p x); simpl; rewrite IH; auto.
Qed.

Lemma filter_idem {A} (p : A -> bool) (l : list A) : filter p (filter p l) = filter p l.
Proof.
  rewrite filter_filter. apply filter_ext. intros x. destruct (p x); auto.
Qed.

Lemma filter_none {A} (p : A -> bool) (l : list A) :
  (forall x, In x l -> p x = false) -> filter p l = [].
Proof.
  induction l as [|x l IH]; simpl; intros H; auto.
  rewrite (H x) by auto. apply IH. intros y I. apply H. auto.
Qed.

Lemma filter_all {A} (p : A -> bool) (l : list A) :
  (forall x, In x l -> p x = true) -> filter p l = l.
Proof.
  induction l as [|x l IH]; simpl; intros H; auto.
  rewrite (H x) by auto. f_equal. apply IH. intros y I. apply H. auto.
Qed.

(** ** The filter statements, one at a time *)

Lemma rebind_df_self (v : locals) : rebind_df v (Var.filtered_df v) = v.
Proof. destruct v; reflexivity. Qed.

Lemma echo_dates_not_given (v : locals) : dates_given v = false -> echo_dates v = v.
Proof. intros H. unfold echo_dates, echo_date. rewrite H. destruct v; reflexivity. Qed.

Lemma passes_rebind (k : filter_kind) (v : locals) (l : loc) (r : Row) :
  passes k (rebind_df v l) r = passes k v r.
Proof. destruct k; reflexivity. Qed.

Lemma dates_parse_given (v : locals) :
  dates_parse v = true -> dates_given v = true ->
  exists s e, parsed (Var.start_date v) = Some s /\ parsed (Var.end_date v) = Some e.
Proof.
  unfold dates_parse. intros H G. rewrite G in H.
  destruct (parsed (Var.start_date v)) as [s|]; try discriminate.
  destruct (parsed (Var.end_date v)) as [e|]; try discriminate. eauto.
Qed.

Lemma to_date_outcome (d : DateInput) (h : heap) : to_date d h = (date_outcome d, h).
Proof. unfold to_date. destruct (date_outcome d); reflexivity. Qed.

(** A given bound parses as a date exactly when [.date()] answers that
    date. *)
Lemma date_outcome_of_parsed (d : DateInput) (s : Date) :
  parsed d = Some s -> date_outcome d = Ok (Some s).
Proof.
  destruct d as [|t|x|]; cbn [date_outcome parsed]; unfold to_datetime, date_of;
    try discriminate.
  - destruct (pd_to_datetime lib (Some t)) as [[?| |]|]; intros H;
      try discriminate; congruence.
  - congruence.
Qed.

Lemma parsed_of_date_outcome (d : DateInput) (s : Date) :
  truthy_date d = true -> date_outcome d = Ok (Some s) -> parsed d = Some s.
Proof.
  destruct d as [|t|x|]; cbn [date_outcome parsed truthy_date];
    unfold to_datetime, date_of; try discriminate.
  - intros _. destruct (pd_to_datetime lib (Some t)) as [[?| |]|]; intros H;
      try discriminate; congruence.
  - congruence.
Qed.

Lemma to_date_parsed (d : DateInput) (s : Date) (h : heap) :
  parsed d = Some s -> to_date d h = (Ok (Some s), h).
Proof.
  intros H. rewrite to_date_outcome, (date_outcome_of_parsed _ _ H). reflexivity.
Qed.

Lemma in_bounds_dates (s e : Date) (r : Row) : in_bounds (Some s) (Some e) r = in_range s e r.
Proof. reflexivity. Qed.

(** A bound that is NaT leaves no row in the range. *)
Lemma in_bounds_nat (s e : option Date) (r : Row) :
  s = None \/ e = None -> in_bounds s e r = false.
Proof.
  unfold in_bounds. intros [-> | ->]; [reflexivity|]. apply andb_false_r.
Qed.

Lemma range_of_given (v : locals) (s e : Date) :
  dates_given v = true ->
  parsed (Var.start_date v) = Some s -> parsed (Var.end_date v) = Some e ->
  range_of v = Some (s, e).
Proof. intros G S E. unfold range_of. rewrite G, S, E. reflexivity. Qed.

Lemma range_of_not_given (v : locals) : dates_given v = false -> range_of v = None.
Proof. intros G. unfold range_of. rewrite G. reflexivity. Qed.

Lemma rebind_dates_echo (v : locals) (l : loc) (s e : Date) :
  dates_given v = true ->
  parsed (Var.start_date v) = Some s -> parsed (Var.end_date v) = Some e ->
  rebind_dates v l (Some s) (Some e) = rebind_df (echo_dates v) l.
Proof.
  intros G S E. unfold rebind_dates, rebind_df, echo_dates, echo_date; simpl.
  rewrite G, S, E. reflexivity.
Qed.

(** A statement whose filter is not set leaves everything as it is. *)
Lemma filter_skipped (k : filter_kind) (v : locals) (h : heap) (rows : list DfRow) :
  holds h v rows -> after k v = v ->
  (forall r, passes k v r = true) ->
  exists l t,
    (Ok v, h) = (Ok (rebind_df (after k v) l), h ++ t)
    /\ nth_error (h ++ t) l = Some (Table (filter (fun r => passes k v (base r)) rows))
    /\ (l = Var.filtered_df v \/ l = List.length h).
Proof.
  intros H A P. exists (Var.filtered_df v), [].
  rewrite A, rebind_df_self, app_nil_r. repeat split; auto.
  rewrite (filter_ext _ (fun _ => true)) by (intros; apply P).
  rewrite filter_true. exact H.
Qed.

(** A statement whose filter is set builds a new frame with the rows that
    pass: the old objects of the store stay as they were. *)
Lemma filter_selected (k : filter_kind) (v : locals) (h : heap) (rows : list DfRow)
    (column : string) (mask : Row -> bool) (rebound : loc -> locals) :
  holds h v rows ->
  (forall r, passes k v r = mask r) ->
  rebind_df (after k v) (List.length h) = rebound (List.length h) ->
  exists l t,
    (l' <- select column mask (Var.filtered_df v) ;; ret (rebound l')) h
    = (Ok (rebind_df (after k v) l), h ++ t)
    /\ nth_error (h ++ t) l = Some (Table (filter (fun r => passes k v (base r)) rows))
    /\ (l = Var.filtered_df v \/ l = List.length h).
Proof.
  intros H P W. exists (List.length h), [Table (filter (fun r => mask (base r)) rows)].
  rewrite (bind_ok _ _ _ _ _ (select_table column mask _ _ _ H)).
  unfold ret. rewrite <- W. repeat split; auto.
  rewrite nth_error_alloc. do 2 f_equal. apply filter_ext. intros r. symmetry. apply P.
Qed.

Lemma apply_filter_ok (k : filter_kind) (v : locals) (h : heap) (rows : list DfRow) :
  holds h v rows -> (k = ByDates -> dates_parse v = true) ->
  exists l t,
    apply_filter k v h = (Ok (rebind_df (after k v) l), h ++ t)
    /\ nth_error (h ++ t) l = Some (Table (filter (fun r => passes k v (base r)) rows))
    /\ (l = Var.filtered_df v \/ l = List.length h).
Proof.
  intros H D. destruct k; simpl apply_filter.
  - unfold filter_continent. destruct (truthy_str (Var.continent v)) eqn:E.
    + apply filter_selected; auto. intros r. simpl. rewrite E. reflexivity.
    + apply filter_skipped; auto. intros r. simpl. rewrite E. reflexivity.
  - unfold filter_countries. destruct (truthy_list (Var.countries v)) eqn:E.
    + apply filter_selected; auto. intros r. simpl. rewrite E. reflexivity.
    + apply filter_skipped; auto. intros r. simpl. rewrite E. reflexivity.
  - unfold filter_products. destruct (truthy_list (Var.products v)) eqn:E.
    + apply filter_selected; auto. intros r. simpl. rewrite E. reflexivity.
    + apply filter_skipped; auto. intros r. simpl. rewrite E. reflexivity.
  - unfold filter_dates. fold (dates_given v). destruct (dates_given v) eqn:G.
    + destruct (dates_parse_given v (D eq_refl) G) as (s & e & S & E).
      rewrite (bind_ok _ _ _ _ _ (to_date_parsed _ _ h S)).
      rewrite (bind_ok _ _ _ _ _ (to_date_parsed _ _ h E)).
      apply filter_selected; auto.
      * intros r. simpl. rewrite (range_of_given v s e G S E). reflexivity.
      * simpl. symmetry. apply rebind_dates_echo; auto.
    + apply filter_skipped; auto.
      * simpl. apply echo_dates_not_given; auto.
      * intros r. simpl. rewrite (range_of_not_given v G). reflexivity.
Qed.

(** With a bound that is no date the date statement raises, when
    [pd.to_datetime] raises on it, or selects no row, when a bound is NaT. *)
Lemma filter_dates_unparsed (v : locals) (h : heap) (rows : list DfRow) :
  holds h v rows -> dates_parse v = false ->
  match date_outcome (Var.start_date v), date_outcome (Var.end_date v) with
  | Ok s, Ok e =>
      filter_dates v h = (Ok (rebind_dates v (List.length h) s e), h ++ [Table []])
  | _, _ => exists x, filter_dates v h = (Raise x, h)
  end.
Proof.
  intros H. unfold dates_parse, filter_dates. fold (dates_given v).
  destruct (dates_given v) eqn:G; try discriminate. intros D.
  unfold dates_given in G. apply andb_prop in G. destruct G as [GS GE].
  destruct (date_outcome (Var.start_date v)) as [s|x] eqn:S.
  - rewrite (bind_ok _ _ h h s) by (rewrite to_date_outcome, S; reflexivity).
    destruct (date_outcome (Var.end_date v)) as [e|x] eqn:E.
    + rewrite (bind_ok _ _ h h e) by (rewrite to_date_outcome, E; reflexivity).
      rewrite (bind_ok _ _ _ _ _ (select_table "timestamp" (in_bounds s e) _ _ _ H)).
      rewrite filter_none; [reflexivity|].
      intros r _. apply in_bounds_nat.
      destruct s as [s|]; [|auto]. destruct e as [e|]; [|auto].
      apply (parsed_of_date_outcome _ _ GS) in S.
      apply (parsed_of_date_outcome _ _ GE) in E.
      rewrite S, E in D. discriminate.
    + exists x. rewrite (bind_raise _ _ h h x) by (rewrite to_date_outcome, E; reflexivity).
      reflexivity.
  - exists x. rewrite (bind_raise _ _ h h x) by (rewrite to_date_outcome, S; reflexivity).
    reflexivity.
Qed.

(** On a frame without columns the date statement raises in any case. *)
Lemma filter_dates_no_columns (v : locals) (h : heap) :
  nth_error h (Var.filtered_df v) = Some NoColumns -> dates_given v = true ->
  exists e, filter_dates v h = (Raise e, h).
Proof.
  intros H G. unfold filter_dates. fold (dates_given v). rewrite G.
  destruct (date_outcome (Var.start_date v)) as [s|x] eqn:S.
  - rewrite (bind_ok _ _ h h s) by (rewrite to_date_outcome, S; reflexivity).
    destruct (date_outcome (Var.end_date v)) as [e|x] eqn:E.
    + rewrite (bind_ok _ _ h h e) by (rewrite to_date_outcome, E; reflexivity).
      rewrite (bind_raise _ _ _ _ _ (select_no_columns _ _ _ _ H)). eauto.
    + exists x. rewrite (bind_raise _ _ h h x) by (rewrite to_date_outcome, E; reflexivity).
      reflexivity.
  - exists x. rewrite (bind_raise _ _ h h x) by (rewrite to_date_outcome, S; reflexivity).
    reflexivity.
Qed.

(** ** The filter state is not changed by running the statements *)

Lemma echo_dates_range (v : locals) :
  dates_parse v = true ->
  range_of (echo_dates v) = range_of v /\ dates_parse (echo_dates v) = true.
Proof.
  intros D. destruct (dates_given v) eqn:G.
  - destruct (dates_parse_given v D G) as (s & e & S & E).
    unfold range_of, dates_parse, dates_given, echo_dates, echo_date; simpl.
    fold (dates_given v). rewrite G, S, E. simpl. auto.
  - rewrite (echo_dates_not_given v G). auto.
Qed.

Lemma passes_after (j k : filter_kind) (v : locals) (l : loc) (r : Row) :
  (j = ByDates -> dates_parse v = true) ->
  passes k (rebind_df (after j v) l) r = passes k v r.
Proof.
  intros D. rewrite passes_rebind.
  destruct j; simpl after; auto.
  destruct k; try reflexivity.
  simpl. destruct (echo_dates_range v (D eq_refl)) as [-> _]. reflexivity.
Qed.

Lemma dates_parse_after (j : filter_kind) (v : locals) (l : loc) :
  (j = ByDates -> dates_parse v = true) ->
  dates_parse (rebind_df (after j v) l) = dates_parse v.
Proof.
  intros D. destruct j; simpl after; try reflexivity.
  destruct (echo_dates_range v (D eq_refl)) as [_ E].
  change (dates_parse (rebind_df (echo_dates v) l)) with (dates_parse (echo_dates v)).
  rewrite E. symmetry. auto.
Qed.

Lemma forallb_pointwise {A} (f g : A -> bool) (l : list A) :
  (forall x, f x = g x) -> forallb f l = forallb g l.
Proof. intros E. induction l; simpl; congruence. Qed.

Lemma forallb_permutation {A} (f : A -> bool) (l l' : list A) :
  Permutation l l' -> forallb f l = forallb f l'.
Proof.
  induction 1; simpl; try congruence.
  destruct (f x), (f y); reflexivity.
Qed.

(** Any sequence of filter statements keeps exactly the rows that pass each of
    them, in a frame of its own when a statement applied. *)
Lemma apply_filters_ok (order : list filter_kind) :
  forall (v : locals) (h : heap) (rows : list DfRow),
  holds h v rows -> (In ByDates order -> dates_parse v = true) ->
  exists w t,
    apply_filters order v h = (Ok w, h ++ t)
    /\ holds (h ++ t) w
         (filter (fun r => forallb (fun k => passes k v (base r)) order) rows)
    /\ (Var.filtered_df w = Var.filtered_df v
        \/ (List.length h <= Var.filtered_df w)%nat)
    /\ (forall k r, passes k w r = passes k v r)
    /\ dates_parse w = dates_parse v
    /\ (~ In ByDates order -> w = rebind_df v (Var.filtered_df w)).
Proof.
  induction order as [|k order IH]; intros v h rows H D.
  - exists v, []. rewrite app_nil_r. simpl. unfold ret.
    rewrite filter_true, rebind_df_self. repeat split; auto.
  - assert (Dk : k = ByDates -> dates_parse v = true)
      by (intros ->; apply D; left; reflexivity).
    destruct (apply_filter_ok k v h rows H Dk) as (l & t1 & R & F & L).
    destruct (IH (rebind_df (after k v) l) (h ++ t1) _ F) as (w & t2 & R2 & F2 & L2 & P2 & D2 & E2).
    { intros I. rewrite dates_parse_after; auto. apply D. right. exact I. }
    exists w, (t1 ++ t2). rewrite app_assoc.
    simpl apply_filters. rewrite (bind_ok _ _ _ _ _ R), R2.
    split; [reflexivity|]. split; [|split; [|split; [|split]]]; auto.
    + unfold holds in *. rewrite F2. do 2 f_equal.
      rewrite filter_filter. apply filter_ext. intros r. simpl. f_equal.
      apply forallb_pointwise. intros j. apply passes_after; auto.
    + simpl in L2. rewrite length_app in L2. destruct L2 as [-> | L2]; [|right; lia].
      destruct L as [-> | ->]; auto.
    + intros j r. rewrite P2. apply passes_after; auto.
    + rewrite D2. apply dates_parse_after; auto.
    + intros N. rewrite E2 by (intros I; apply N; right; exact I).
      destruct k; try reflexivity. exfalso. apply N. left. reflexivity.
Qed.

Lemma passes_each_source_order (v : locals) (r : Row) :
  forallb (fun k => passes k v r) source_order = passes_all v r.
Proof. unfold passes_all. simpl. rewrite andb_true_r, !andb_assoc. reflexivity. Qed.

(** ** One cycle, statement by statement *)

Lemma deref_ok (l : loc) (h : heap) (f : DataFrame) :
  nth_error h l = Some f -> deref l h = (Ok f, h).
Proof. intros H. unfold deref. rewrite H. reflexivity. Qed.

Lemma assign_column_ok (set : DfRow -> DfRow) (l : loc) (h : heap) (rows : list DfRow) :
  nth_error h l = Some (Table rows) ->
  assign_column set l h = (Ok tt, update_nth l (Table (map set rows)) h).
Proof.
  intros H. unfold assign_column. rewrite (bind_ok _ _ _ _ _ (deref_ok _ _ _ H)).
  reflexivity.
Qed.

Lemma trend_figure_pure (trend_view : option string) (rows : list DfRow) (h : heap) :
  trend_figure trend_view rows h = (trend_of trend_view rows, h).
Proof.
  unfold trend_of, trend_figure. destruct (is_average trend_view); [reflexivity|].
  unfold bind. rewrite !to_date_outcome.
  destruct (date_outcome (trend_input trend_view)); reflexivity.
Qed.

Section CycleLemmas.

Variables min_date max_date : Date.

Lemma aggregate_empty (v : locals) (h : heap) (f : DataFrame) :
  nth_error h (Var.filtered_df v) = Some f -> rows_of f = [] ->
  aggregate min_date max_date v h
  = (Ok (placeholder min_date max_date "No Data Available" no_data_available), h).
Proof.
  intros H E. unfold aggregate. rewrite (bind_ok _ _ _ _ _ (deref_ok _ _ _ H)).
  unfold df_empty. rewrite E. reflexivity.
Qed.

Lemma revenue_map_of_outcome (selected : option string) (rows : list DfRow) (h : heap) :
  revenue_map_of selected rows h
  = (if accepts_scope (scope_of selected) then Ok (revenue_map_figure selected rows)
     else Raise (ValueError (scope_of selected)), h).
Proof.
  unfold revenue_map_of, revenue_map_figure. cbv zeta.
  destruct (accepts_scope (scope_of selected)); reflexivity.
Qed.

(** On a non-empty frame the aggregates are those of its rows, unless the
    map or the trend raises; the two column assignments change the frame
    that [filtered_df] names, and no other object. *)
Lemma aggregate_rows (v : locals) (h : heap) (rows : list DfRow) :
  holds h v rows -> rows <> [] ->
  exists h',
    (forall l, l <> Var.filtered_df v -> nth_error h' l = nth_error h l)
    /\ aggregate min_date max_date v h
       = (if accepts_scope (scope_of (Var.continent v)) then
            match trend_of (Var.trend_view v) (map with_hour (map with_date rows)) with
            | Ok fig => Ok (cycle_outputs v rows fig)
            | Raise e => Raise e
            end
          else Raise (ValueError (scope_of (Var.continent v))), h').
Proof.
  intros H N. unfold holds in H.
  set (h1 := update_nth (Var.filtered_df v) (Table (map with_date rows)) h).
  set (h2 := update_nth (Var.filtered_df v)
               (Table (map with_hour (map with_date rows))) h1).
  assert (H1 : nth_error h1 (Var.filtered_df v) = Some (Table (map with_date rows)))
    by (eapply update_nth_same; exact H).
  assert (H2 : nth_error h2 (Var.filtered_df v)
               = Some (Table (map with_hour (map with_date rows))))
    by (eapply update_nth_same; exact H1).
  assert (A : aggregate min_date max_date v h
              = (fig_map <- revenue_map_of (Var.continent v) (map with_date rows) ;;
                 assign_column with_hour (Var.filtered_df v) ;;;
                 f <- deref (Var.filtered_df v) ;;
                 fig_trend <- trend_figure (Var.trend_view v) (rows_of f) ;;
                 f <- deref (Var.filtered_df v) ;;
                 ret {| kpi_cards := kpi_cards_of (compute_kpis rows);
                        revenue_bar := revenue_bar_of (map with_date rows);
                        request_pie := request_pie_of (map with_date rows);
                        job_type_bar := job_type_bar_of (map with_date rows);
                        affiliate_bar := affiliate_bar_of (map with_date rows);
                        revenue_map := fig_map;
                        trend_graph := fig_trend;
                        filtered_data := rows_of f;
                        error_message := healthy;
                        continent_value := Var.continent v;
                        country_value := Var.countries v;
                        product_value := Var.products v;
                        start_date_value := Var.start_date v;
                        end_date_value := Var.end_date v;
                        summary_stats_table := live_summary_stats (map with_date rows) |})
                h1).
  { unfold aggregate. rewrite (bind_ok _ _ _ _ _ (deref_ok _ _ _ H)).
    destruct rows as [|r rows]; [congruence|].
    unfold df_empty. cbn [rows_of]. cbv beta iota zeta.
    rewrite (bind_ok _ _ _ _ _ (assign_column_ok with_date _ _ _ H)). fold h1.
    rewrite (bind_ok _ _ _ _ _ (deref_ok _ _ _ H1)). reflexivity. }
  rewrite A. unfold bind at 1. rewrite revenue_map_of_outcome.
  destruct (accepts_scope (scope_of (Var.continent v))).
  - exists h2. split.
    + intros l' L. unfold h2, h1. rewrite !update_nth_other; auto.
    + rewrite (bind_ok _ _ _ _ _ (assign_column_ok with_hour _ _ _ H1)). fold h2.
      rewrite (bind_ok _ _ _ _ _ (deref_ok _ _ _ H2)).
      unfold bind at 1. rewrite trend_figure_pure. simpl rows_of.
      destruct (trend_of _ _) as [fig|e]; [|reflexivity].
      rewrite (bind_ok _ _ _ _ _ (deref_ok _ _ _ H2)). reflexivity.
  - exists h1. split; [|reflexivity].
    intros l' L. unfold h1. rewrite update_nth_other; auto.
Qed.

Lemma filter_and_aggregate_unfold (v : locals) (h : heap) :
  filter_and_aggregate min_date max_date v h
  = (w <- apply_filters [ByContinent; ByCountries; ByProducts] v ;;
     dated <- try_except (v' <- filter_dates w ;; ret (Some v')) (fun _ => ret None) ;;
     match dated with
     | None => ret (placeholder min_date max_date "Invalid Date Range"
                      invalid_date_range_selected)
     | Some w' => aggregate min_date max_date w'
     end) h.
Proof.
  unfold filter_and_aggregate. simpl apply_filters. unfold bind.
  destruct (filter_continent v h) as [[w1|e1] h1]; auto.
  destruct (filter_countries w1 h1) as [[w2|e2] h2]; auto.
  destruct (filter_products w2 h2) as [[w3|e3] h3]; auto.
Qed.

Lemma three_then_dates (v : locals) (r : Row) :
  forallb (fun k => passes k v r) [ByContinent; ByCountries; ByProducts]
  && passes ByDates v r = passes_all v r.
Proof. unfold passes_all. simpl. rewrite andb_true_r, !andb_assoc. reflexivity. Qed.

(** The body of the outer [try] on a frame with columns: the filter
    statements, then the aggregates of the rows they keep.  Objects other
    than the one [filtered_df] named at the start are not touched. *)
Lemma filter_and_aggregate_table (v : locals) (h : heap) (rows : list DfRow) :
  holds h v rows ->
  exists h',
    (forall l, (l < List.length h)%nat -> l <> Var.filtered_df v ->
               nth_error h' l = nth_error h l)
    /\ filter_and_aggregate min_date max_date v h
       = (cycle_on_table min_date max_date v rows, h').
Proof.
  intros H. rewrite filter_and_aggregate_unfold.
  destruct (apply_filters_ok [ByContinent; ByCountries; ByProducts] v h rows H)
    as (w & t & R & F & L & P & D & E).
  { simpl. intros [I|[I|[I|[]]]]; discriminate. }
  assert (E' : w = rebind_df v (Var.filtered_df w)).
  { apply E. simpl. intros [I|[I|[I|[]]]]; discriminate. }
  clear E. rewrite (bind_ok _ _ _ _ _ R). unfold cycle_on_table.
  assert (K : forall l g, (l < List.length h)%nat ->
              nth_error ((h ++ t) ++ g) l = nth_error h l).
  { intros l g I. rewrite <- app_assoc. apply nth_error_app1. exact I. }
  destruct (dates_parse v) eqn:DP.
  - destruct (apply_filter_ok ByDates w (h ++ t) _ F (fun _ => D))
      as (l4 & t4 & R4 & F4 & L4).
    simpl apply_filter in R4. simpl after in *.
    rewrite (bind_ok _ _ _ _ _ (try_ok _ _ _ _ _ (bind_ok _ _ _ _ _ R4))).
    assert (Q : filter (fun r => passes ByDates w (base r))
                  (filter (fun r => forallb (fun k => passes k v (base r))
                                      [ByContinent; ByCountries; ByProducts]) rows)
                = filtered v rows).
    { rewrite filter_filter. apply filter_ext. intros r.
      rewrite P. apply three_then_dates. }
    rewrite Q in F4.
    destruct (filtered v rows) as [|r kept] eqn:FR.
    + exists ((h ++ t) ++ t4). split; [intros; apply K; auto|].
      apply (aggregate_empty _ _ (Table [])); auto.
    + destruct (aggregate_rows (rebind_df (echo_dates w) l4) ((h ++ t) ++ t4) (r :: kept))
        as (h' & U & A); [exact F4 | discriminate |].
      exists h'. split.
      * intros l I J. rewrite U; [apply K; auto|]. simpl.
        destruct L4 as [-> | ->].
        -- destruct L as [-> | L]; [auto | lia].
        -- rewrite length_app. lia.
      * rewrite A. rewrite E'. reflexivity.
  - pose proof (filter_dates_unparsed w (h ++ t) _ F D) as X.
    assert (SW : Var.start_date w = Var.start_date v) by (rewrite E'; reflexivity).
    assert (EW : Var.end_date w = Var.end_date v) by (rewrite E'; reflexivity).
    rewrite SW, EW in X.
    destruct (date_outcome (Var.start_date v)) as [s|x];
      [destruct (date_outcome (Var.end_date v)) as [e|x]|].
    + exists ((h ++ t) ++ [Table []]). split; [intros; apply K; auto|].
      rewrite (bind_ok _ _ _ _ _ (try_ok _ _ _ _ _ (bind_ok _ _ _ _ _ X))).
      apply (aggregate_empty _ _ (Table [])); [|reflexivity].
      apply nth_error_alloc.
    + destruct X as [y X]. exists (h ++ t). split.
      * intros l I _. apply nth_error_app1. exact I.
      * rewrite (bind_ok _ _ _ _ _ (try_raise _ _ _ _ _ (bind_raise _ _ _ _ _ X))).
        reflexivity.
    + destruct X as [y X]. exists (h ++ t). split.
      * intros l I _. apply nth_error_app1. exact I.
      * rewrite (bind_ok _ _ _ _ _ (try_raise _ _ _ _ _ (bind_raise _ _ _ _ _ X))).
        reflexivity.
Qed.

End CycleLemmas.

(** From the state at load, on a table with rows: the cycle answers with the
    outputs of the filtered rows, or with the "Error Occurred" placeholder,
    and leaves the base table as it was. *)
Lemma run_cycle_rows (csv : list Row) (triggered_id : option string)
    (continent : option string) (countries products : option (list string))
    (start_date end_date : DateInput) (trend_view : option string) :
  csv <> [] ->
  exists h',
    nth_error h' df = Some (load csv)
    /\ run_cycle csv triggered_id continent countries products
         start_date end_date trend_view
       = (Ok match cycle_on_table (min_date_of csv) (max_date_of csv)
                     (handle_reset (min_date_of csv) (max_date_of csv) triggered_id 1%nat
                        continent countries products start_date end_date trend_view)
                     (map loaded csv) with
             | Ok outputs => outputs
             | Raise e => placeholder (min_date_of csv) (max_date_of csv)
                            "Error Occurred" (error_updating_dashboard e)
             end, h').
Proof.
  intros N. unfold run_cycle, update_dashboard, initial_heap.
  rewrite (bind_ok _ _ [load csv] [load csv] (load csv)) by reflexivity.
  destruct csv as [|r0 csv]; [congruence|].
  set (rows := r0 :: csv) in *.
  change (negb (df_empty (load rows))) with true. cbv iota.
  rewrite (bind_ok _ _ [load rows] [load rows; load rows] 1%nat) by reflexivity.
  cbv zeta.
  set (v := handle_reset _ _ _ _ _ _ _ _ _ _).
  assert (H : holds [load rows; load rows] v (map loaded rows)).
  { unfold holds, v, handle_reset. destruct (is_reset triggered_id); reflexivity. }
  destruct (filter_and_aggregate_table (min_date_of rows) (max_date_of rows) v _ _ H)
    as (h' & U & A).
  exists h'. split.
  - rewrite U; [reflexivity | unfold df; simpl; lia |].
    unfold v, handle_reset, df. destruct (is_reset triggered_id); discriminate.
  - unfold try_except. rewrite A.
    destruct (cycle_on_table _ _ v (map loaded rows)); reflexivity.
Qed.

(** ** The cycle as a function of the filter state *)

Lemma handle_reset_rebind (mn mx : Date) (triggered_id : option string) (l : loc)
    (continent : option string) (countries products : option (list string))
    (start_date end_date : DateInput) (trend_view : option string) :
  handle_reset mn mx triggered_id l continent countries products
    start_date end_date trend_view
  = rebind_df (handle_reset mn mx triggered_id df continent countries products
                 start_date end_date trend_view) l.
Proof. unfold handle_reset. destruct (is_reset triggered_id); reflexivity. Qed.

Lemma cycle_on_table_rebind (mn mx : Date) (v : locals) (l : loc) (rows : list DfRow) :
  cycle_on_table mn mx (rebind_df v l) rows = cycle_on_table mn mx v rows.
Proof. reflexivity. Qed.

(** The outputs of a cycle on a table with rows, in terms of the filter state
    that [handle_reset] leaves. *)
Lemma run_cycle_outputs (csv : list Row) (triggered_id : option string)
    (continent : option string) (countries products : option (list string))
    (start_date end_date : DateInput) (trend_view : option string) :
  csv <> [] ->
  fst (run_cycle csv triggered_id continent countries products
         start_date end_date trend_view)
  = Ok match cycle_on_table (min_date_of csv) (max_date_of csv)
               (handle_reset (min_date_of csv) (max_date_of csv) triggered_id df
                  continent countries products start_date end_date trend_view)
               (map loaded csv) with
       | Ok outputs => outputs
       | Raise e => placeholder (min_date_of csv) (max_date_of csv)
                      "Error Occurred" (error_updating_dashboard e)
       end.
Proof.
  intros N.
  destruct (run_cycle_rows csv triggered_id continent countries products
              start_date end_date trend_view N) as (h' & _ & R).
  rewrite R. simpl fst. rewrite handle_reset_rebind, cycle_on_table_rebind. reflexivity.
Qed.

Lemma filtered_none (v : locals) (csv : list Row) :
  (forall r, In r csv -> passes_all v r = false) -> filtered v (map loaded csv) = [].
Proof.
  intros H. apply filter_none. intros x I. apply in_map_iff in I.
  destruct I as (r & <- & I). apply H. exact I.
Qed.

Lemma filtered_all (v : locals) (csv : list Row) :
  (forall r, In r csv -> passes_all v r = true) ->
  filtered v (map loaded csv) = map loaded csv.
Proof.
  intros H. apply filter_all. intros x I. apply in_map_iff in I.
  destruct I as (r & <- & I). apply H. exact I.
Qed.

(** When no row passes, the cycle ends in the "No Data Available" tuple. *)
Lemma cycle_without_match (mn mx : Date) (v : locals) (csv : list Row) :
  dates_parse v = true -> (forall r, In r csv -> passes_all v r = false) ->
  cycle_on_table mn mx v (map loaded csv)
  = Ok (placeholder mn mx "No Data Available" no_data_available).
Proof.
  intros D H. unfold cycle_on_table. rewrite D, (filtered_none v csv H). reflexivity.
Qed.

Lemma in_range_empty (s e : Date) (r : Row) : e < s -> in_range s e r = false.
Proof.
  intros H. unfold in_range.
  destruct (Z.leb_spec s (dt_date (timestamp r))); simpl; auto.
  apply Z.leb_gt. lia.
Qed.

(** ** The Filter Engine *)

(** C3.  For every table and every filter state whose date bounds parse,
    the filter statements of [update_dashboard] return: the frame they leave
    in [filtered_df] holds exactly the rows of the table that pass the
    filters, a subset of the rows of the table, and running the same filter
    state again on that frame yields the identical rows. *)
Theorem filter_subset_idempotent (v : locals) (h : heap) (rows : list DfRow) :
  holds h v rows -> dates_parse v = true ->
  exists w t kept,
    apply_filters source_order v h = (Ok w, h ++ t)
    /\ holds (h ++ t) w kept
    /\ kept = filtered v rows
    /\ incl kept rows
    /\ exists w' t',
         apply_filters source_order (rebind_df v (Var.filtered_df w)) (h ++ t)
         = (Ok w', (h ++ t) ++ t')
         /\ holds ((h ++ t) ++ t') w' kept.
Proof.
  intros H D.
  destruct (apply_filters_ok source_order v h rows H (fun _ => D))
    as (w & t & R & F & _).
  rewrite (filter_ext _ _ (fun r => passes_each_source_order v (base r))) in F.
  fold (filtered v rows) in F.
  exists w, t, (filtered v rows). repeat split; auto.
  - apply incl_filter.
  - destruct (apply_filters_ok source_order (rebind_df v (Var.filtered_df w)) (h ++ t)
                (filtered v rows) F (fun _ => D)) as (w' & t' & R' & F' & _).
    exists w', t'. split; [exact R'|].
    rewrite (filter_ext _ (fun r => passes_all v (base r))) in F'.
    + unfold filtered in F'. rewrite filter_idem in F'. exact F'.
    + intros r. rewrite <- passes_each_source_order.
      apply forallb_pointwise. intros k. apply passes_rebind.
Qed.

(** C4.  For every table and every filter state whose date bounds parse,
    the four filter statements run in any order leave the same rows in
    [filtered_df]: the rows that pass the continent, the country, the
    product and the date filter together (their conjunction). *)
Theorem filters_order_independent (v : locals) (h : heap) (rows : list DfRow)
    (order : list filter_kind) :
  holds h v rows -> dates_parse v = true -> Permutation order source_order ->
  exists w t,
    apply_filters order v h = (Ok w, h ++ t)
    /\ holds (h ++ t) w (filter (fun r => passes_all v (base r)) rows).
Proof.
  intros H D O.
  destruct (apply_filters_ok order v h rows H (fun _ => D)) as (w & t & R & F & _).
  exists w, t. split; [exact R|].
  rewrite (filter_ext _ (fun r => passes_all v (base r))) in F; [exact F|].
  intros r. rewrite <- passes_each_source_order. apply forallb_permutation. exact O.
Qed.

(** ** A cycle on the frame without columns *)

Lemma filter_and_aggregate_no_columns (mn mx : Date) (v : locals) (h : heap) :
  nth_error h (Var.filtered_df v) = Some NoColumns ->
  filter_and_aggregate mn mx v h
  = (if truthy_str (Var.continent v) then Raise (KeyError "continent")
     else if truthy_list (Var.countries v) then Raise (KeyError "country")
     else if truthy_list (Var.products v) then Raise (KeyError "product_type")
     else if dates_given v
          then Ok (placeholder mn mx "Invalid Date Range" invalid_date_range_selected)
          else Ok (placeholder mn mx "No Data Available" no_data_available), h).
Proof.
  intros H. unfold filter_and_aggregate, filter_continent.
  destruct (truthy_str (Var.continent v)).
  { rewrite (bind_raise _ _ _ _ _
               (bind_raise _ _ _ _ _ (select_no_columns _ _ _ _ H))). reflexivity. }
  rewrite (bind_ok _ _ h h v) by reflexivity. unfold filter_countries.
  destruct (truthy_list (Var.countries v)).
  { rewrite (bind_raise _ _ _ _ _
               (bind_raise _ _ _ _ _ (select_no_columns _ _ _ _ H))). reflexivity. }
  rewrite (bind_ok _ _ h h v) by reflexivity. unfold filter_products.
  destruct (truthy_list (Var.products v)).
  { rewrite (bind_raise _ _ _ _ _
               (bind_raise _ _ _ _ _ (select_no_columns _ _ _ _ H))). reflexivity. }
  rewrite (bind_ok _ _ h h v) by reflexivity.
  destruct (dates_given v) eqn:G.
  - destruct (filter_dates_no_columns v h H G) as [e X].
    rewrite (bind_ok _ _ _ _ _ (try_raise _ _ _ _ _ (bind_raise _ _ _ _ _ X))).
    reflexivity.
  - assert (X : filter_dates v h = (Ok v, h)).
    { unfold filter_dates. fold (dates_given v). rewrite G. reflexivity. }
    rewrite (bind_ok _ _ _ _ _ (try_ok _ _ _ _ _ (bind_ok _ _ _ _ _ X))).
    apply (aggregate_empty mn mx v h NoColumns H). reflexivity.
Qed.

(** From the state at load, on a table without rows: the cycle works on
    [pd.DataFrame()], every column access raises, and no cycle succeeds. *)
Lemma run_cycle_no_rows (triggered_id : option string)
    (continent : option string) (countries products : option (list string))
    (start_date end_date : DateInput) (trend_view : option string) :
  let mn := min_date_of [] in
  let mx := max_date_of [] in
  let v := handle_reset mn mx triggered_id df continent countries products
             start_date end_date trend_view in
  run_cycle [] triggered_id continent countries products start_date end_date trend_view
  = (Ok (if truthy_str (Var.continent v)
         then placeholder mn mx "Error Occurred"
                (error_updating_dashboard (KeyError "continent"))
         else if truthy_list (Var.countries v)
         then placeholder mn mx "Error Occurred"
                (error_updating_dashboard (KeyError "country"))
         else if truthy_list (Var.products v)
         then placeholder mn mx "Error Occurred"
                (error_updating_dashboard (KeyError "product_type"))
         else if dates_given v
         then placeholder mn mx "Invalid Date Range" invalid_date_range_selected
         else placeholder mn mx "No Data Available" no_data_available),
     [load []; NoColumns]).
Proof.
  intros mn mx v. unfold run_cycle, update_dashboard, initial_heap.
  rewrite (bind_ok _ _ [load []] [load []] (load [])) by reflexivity.
  change (negb (df_empty (load []))) with false. cbv iota.
  rewrite (bind_ok _ _ [load []] [load []; NoColumns] 1%nat) by reflexivity.
  cbv zeta. fold mn mx. rewrite handle_reset_rebind. fold v.
  unfold try_except.
  rewrite (filter_and_aggregate_no_columns mn mx (rebind_df v 1%nat)
             [load []; NoColumns] eq_refl).
  change (Var.continent (rebind_df v 1%nat)) with (Var.continent v).
  change (Var.countries (rebind_df v 1%nat)) with (Var.countries v).
  change (Var.products (rebind_df v 1%nat)) with (Var.products v).
  change (dates_given (rebind_df v 1%nat)) with (dates_given v).
  destruct (truthy_str (Var.continent v)); [reflexivity|].
  destruct (truthy_list (Var.countries v)); [reflexivity|].
  destruct (truthy_list (Var.products v)); [reflexivity|].
  destruct (dates_given v); reflexivity.
Qed.

(** ** The full date range keeps every row *)

Lemma minimum_le (t : Timestamp) (ts : list Timestamp) (x : Timestamp) :
  In x (t :: ts) -> minimum t ts <= x.
Proof.
  unfold minimum. induction ts as [|y ts IH]; simpl.
  - intros [-> | []]. lia.
  - intros [-> | [-> | I]].
    + assert (fold_right Z.min x ts <= x) by (apply IH; left; reflexivity). lia.
    + lia.
    + assert (fold_right Z.min t ts <= x) by (apply IH; right; exact I). lia.
Qed.

Lemma maximum_ge (t : Timestamp) (ts : list Timestamp) (x : Timestamp) :
  In x (t :: ts) -> x <= maximum t ts.
Proof.
  unfold maximum. induction ts as [|y ts IH]; simpl.
  - intros [-> | []]. lia.
  - intros [-> | [-> | I]].
    + assert (x <= fold_right Z.max x ts) by (apply IH; left; reflexivity). lia.
    + lia.
    + assert (x <= fold_right Z.max t ts) by (apply IH; right; exact I). lia.
Qed.

Lemma dt_date_monotone (t u : Timestamp) : t <= u -> dt_date t <= dt_date u.
Proof. intros H. unfold dt_date. apply Z.div_le_mono; lia. Qed.

(** Every row of the table lies between the bounds computed at load. *)
Lemma in_full_range (csv : list Row) (r : Row) :
  In r csv -> in_range (min_date_of csv) (max_date_of csv) r = true.
Proof.
  intros I. apply (in_map timestamp) in I.
  unfold in_range, min_date_of, max_date_of.
  destruct (map timestamp csv) as [|t ts]; [destruct I|].
  apply andb_true_iff. split; apply Z.leb_le; apply dt_date_monotone.
  - apply minimum_le. exact I.
  - apply maximum_ge. exact I.
Qed.

(** A filter state with nothing selected and the full date range. *)
Lemma unfiltered_keeps_all (csv : list Row) (v : locals) :
  truthy_str (Var.continent v) = false ->
  truthy_list (Var.countries v) = false ->
  truthy_list (Var.products v) = false ->
  range_of v = Some (min_date_of csv, max_date_of csv) ->
  filtered v (map loaded csv) = map loaded csv.
Proof.
  intros C Cs P R. apply filtered_all. intros r I.
  unfold passes_all, passes. rewrite C, Cs, P, R. simpl. apply in_full_range. exact I.
Qed.

Lemma filter_map_loaded (p : Row -> bool) (csv : list Row) :
  filter (fun r => p (base r)) (map loaded csv) = map loaded (filter p csv).
Proof.
  induction csv as [|r csv IH]; simpl; auto.
  destruct (p r); simpl; rewrite IH; reflexivity.
Qed.

Lemma retained_rows (csv : list Row) :
  map with_hour (map with_date (map loaded csv)) = map retained csv.
Proof. rewrite !map_map. reflexivity. Qed.

(** ** Terminal states of a cycle *)

Lemma dates_parse_outcomes (v : locals) :
  dates_given v = true ->
  dates_parse v
  = match date_outcome (Var.start_date v), date_outcome (Var.end_date v) with
    | Ok (Some _), Ok (Some _) => true
    | _, _ => false
    end.
Proof.
  intros G. unfold dates_parse. rewrite G.
  unfold dates_given in G. apply andb_prop in G. destruct G as [GS GE].
  destruct (parsed (Var.start_date v)) as [s|] eqn:PS.
  - rewrite (date_outcome_of_parsed _ _ PS).
    destruct (parsed (Var.end_date v)) as [e|] eqn:PE.
    + rewrite (date_outcome_of_parsed _ _ PE). reflexivity.
    + destruct (date_outcome (Var.end_date v)) as [[e|]|x] eqn:OE; try reflexivity.
      apply (parsed_of_date_outcome _ _ GE) in OE. congruence.
  - destruct (date_outcome (Var.start_date v)) as [[s|]|x] eqn:OS; try reflexivity.
    apply (parsed_of_date_outcome _ _ GS) in OS. congruence.
Qed.

(** C1 (amended).  On a table with rows, for every filter-change cycle whose
    start and end are both given: when [pd.to_datetime] raises on one of
    them, the cycle ends in the "Invalid Date Range" tuple (every chart the
    placeholder of that title, no rows retained, no KPI cards, no summary
    table, the date fields set to the bounds of the data set); when it
    raises on neither but reads one as NaT, no row is in the range and the
    cycle ends in the "No Data Available" tuple; and so it does when both
    are dates and start is after end. *)
Theorem invalid_date_range_is_a_raising_bound (csv : list Row)
    (triggered_id : option string) (continent : option string)
    (countries products : option (list string)) (start_date end_date : DateInput)
    (trend_view : option string) :
  csv <> [] -> is_reset triggered_id = false ->
  truthy_date start_date = true -> truthy_date end_date = true ->
  match date_outcome start_date, date_outcome end_date with
  | Ok (Some s), Ok (Some e) =>
      e < s ->
      fst (run_cycle csv triggered_id continent countries products
             start_date end_date trend_view)
      = Ok (placeholder (min_date_of csv) (max_date_of csv)
              "No Data Available" no_data_available)
  | Ok _, Ok _ =>
      fst (run_cycle csv triggered_id continent countries products
             start_date end_date trend_view)
      = Ok (placeholder (min_date_of csv) (max_date_of csv)
              "No Data Available" no_data_available)
  | _, _ =>
      fst (run_cycle csv triggered_id continent countries products
             start_date end_date trend_view)
      = Ok (placeholder (min_date_of csv) (max_date_of csv)
              "Invalid Date Range" invalid_date_range_selected)
  end.
Proof.
  intros N T S E. rewrite (run_cycle_outputs csv _ _ _ _ _ _ _ N).
  unfold handle_reset. rewrite T.
  set (v := Var.Build_locals _ _ _ _ _ _ _).
  assert (GS : truthy_date (Var.start_date v) = true) by exact S.
  assert (GE : truthy_date (Var.end_date v) = true) by exact E.
  assert (G : dates_given v = true) by (unfold dates_given; rewrite GS, GE; reflexivity).
  pose proof (dates_parse_outcomes v G) as DP.
  change (Var.start_date v) with start_date in *.
  change (Var.end_date v) with end_date in *.
  destruct (date_outcome start_date) as [[s|]|x] eqn:OS;
    destruct (date_outcome end_date) as [[e|]|y] eqn:OE;
    try (unfold cycle_on_table; rewrite DP;
         change (Var.start_date v) with start_date;
         change (Var.end_date v) with end_date;
         rewrite ?OS, ?OE; reflexivity).
  intros I. rewrite cycle_without_match; [reflexivity | exact DP |].
  intros r _. unfold passes_all.
  replace (passes ByDates v r) with false; [apply andb_false_r|].
  apply (parsed_of_date_outcome _ _ GS) in OS.
  apply (parsed_of_date_outcome _ _ GE) in OE.
  simpl. rewrite (range_of_given v s e G OS OE). symmetry. apply in_range_empty. exact I.
Qed.

(** C9 (amended).  On a table with rows, for every cycle whose filter state
    parses and matches no row, the cycle ends in the "No Data Available"
    tuple: every chart the placeholder of that title, no rows retained, no
    KPI cards, no summary table, and the controls set to the defaults
    (no continent, no countries, no products, the date bounds of the data
    set), as on the other failure branches. *)
Theorem empty_result_resets_controls (csv : list Row)
    (triggered_id : option string) (continent : option string)
    (countries products : option (list string)) (start_date end_date : DateInput)
    (trend_view : option string) :
  let v := handle_reset (min_date_of csv) (max_date_of csv) triggered_id df
             continent countries products start_date end_date trend_view in
  csv <> [] -> dates_parse v = true ->
  (forall r, In r csv -> passes_all v r = false) ->
  fst (run_cycle csv triggered_id continent countries products
         start_date end_date trend_view)
  = Ok {| kpi_cards := [];
          revenue_bar := empty_fig "No Data Available";
          request_pie := empty_fig "No Data Available";
          job_type_bar := empty_fig "No Data Available";
          affiliate_bar := empty_fig "No Data Available";
          revenue_map := empty_fig "No Data Available";
          trend_graph := empty_fig "No Data Available";
          filtered_data := [];
          error_message := no_data_available;
          continent_value := None; country_value := Some []; product_value := Some [];
          start_date_value := DDate (min_date_of csv);
          end_date_value := DDate (max_date_of csv);
          summary_stats_table := [] |}.
Proof.
  intros v N D H. rewrite (run_cycle_outputs csv _ _ _ _ _ _ _ N).
  fold v. rewrite cycle_without_match; auto.
Qed.

(** ** Successful cycles *)

Lemma trend_of_average (rows : list DfRow) :
  trend_of (Some "average") rows
  = Ok (fig_trend "Average Hourly Trends: Promo, Demo, AI Assist, and Job Placements"
          (hourly_trend rows)).
Proof. reflexivity. Qed.

Lemma cycle_on_table_success (mn mx : Date) (v : locals) (rows kept : list DfRow)
    (fig : Figure) :
  dates_parse v = true -> filtered v rows = kept -> kept <> [] ->
  accepts_scope (scope_of (Var.continent v)) = true ->
  trend_of (Var.trend_view v) (map with_hour (map with_date kept)) = Ok fig ->
  cycle_on_table mn mx v rows = Ok (cycle_outputs (echo_dates v) kept fig).
Proof.
  intros D F N A T. unfold cycle_on_table. rewrite D, F.
  destruct kept as [|r kept]; [congruence|]. rewrite A, T. reflexivity.
Qed.

(** With no continent selected the map is drawn on the scope 'world', which
    [px.choropleth] accepts. *)
Lemma accepts_world (continent : option string) :
  truthy_str continent = false -> accepts_scope (scope_of continent) = true.
Proof. intros C. unfold scope_of. rewrite C. reflexivity. Qed.

(** The outputs of a cycle with nothing selected, the full date range and
    the average trend view. *)
Lemma unfiltered_cycle (csv : list Row) (v : locals) :
  csv <> [] ->
  truthy_str (Var.continent v) = false ->
  truthy_list (Var.countries v) = false ->
  truthy_list (Var.products v) = false ->
  dates_given v = true ->
  parsed (Var.start_date v) = Some (min_date_of csv) ->
  parsed (Var.end_date v) = Some (max_date_of csv) ->
  Var.trend_view v = Some "average" ->
  cycle_on_table (min_date_of csv) (max_date_of csv) v (map loaded csv)
  = Ok (cycle_outputs (echo_dates v) (map loaded csv)
          (fig_trend "Average Hourly Trends: Promo, Demo, AI Assist, and Job Placements"
             (hourly_trend (map with_hour (map with_date (map loaded csv)))))).
Proof.
  intros N C Cs P G S E T.
  apply cycle_on_table_success.
  - unfold dates_parse. rewrite G, S, E. reflexivity.
  - apply unfiltered_keeps_all; auto. apply range_of_given; auto.
  - destruct csv; [congruence | discriminate].
  - apply accepts_world. exact C.
  - rewrite T. apply trend_of_average.
Qed.

(** C2 (the code misses one control).  For every prior filter state, the
    reset trigger makes the cycle run on the defaults (no continent, no
    countries, no products, the date range of the data set, the average
    trend view, line 343); its KPI cards, charts, summary table, retained
    rows and message are those of the initial load (nothing selected, the
    date picker at the bounds of the data set, the average trend view), and
    on a table with rows every row is retained.  Of the six filter controls,
    five are set to the defaults; the trend-view dropdown is no [Output] of
    the callback (lines 304-319) and keeps the value it had, so it shows
    'average' only when it showed it before the reset. *)
Theorem reset_restores_all_but_the_trend_view_control (csv : list Row)
    (continent : option string) (countries products : option (list string))
    (start_date end_date : DateInput) (trend_view : option string)
    (initial_start initial_end : DateInput) :
  truthy_date initial_start = true ->
  parsed initial_start = Some (min_date_of csv) ->
  truthy_date initial_end = true ->
  parsed initial_end = Some (max_date_of csv) ->
  handle_reset (min_date_of csv) (max_date_of csv) (Some "reset-button") df
    continent countries products start_date end_date trend_view
  = {| Var.filtered_df := df; Var.continent := None; Var.countries := Some [];
       Var.products := Some []; Var.start_date := DDate (min_date_of csv);
       Var.end_date := DDate (max_date_of csv); Var.trend_view := Some "average" |}
  /\ exists after_reset initial,
       fst (run_cycle csv (Some "reset-button") continent countries products
              start_date end_date trend_view) = Ok after_reset
       /\ fst (run_cycle csv None None None None initial_start initial_end
                 (Some "average")) = Ok initial
       /\ same_bundle after_reset initial
       /\ continent_value after_reset = None
       /\ country_value after_reset = Some []
       /\ product_value after_reset = Some []
       /\ start_date_value after_reset = DDate (min_date_of csv)
       /\ end_date_value after_reset = DDate (max_date_of csv)
       /\ (csv <> [] -> filtered_data after_reset = map retained csv)
       /\ controls_after
            {| c_continent := continent; c_countries := countries;
               c_products := products; c_start_date := start_date;
               c_end_date := end_date; c_trend_view := trend_view |}
            after_reset
          = {| c_continent := None; c_countries := Some [];
               c_products := Some []; c_start_date := DDate (min_date_of csv);
               c_end_date := DDate (max_date_of csv);
               c_trend_view := trend_view |}
       /\ (c_trend_view
             (controls_after
                {| c_continent := continent; c_countries := countries;
                   c_products := products; c_start_date := start_date;
                   c_end_date := end_date; c_trend_view := trend_view |}
                after_reset) = Some "average"
           <-> trend_view = Some "average").
Proof.
  intros TS PS TE PE. split; [reflexivity|].
  destruct csv as [|r0 csv].
  - rewrite !run_cycle_no_rows. simpl fst.
    unfold handle_reset. simpl is_reset. cbv iota.
    unfold dates_given. simpl. rewrite TS, TE. simpl.
    do 2 eexists. split; [reflexivity|]. split; [reflexivity|].
    unfold same_bundle, controls_after. simpl. repeat split; auto.
  - set (rows := r0 :: csv) in *.
    assert (N : rows <> []) by discriminate.
    rewrite !(run_cycle_outputs rows _ _ _ _ _ _ _ N).
    unfold handle_reset. simpl is_reset. cbv iota.
    repeat match goal with
           | |- context [cycle_on_table _ _ ?v (map loaded rows)] =>
               rewrite (unfiltered_cycle rows v N);
               [| reflexivity | reflexivity | reflexivity
                | unfold dates_given; simpl; rewrite ?TS, ?TE; reflexivity
                | auto | auto | reflexivity ]
           end.
    do 2 eexists. split; [reflexivity|]. split; [reflexivity|].
    unfold same_bundle, controls_after, cycle_outputs.
    cbn [kpi_cards revenue_bar request_pie job_type_bar
      affiliate_bar revenue_map trend_graph filtered_data error_message
      summary_stats_table continent_value country_value product_value
      start_date_value end_date_value c_trend_view].
    repeat split; try reflexivity; auto.
    intros _. apply retained_rows.
Qed.

(** C10.  Every cycle returns and leaves the base table in the store as
    it was loaded, with the schema columns only; when the cycle succeeds,
    the rows it retains for the download are rows of the base table, at
    least one, each with its schema columns and the two derived columns
    assigned during the cycle: the calendar date and the hour of its
    timestamp. *)
Theorem retained_rows_carry_date_and_hour (csv : list Row)
    (triggered_id : option string) (continent : option string)
    (countries products : option (list string)) (start_date end_date : DateInput)
    (trend_view : option string) :
  exists outputs h',
    run_cycle csv triggered_id continent countries products
      start_date end_date trend_view = (Ok outputs, h')
    /\ nth_error h' df
       = Some (Table (map (fun r => {| base := r; date := None; hour := None |}) csv))
    /\ (error_message outputs = healthy ->
        exists kept,
          kept <> [] /\ incl kept csv
          /\ filtered_data outputs = map retained kept).
Proof.
  destruct csv as [|r0 csv].
  - rewrite run_cycle_no_rows. do 2 eexists. split; [reflexivity|]. split; [reflexivity|].
    intros H. exfalso. revert H.
    destruct (truthy_str _); [discriminate|].
    destruct (truthy_list _); [discriminate|].
    destruct (truthy_list _); [discriminate|].
    destruct (dates_given _); discriminate.
  - set (rows := r0 :: csv) in *.
    destruct (run_cycle_rows rows triggered_id continent countries products
                start_date end_date trend_view) as (h' & B & R); [discriminate|].
    rewrite R. do 2 eexists. split; [reflexivity|]. split; [exact B|].
    set (v := handle_reset _ _ _ _ _ _ _ _ _ _).
    unfold cycle_on_table.
    destruct (dates_parse v);
      [| destruct (date_outcome _); [destruct (date_outcome _)|]; discriminate].
    unfold filtered. rewrite filter_map_loaded.
    destruct (filter (passes_all v) rows) as [|k kept] eqn:F; [discriminate|].
    cbn [map]. fold (map loaded (k :: kept)).
    destruct (accepts_scope _); [|discriminate].
    destruct (trend_of _ _); [|discriminate].
    intros _. exists (k :: kept). split; [discriminate|]. split.
    + rewrite <- F. apply incl_filter.
    + exact (retained_rows (k :: kept)).
Qed.

(** ** KPI rates *)

Lemma len_nonneg {A} (l : list A) : 0 <= len l.
Proof. unfold len. lia. Qed.

Lemma len_cons {A} (x : A) (l : list A) : len (x :: l) = 1 + len l.
Proof. unfold len. simpl List.length. lia. Qed.

Lemma len_filter_le {A} (p : A -> bool) (l : list A) : len (filter p l) <= len l.
Proof.
  induction l as [|x l IH]; simpl; [lia|].
  destruct (p x); rewrite ?len_cons; lia.
Qed.

Lemma len_filter_and_le {A} (p q : A -> bool) (l : list A) :
  len (filter (fun x => p x && q x) l) <= len (filter p l).
Proof.
  rewrite <- filter_filter. apply len_filter_le.
Qed.

Lemma series_sum_cons (x : Z) (xs : list Z) : series_sum (x :: xs) = x + series_sum xs.
Proof. reflexivity. Qed.

Lemma series_sum_flags (flags : list Z) :
  Forall (fun f => f = 0 \/ f = 1) flags -> 0 <= series_sum flags <= len flags.
Proof.
  induction 1 as [|f flags [-> | ->] _ IH]; rewrite ?series_sum_cons, ?len_cons.
  - unfold len. simpl. lia.
  - lia.
  - lia.
Qed.

(** [n / d * 100] for a count [n] out of [d]. *)
Lemma rate_bounds (n d : Z) :
  0 <= n <= d -> 0 < d -> (0 <= inject_Z n / inject_Z d * 100 <= 100)%Q.
Proof.
  intros N D. destruct d as [|p|p]; try lia.
  unfold Qle, Qdiv, Qmult, Qinv, inject_Z. simpl. split; nia.
Qed.

Lemma rate_zero_iff (n d : Z) :
  0 < d -> (inject_Z n / inject_Z d * 100 == 0)%Q <-> n = 0.
Proof.
  intros D. destruct d as [|p|p]; try lia.
  unfold Qeq, Qdiv, Qmult, Qinv, inject_Z. simpl. lia.
Qed.

(** C5 (amended).  For every filtered table whose purchase flags are 0 or
    1, the conversion rate and the demo-to-purchase rate lie in [0, 100],
    each rate is 0 when its denominator (the number of interactions, the
    number of demo requests) is 0, and a rate is 0 exactly when its
    numerator (the purchases, the demo purchases) is 0. *)
Theorem kpi_rates_bounded (rows : list DfRow) :
  Forall (fun r => purchase_flag (base r) = 0 \/ purchase_flag (base r) = 1) rows ->
  let k := compute_kpis rows in
  (0 <= conversion_rate k <= 100)%Q
  /\ (0 <= demo_rate k <= 100)%Q
  /\ (total_interactions k = 0 -> (conversion_rate k == 0)%Q)
  /\ (demo_count k = 0 -> (demo_rate k == 0)%Q)
  /\ ((conversion_rate k == 0)%Q <-> purchases k = 0)
  /\ ((demo_rate k == 0)%Q <-> demo_purchases k = 0).
Proof.
  intros F k.
  assert (P : 0 <= purchases k <= total_interactions k).
  { unfold k, compute_kpis; cbn [purchases total_interactions].
    replace (len rows) with (len (map (fun r => purchase_flag (base r)) rows))
      by (unfold len; rewrite length_map; reflexivity).
    apply series_sum_flags. apply Forall_map. exact F. }
  assert (Q : 0 <= demo_purchases k <= demo_count k).
  { unfold k, compute_kpis; cbn [demo_purchases demo_count].
    split; [apply len_nonneg | apply len_filter_and_le]. }
  assert (C : conversion_rate k
              = if 0 <? total_interactions k
                then (inject_Z (purchases k) / inject_Z (total_interactions k) * 100)%Q
                else 0%Q) by reflexivity.
  assert (R : demo_rate k
              = if 0 <? demo_count k
                then (inject_Z (demo_purchases k) / inject_Z (demo_count k) * 100)%Q
                else 0%Q) by reflexivity.
  rewrite C, R. clear C R.
  destruct (Z.ltb_spec 0 (total_interactions k)) as [T|T];
    destruct (Z.ltb_spec 0 (demo_count k)) as [E|E];
    repeat split;
    try (apply rate_bounds; lia);
    try (apply rate_zero_iff; lia);
    try (intros; lia);
    try (unfold Qle; simpl; lia);
    try reflexivity.
Qed.

(** ** Counting by key *)

Lemma in_insert_key (k x : Z) (ks : list Z) :
  In x (insert_key Z.compare k ks) <-> x = k \/ In x ks.
Proof.
  induction ks as [|k' ks IH]; simpl.
  - intuition.
  - destruct (Z.compare_spec k k') as [E | L | G]; simpl.
    + subst. intuition.
    + intuition.
    + rewrite IH. intuition.
Qed.

Lemma in_group_keys (x : Z) (ks : list Z) : In x (group_keys Z.compare ks) <-> In x ks.
Proof.
  induction ks as [|k ks IH]; simpl; [reflexivity|].
  rewrite in_insert_key, IH. intuition.
Qed.

Lemma in_key_index (key : DfRow -> option Z) (rows : list DfRow) (k : Z) :
  In k (key_index key rows) <-> exists r, In r rows /\ key r = Some k.
Proof.
  unfold key_index. rewrite in_group_keys, in_flat_map. split.
  - intros (r & I & K). exists r. split; [exact I|].
    destruct (key r) as [j|]; simpl in K; [|contradiction].
    destruct K as [-> | []]. reflexivity.
  - intros (r & I & K). exists r. split; [exact I|]. rewrite K. left. reflexivity.
Qed.

(** No row under a key outside the index. *)
Lemma count_absent (key : DfRow -> option Z) (p : DfRow -> bool) (rows : list DfRow)
    (k : Z) :
  ~ In k (key_index key rows) ->
  len (filter (fun r => key_is key k r && p r) rows) = 0.
Proof.
  intros N. rewrite filter_none; [reflexivity|].
  intros r I. unfold key_is. destruct (key r) as [j|] eqn:K; [|reflexivity].
  destruct (Z.eqb_spec j k) as [-> | _]; [|reflexivity].
  exfalso. apply N. apply in_key_index. exists r. auto.
Qed.

Lemma lookup_pairs (g : Z -> Z) (idx : list Z) (k : Z) :
  lookup k (map (fun j => (j, g j)) idx)
  = if existsb (fun j => j =? k) idx then Some (g k) else None.
Proof.
  induction idx as [|j idx IH]; simpl; [reflexivity|].
  destruct (Z.eqb_spec j k) as [-> | _]; simpl; auto.
Qed.

Lemma combine_map (g : Z -> Z) (idx : list Z) :
  combine idx (map g idx) = map (fun j => (j, g j)) idx.
Proof. induction idx; simpl; congruence. Qed.

(** A left merge with zero fill onto any keys gives the count of each key,
    when keys outside the right index have count zero. *)
Lemma merge_left_counts (g : Z -> Z) (idx keys : list Z) :
  (forall k, ~ In k idx -> g k = 0) ->
  merge_left keys (map (fun j => (j, g j)) idx) = map g keys.
Proof.
  intros Z0. unfold merge_left. apply map_ext. intros k.
  rewrite lookup_pairs. destruct (existsb (fun j => j =? k) idx) eqn:E; [reflexivity|].
  symmetry. apply Z0. intros I.
  assert (X : existsb (fun j => j =? k) idx = true).
  { apply existsb_exists. exists k. split; [exact I | apply Z.eqb_refl]. }
  congruence.
Qed.

Lemma existsb_none {A} (p : A -> bool) (l : list A) :
  (forall x, In x l -> p x = false) -> existsb p l = false.
Proof.
  induction l as [|x l IH]; simpl; intros H; [reflexivity|].
  rewrite (H x) by auto. apply IH. intros y I. apply H. auto.
Qed.

Lemma existsb_false_inv {A} (p : A -> bool) (l : list A) (x : A) :
  existsb p l = false -> In x l -> p x = false.
Proof.
  intros E I. destruct (p x) eqn:P; [|reflexivity].
  assert (existsb p l = true) by (apply existsb_exists; eauto). congruence.
Qed.

(** The column of a request type, whether it exists in the unstacked frame or
    comes from the default, is the count of that type under each key. *)
Lemma unstacked_or_zeros (key : DfRow -> option Z) (rows : list DfRow) (name : string) :
  get_or_zeros (unstacked key rows name) (key_index key rows)
  = map (fun k => len (filter (fun r => key_is key k r && request_is name r) rows))
        (key_index key rows).
Proof.
  unfold unstacked.
  destruct (existsb _ rows) eqn:E; [reflexivity|].
  simpl. apply map_ext. intros k. symmetry.
  rewrite filter_none; [reflexivity|].
  intros r I. pose proof (existsb_false_inv _ _ r E I) as X. cbv beta in X.
  unfold key_is, request_is. destruct (key r); [|reflexivity].
  rewrite X. apply andb_false_r.
Qed.

(** The same column after the merge onto other keys. *)
Lemma unstacked_onto (key : DfRow -> option Z) (rows : list DfRow) (name : string)
    (keys : list Z) :
  get_or_zeros
    (option_map (fun column => merge_left keys (combine (key_index key rows) column))
       (unstacked key rows name)) keys
  = map (fun k => len (filter (fun r => key_is key k r && request_is name r) rows)) keys.
Proof.
  unfold unstacked.
  destruct (existsb _ rows) eqn:E.
  - simpl. rewrite combine_map. apply merge_left_counts.
    intros k N. apply count_absent. exact N.
  - simpl. apply map_ext. intros k. symmetry.
    rewrite filter_none; [reflexivity|].
    intros r I. pose proof (existsb_false_inv _ _ r E I) as X. cbv beta in X.
    unfold key_is, request_is. destruct (key r); [|reflexivity].
    rewrite X. apply andb_false_r.
Qed.

Lemma filter_key_of_jobs (key : DfRow -> option Z) (rows : list DfRow) (k : Z) :
  filter (key_is key k) (filter is_job rows)
  = filter (fun r => key_is key k r && is_job r) rows.
Proof.
  rewrite filter_filter. apply filter_ext. intros r. apply andb_comm.
Qed.

(** The job placements merged onto the index of the frame. *)
Lemma job_placements_merged (key : DfRow -> option Z) (rows : list DfRow) (keys : list Z) :
  merge_left keys (groupby_size key (filter is_job rows))
  = map (fun k => len (filter (fun r => key_is key k r && is_job r) rows)) keys.
Proof.
  unfold groupby_size.
  rewrite (merge_left_counts (fun k => len (filter (key_is key k) (filter is_job rows)))).
  - apply map_ext. intros k. rewrite filter_key_of_jobs. reflexivity.
  - intros k N. rewrite (filter_none (key_is key k)); [reflexivity|].
    intros r I. unfold key_is. destruct (key r) as [j|] eqn:K; [|reflexivity].
    destruct (Z.eqb_spec j k) as [-> | _]; [|reflexivity].
    exfalso. apply N. apply in_key_index. exists r. auto.
Qed.

(** The trend frame, column by column: the counts of each hour. *)
Lemma hourly_trend_counts (sub : list DfRow) :
  hourly_trend sub
  = {| hours := all_hours;
       promo := map (fun h => len (filter (fun r => key_is hour h r && request_is "promo" r)
                                     sub)) all_hours;
       demo := map (fun h => len (filter (fun r => key_is hour h r && request_is "demo" r)
                                    sub)) all_hours;
       ai_assist := map (fun h => len (filter (fun r => key_is hour h r
                                                       && request_is "ai_assist" r) sub))
                        all_hours;
       job_placements := map (fun h => len (filter (fun r => key_is hour h r && is_job r)
                                              sub)) all_hours |}.
Proof.
  unfold hourly_trend. cbv zeta. rewrite !unstacked_onto.
  f_equal. cbn [get_or_zeros].
  rewrite job_placements_merged.
  rewrite combine_map. apply merge_left_counts.
  intros k N. apply count_absent. exact N.
Qed.

(** ** The hourly trend *)

Lemma dt_hour_range (t : Timestamp) : 0 <= dt_hour t < 24.
Proof.
  unfold dt_hour. pose proof (Z.mod_pos_bound t 86400 ltac:(lia)) as B.
  split.
  - apply Z.div_pos; lia.
  - apply Z.div_lt_upper_bound; lia.
Qed.

Lemma series_sum_zeros {A} (l : list A) : series_sum (map (fun _ => 0) l) = 0.
Proof. induction l; simpl; auto. Qed.

Lemma series_sum_add {A} (f g : A -> Z) (l : list A) :
  series_sum (map (fun x => f x + g x) l) = series_sum (map f l) + series_sum (map g l).
Proof.
  induction l as [|x l IH]; [reflexivity|].
  cbn [map]. rewrite !series_sum_cons, IH. lia.
Qed.

(** Exactly one of the 24 hours is the hour of a timestamp. *)
Lemma one_hour_of_day (h0 : Z) :
  0 <= h0 < 24 ->
  series_sum (map (fun h => if h0 =? h then 1 else 0) all_hours) = 1.
Proof.
  intros B.
  assert (E : exists n, (n < 24)%nat /\ h0 = Z.of_nat n) by (exists (Z.to_nat h0); lia).
  destruct E as (n & L & ->).
  do 24 (destruct n as [|n]; [reflexivity|]). lia.
Qed.

(** Summed over the 24 hours, the counts by hour give the count over the
    whole frame, when every row has its hour assigned. *)
Lemma sum_over_hours (p : DfRow -> bool) (rows : list DfRow) :
  Forall (fun r => exists h0, hour r = Some h0 /\ 0 <= h0 < 24) rows ->
  series_sum (map (fun h => len (filter (fun r => key_is hour h r && p r) rows)) all_hours)
  = len (filter p rows).
Proof.
  induction 1 as [|r rows (h0 & K & B) _ IH].
  - reflexivity.
  - rewrite (map_ext _ (fun h => (if key_is hour h r && p r then 1 else 0)
                                 + len (filter (fun r => key_is hour h r && p r) rows))).
    + rewrite series_sum_add, IH. cbn [filter].
      unfold key_is. rewrite K.
      destruct (p r).
      * rewrite len_cons. f_equal.
        rewrite (map_ext _ (fun h => if h0 =? h then 1 else 0))
          by (intros; rewrite andb_true_r; reflexivity).
        apply one_hour_of_day. exact B.
      * rewrite (map_ext _ (fun _ => 0)) by (intros; rewrite andb_false_r; reflexivity).
        rewrite series_sum_zeros. reflexivity.
    + intros h. cbn [filter]. destruct (key_is hour h r && p r); rewrite ?len_cons; lia.
Qed.

Lemma len_filter_map (f : DfRow -> DfRow) (p : DfRow -> bool) (rows : list DfRow) :
  (forall r, p (f r) = p r) -> len (filter p (map f rows)) = len (filter p rows).
Proof.
  intros E. induction rows as [|r rows IH]; [reflexivity|].
  cbn [map filter]. rewrite E. destruct (p r); rewrite ?len_cons, IH; reflexivity.
Qed.

Lemma hours_assigned (rows : list DfRow) :
  Forall (fun r => exists h0, hour r = Some h0 /\ 0 <= h0 < 24) (map with_hour rows).
Proof.
  apply Forall_map. apply Forall_forall. intros r _.
  exists (dt_hour (timestamp (base r))). split; [reflexivity | apply dt_hour_range].
Qed.


Lemma len_filter_of_map {A B} (f : A -> B) (p : B -> bool) (l : list A) :
  len (filter p (map f l)) = len (filter (fun x => p (f x)) l).
Proof.
  induction l as [|x l IH]; [reflexivity|].
  cbn [map filter]. destruct (p (f x)); rewrite ?len_cons, IH; reflexivity.
Qed.




(** ** The summary statistics on screen and in the export *)

(** The daily series, column by column: the counts of each day. *)
Lemma stats_data_counts (rows : list DfRow) :
  stats_data_of rows
  = let index := key_index date rows in
    {| s_date := index;
       s_demo := map (fun d => len (filter (fun r => key_is date d r && request_is "demo" r)
                                      rows)) index;
       s_ai_assist := map (fun d => len (filter (fun r => key_is date d r
                                                         && request_is "ai_assist" r) rows))
                          index;
       s_promo := map (fun d => len (filter (fun r => key_is date d r
                                                      && request_is "promo" r) rows)) index;
       s_job_placements := map (fun d => len (filter (fun r => key_is date d r && is_job r)
                                                rows)) index |}.
Proof.
  unfold stats_data_of. cbv zeta.
  rewrite !unstacked_or_zeros, job_placements_merged. reflexivity.
Qed.

Lemma key_index_date_map (f : DfRow -> DfRow) (rows : list DfRow) :
  (forall r, date (f r) = date r) ->
  key_index date (map f rows) = key_index date rows.
Proof.
  intros E. unfold key_index. f_equal.
  induction rows as [|r rows IH]; [reflexivity|].
  cbn [map flat_map]. rewrite E, IH. reflexivity.
Qed.

(** The daily series read the schema columns and the date column only. *)
Lemma stats_data_of_map (f : DfRow -> DfRow) (rows : list DfRow) :
  (forall r, base (f r) = base r) -> (forall r, date (f r) = date r) ->
  stats_data_of (map f rows) = stats_data_of rows.
Proof.
  intros B D. rewrite !stats_data_counts. cbv zeta.
  rewrite (key_index_date_map f rows D).
  f_equal; apply map_ext; intros d; apply len_filter_map; intros r;
    unfold key_is, request_is, is_job; rewrite B, D; reflexivity.
Qed.

Lemma download_report_some (records : list DfRow) :
  records <> [] ->
  download_report (Some records)
  = Some [ stat_row "Demo Requests" (s_demo (stats_data_of (map with_date records)));
           stat_row "AI Assist Requests"
             (s_ai_assist (stats_data_of (map with_date records)));
           stat_row "Promo Events" (s_promo (stats_data_of (map with_date records)));
           stat_row "Job Placements"
             (s_job_placements (stats_data_of (map with_date records))) ].
Proof. destruct records; [congruence | reflexivity]. Qed.

(** The export recomputes the date column of the retained rows and finds
    the daily series of the cycle. *)
Lemma stats_data_of_retained (rows : list DfRow) :
  stats_data_of (map with_date (map with_hour (map with_date rows)))
  = stats_data_of (map with_date rows).
Proof.
  replace (map with_date (map with_hour (map with_date rows)))
    with (map with_hour (map with_date rows))
    by (rewrite !map_map; apply map_ext; reflexivity).
  apply stats_data_of_map; reflexivity.
Qed.


(** ** Statistics of short and of all-zero series *)

Lemma rat_zero (q : Q) : (q == 0)%Q -> rat q = Rat 0.
Proof. intros H. unfold rat. rewrite (Qred_complete _ _ H). reflexivity. Qed.

Lemma fsqrt_zero (q : Q) : (q == 0)%Q -> fsqrt q = Rat 0.
Proof. intros H. unfold fsqrt. rewrite (Qred_complete _ _ H). reflexivity. Qed.

Lemma series_sum_repeat (n : nat) : series_sum (repeat 0 n) = 0.
Proof. induction n; simpl; auto. Qed.

Lemma sort_values_repeat (n : nat) : sort_values (repeat 0 n) = repeat 0 n.
Proof.
  induction n as [|n IH]; [reflexivity|].
  change (sort_values (repeat 0 (S n))) with (insert_sorted 0 (sort_values (repeat 0 n))).
  rewrite IH. destruct n; reflexivity.
Qed.

Lemma mean_zeros (n : nat) : mean (repeat 0 (S n)) = Rat 0.
Proof.
  unfold mean. cbn [repeat]. apply rat_zero.
  change (0 :: repeat 0 n) with (repeat 0 (S n)). rewrite series_sum_repeat.
  unfold Qdiv. apply Qmult_0_l.
Qed.

Lemma median_zeros (n : nat) : median (repeat 0 (S n)) = Rat 0.
Proof.
  unfold median. rewrite repeat_length, sort_values_repeat, !nth_repeat.
  destruct (Nat.even (S n)); reflexivity.
Qed.

Lemma squared_deviations_zeros (n : nat) (m : Q) :
  (m == 0)%Q ->
  (fold_right (fun x acc => (inject_Z x - m) * (inject_Z x - m) + acc) 0 (repeat 0%Z n)
   == 0)%Q.
Proof.
  intros H. induction n as [|n IH]; [reflexivity|].
  cbn [repeat fold_right]. rewrite IH, H. reflexivity.
Qed.

Lemma std_zeros (n : nat) : std (repeat 0 (S (S n))) = Rat 0.
Proof.
  unfold std.
  replace (len (repeat 0 (S (S n))) <? 2) with false
    by (symmetry; apply Z.ltb_ge; unfold len; rewrite repeat_length; lia).
  apply fsqrt_zero. unfold squared_deviations.
  rewrite squared_deviations_zeros.
  - unfold Qdiv. apply Qmult_0_l.
  - rewrite series_sum_repeat. unfold Qdiv. apply Qmult_0_l.
Qed.

(** A category that never occurs has the all-zero daily series. *)
Lemma missing_category_zeros (name : string) (frame : list DfRow) (index : list Date) :
  (forall r, In r frame -> request_type (base r) <> name) ->
  map (fun d => len (filter (fun r => key_is date d r && request_is name r) frame)) index
  = repeat 0 (List.length index).
Proof.
  intros N. induction index as [|d index IH]; [reflexivity|].
  cbn [map List.length repeat]. rewrite IH. f_equal.
  rewrite filter_none; [reflexivity|].
  intros r I. unfold request_is.
  destruct (String.eqb_spec (request_type (base r)) name) as [E|_].
  - exfalso. exact (N r I E).
  - apply andb_false_r.
Qed.

Lemma group_keys_repeat (d : Z) (n : nat) : group_keys Z.compare (repeat d (S n)) = [d].
Proof.
  induction n as [|n IH]; [reflexivity|].
  change (group_keys Z.compare (repeat d (S (S n))))
    with (insert_key Z.compare d (group_keys Z.compare (repeat d (S n)))).
  rewrite IH. simpl. rewrite Z.compare_refl. reflexivity.
Qed.

(** Rows of one calendar day give a date index of one entry. *)
Lemma single_day_index (rows : list DfRow) (d : Date) :
  rows <> [] -> (forall r, In r rows -> dt_date (timestamp (base r)) = d) ->
  key_index date (map with_date rows) = [d].
Proof.
  intros N H. unfold key_index.
  replace (flat_map _ (map with_date rows)) with (repeat d (List.length rows)).
  - destruct rows; [congruence|]. apply group_keys_repeat.
  - clear N. induction rows as [|r rows IH]; [reflexivity|].
    cbn [map flat_map List.length repeat date with_date app].
    rewrite (H r) by (left; reflexivity). f_equal.
    apply IH. intros x I. apply H. right. exact I.
Qed.

Lemma date_index_nonempty (rows : list DfRow) :
  rows <> [] -> key_index date (map with_date rows) <> [].
Proof.
  destruct rows as [|r rows]; [congruence|]. intros _ E.
  assert (I : In (dt_date (timestamp (base r))) (key_index date (map with_date (r :: rows)))).
  { apply in_key_index. exists (with_date r). split; [left|]; reflexivity. }
  rewrite E in I. destruct I.
Qed.

(** C7 (amended).  For every non-empty filtered table, the table on screen
    holds the rounded rows of the export.  A category among demo, ai_assist
    and promo that never occurs has the all-zero daily series, one 0 per
    calendar day of the data, with mean 0 and median 0; its standard
    deviation is 0 when the data spans at least two days.  The standard
    deviation is the sample one: on a series of a single day it is NaN, not
    0, so that when the data spans exactly one calendar day (as it does when
    all rows share their date) all four standard deviations are NaN, on
    screen and in the export. *)
Theorem summary_statistics_of_short_series (rows : list DfRow) :
  rows <> [] ->
  let frame := map with_date rows in
  let stats_data := stats_data_of frame in
  let days := List.length (s_date stats_data) in
  let table := [ stat_row "Demo Requests" (s_demo stats_data);
                 stat_row "AI Assist Requests" (s_ai_assist stats_data);
                 stat_row "Promo Events" (s_promo stats_data);
                 stat_row "Job Placements" (s_job_placements stats_data) ] in
  live_summary_stats frame = map round_row table
  /\ download_report (Some (map with_hour frame)) = Some table
  /\ (forall metric name series,
        In (metric, name, series)
           [ ("Demo Requests", "demo", s_demo stats_data);
             ("AI Assist Requests", "ai_assist", s_ai_assist stats_data);
             ("Promo Events", "promo", s_promo stats_data) ] ->
        (forall r, In r rows -> request_type (base r) <> name) ->
        series = repeat 0 days
        /\ stat_row metric series
           = {| Metric := metric; Mean := Rat 0; Median := Rat 0;
                Standard_Deviation := if (days <? 2)%nat then NaN else Rat 0 |}
        /\ round_row (stat_row metric series) = stat_row metric series)
  /\ (days = 1%nat ->
        map Standard_Deviation table = [NaN; NaN; NaN; NaN]
        /\ map Standard_Deviation (map round_row table) = [NaN; NaN; NaN; NaN])
  /\ (forall d, (forall r, In r rows -> dt_date (timestamp (base r)) = d) -> days = 1%nat).
Proof.
  intros N frame stats_data days table.
  split; [reflexivity|]. split.
  { rewrite download_report_some by (destruct rows; [congruence | discriminate]).
    unfold frame. rewrite stats_data_of_retained. reflexivity. }
  assert (SD : stats_data = stats_data_of frame) by reflexivity.
  rewrite stats_data_counts in SD. cbv zeta in SD.
  pose proof (date_index_nonempty rows N) as NE. fold frame in NE.
  assert (DA : days = List.length (key_index date frame))
    by (unfold days; rewrite SD; reflexivity).
  split; [|split].
  - assert (Z0 : forall metric n, n = days ->
              repeat 0 n = repeat 0 days
              /\ stat_row metric (repeat 0 n)
                 = {| Metric := metric; Mean := Rat 0; Median := Rat 0;
                      Standard_Deviation := if (days <? 2)%nat then NaN else Rat 0 |}
              /\ round_row (stat_row metric (repeat 0 n)) = stat_row metric (repeat 0 n)).
    { intros metric n ->. split; [reflexivity|]. rewrite DA.
      destruct (key_index date frame) as [|d0 [|d1 index]]; [congruence| |].
      - split; reflexivity.
      - cbn [List.length]. unfold stat_row, round_row.
        cbn [Metric Mean Median Standard_Deviation].
        rewrite mean_zeros, median_zeros, std_zeros. split; reflexivity. }
    intros metric name series I H.
    assert (S0 : forall r, In r frame -> request_type (base r) <> name).
    { intros r J. apply in_map_iff in J. destruct J as (x & <- & J). exact (H x J). }
    destruct I as [E | [E | [E | []]]]; injection E as <- <- <-;
      rewrite unstacked_or_zeros, (missing_category_zeros _ frame _ S0);
      apply Z0; symmetry; exact DA.
  - intros D1. unfold table. rewrite SD, DA in *.
    cbn [s_demo s_ai_assist s_promo s_job_placements].
    destruct (key_index date frame) as [|d0 [|d1 index]]; try discriminate.
    split; reflexivity.
  - intros d H. rewrite DA. unfold frame. rewrite (single_day_index rows d N H). reflexivity.
Qed.

(** * Further properties of the callbacks, the loader and the generator *)

(** ** Distinct values, sorting and group keys *)

Section SortedUniqueFacts.
Variable A : Type.
Variables eqb leb : A -> A -> bool.
Hypothesis eqb_true : forall x y, eqb x y = true <-> x = y.
Hypothesis leb_either : forall x y, leb x y = true \/ leb y x = true.

Lemma existsb_eqb (x : A) (l : list A) : existsb (eqb x) l = true <-> In x l.
Proof.
  rewrite existsb_exists. split.
  - intros (y & I & E). apply eqb_true in E. subst. exact I.
  - intros I. exists x. split; [exact I | apply eqb_true; reflexivity].
Qed.

Lemma in_unique_from (xs : list A) : forall seen x,
  In x (unique_from eqb seen xs) <-> In x xs /\ ~ In x seen.
Proof.
  induction xs as [|y xs IH]; intros seen x; simpl; [tauto|].
  destruct (existsb (eqb y) seen) eqn:E.
  - apply existsb_eqb in E. rewrite IH. split.
    + intros [I N]. auto.
    + intros [[-> | I] N]; [contradiction | auto].
  - assert (N : ~ In y seen) by (rewrite <- existsb_eqb; congruence).
    simpl. rewrite IH. simpl. split.
    + intros [-> | [I M]]; [auto|]. split; [auto|]. intros J. apply M. auto.
    + intros [[-> | I] M]; [auto|].
      destruct (eqb y x) eqn:X.
      * apply eqb_true in X. auto.
      * right. split; [exact I|]. intros [Q0 | J]; [|contradiction].
        apply eqb_true in Q0. congruence.
Qed.

Lemma NoDup_unique_from (xs : list A) : forall seen, NoDup (unique_from eqb seen xs).
Proof.
  induction xs as [|y xs IH]; intros seen; simpl; [constructor|].
  destruct (existsb (eqb y) seen); [apply IH|].
  constructor; [|apply IH].
  rewrite in_unique_from. intros [_ N]. apply N. left. reflexivity.
Qed.

Lemma in_unique (xs : list A) (x : A) : In x (unique eqb xs) <-> In x xs.
Proof. unfold unique. rewrite in_unique_from. simpl. tauto. Qed.

Lemma in_insort (x y : A) (l : list A) : In y (insort leb x l) <-> y = x \/ In y l.
Proof.
  induction l as [|z l IH]; simpl; [intuition|].
  destruct (leb x z); simpl; [intuition|]. rewrite IH. intuition.
Qed.

Lemma in_sorted (xs : list A) (x : A) : In x (sorted leb xs) <-> In x xs.
Proof.
  induction xs as [|y xs IH]; simpl; [reflexivity|].
  rewrite in_insort, IH. intuition.
Qed.

Lemma NoDup_insort (x : A) (l : list A) : ~ In x l -> NoDup l -> NoDup (insort leb x l).
Proof.
  induction l as [|z l IH]; simpl; intros N D.
  - constructor; [auto | constructor].
  - destruct (leb x z).
    + constructor; [exact N | exact D].
    + inversion D as [|? ? Z D']; subst. constructor.
      * rewrite in_insort. intros [-> | I]; [apply N; auto | contradiction].
      * apply IH; auto.
Qed.

Lemma NoDup_sorted (xs : list A) : NoDup xs -> NoDup (sorted leb xs).
Proof.
  induction 1 as [|x xs N D IH]; simpl; [constructor|].
  apply NoDup_insort; [|exact IH]. rewrite in_sorted. exact N.
Qed.

Lemma Sorted_insort (x : A) (l : list A) :
  Sorted (fun a b => leb a b = true) l -> Sorted (fun a b => leb a b = true) (insort leb x l).
Proof.
  induction 1 as [|z l S IH H]; simpl.
  - repeat constructor.
  - destruct (leb x z) eqn:E.
    + constructor; [constructor; assumption | constructor; exact E].
    + constructor; [exact IH|].
      assert (Z : leb z x = true) by (destruct (leb_either x z); congruence).
      destruct l as [|w l]; simpl.
      * constructor. exact Z.
      * inversion H; subst. destruct (leb x w); constructor; assumption.
Qed.

Lemma Sorted_sorted (xs : list A) : Sorted (fun a b => leb a b = true) (sorted leb xs).
Proof.
  induction xs as [|x xs IH]; simpl; [constructor | apply Sorted_insort; exact IH].
Qed.

End SortedUniqueFacts.

Lemma string_eqb_true (x y : string) : String.eqb x y = true <-> x = y.
Proof. apply String.eqb_eq. Qed.

Section GroupKeyFacts.
Variable K : Type.
Variable cmp : K -> K -> comparison.
Hypothesis cmp_eq : forall x y, cmp x y = Eq <-> x = y.
Hypothesis cmp_opp : forall x y, cmp x y = CompOpp (cmp y x).
Hypothesis cmp_trans : forall x y z, cmp x y = Lt -> cmp y z = Lt -> cmp x z = Lt.

Lemma in_insert_key_by (k x : K) (ks : list K) :
  In x (insert_key cmp k ks) <-> x = k \/ In x ks.
Proof.
  induction ks as [|k' ks IH]; simpl; [intuition|].
  destruct (cmp k k') eqn:C; simpl.
  - apply cmp_eq in C. subst. intuition.
  - intuition.
  - rewrite IH. intuition.
Qed.

Lemma in_group_keys_by (x : K) (ks : list K) : In x (group_keys cmp ks) <-> In x ks.
Proof.
  induction ks as [|k ks IH]; simpl; [reflexivity|].
  rewrite in_insert_key_by, IH. intuition.
Qed.

Lemma insert_key_increasing (k : K) (ks : list K) :
  StronglySorted (fun a b => cmp a b = Lt) ks ->
  StronglySorted (fun a b => cmp a b = Lt) (insert_key cmp k ks).
Proof.
  induction 1 as [|k' ks S IH F]; simpl.
  - repeat constructor.
  - destruct (cmp k k') eqn:C.
    + constructor; assumption.
    + constructor; [constructor; assumption|].
      constructor; [exact C|].
      eapply Forall_impl; [|exact F]. intros y Y. eapply cmp_trans; eassumption.
    + constructor; [exact IH|].
      apply Forall_forall. intros y I. apply in_insert_key_by in I.
      destruct I as [-> | I].
      * rewrite cmp_opp, C. reflexivity.
      * rewrite Forall_forall in F. apply F. exact I.
Qed.

Lemma group_keys_increasing (ks : list K) :
  StronglySorted (fun a b => cmp a b = Lt) (group_keys cmp ks).
Proof.
  induction ks as [|k ks IH]; simpl; [constructor | apply insert_key_increasing; exact IH].
Qed.

Lemma NoDup_group_keys (ks : list K) : NoDup (group_keys cmp ks).
Proof.
  pose proof (group_keys_increasing ks) as S.
  induction S as [|k l S IH F]; constructor; [|exact IH].
  intros I. rewrite Forall_forall in F. specialize (F k I).
  assert (E : cmp k k = Eq) by (apply cmp_eq; reflexivity). congruence.
Qed.

End GroupKeyFacts.

Lemma string_cmp_eq (x y : string) : String.compare x y = Eq <-> x = y.
Proof. apply OrderedTypeEx.String_as_OT.cmp_eq. Qed.

Lemma string_cmp_trans (x y z : string) :
  String.compare x y = Lt -> String.compare y z = Lt -> String.compare x z = Lt.
Proof.
  intros H1 H2. apply OrderedTypeEx.String_as_OT.cmp_lt.
  apply OrderedTypeEx.String_as_OT.cmp_lt in H1, H2.
  eapply OrderedTypeEx.String_as_OT.lt_trans; eassumption.
Qed.

Lemma in_string_keys (x : string) (ks : list string) :
  In x (group_keys String.compare ks) <-> In x ks.
Proof. apply in_group_keys_by. apply string_cmp_eq. Qed.

Lemma NoDup_string_keys (ks : list string) : NoDup (group_keys String.compare ks).
Proof.
  apply NoDup_group_keys.
  - apply string_cmp_eq.
  - apply String.compare_antisym.
  - apply string_cmp_trans.
Qed.

Lemma NoDup_key_index (key : DfRow -> option Z) (rows : list DfRow) :
  NoDup (key_index key rows).
Proof.
  apply NoDup_group_keys.
  - apply Z.compare_eq_iff.
  - intros x y. apply Z.compare_antisym.
  - intros x y z. rewrite !Z.compare_lt_iff. lia.
Qed.

(** ** The filter options *)

Lemma values_of_options (values : list string) :
  map Dropdown.value (options_of values) = values.
Proof. unfold options_of. rewrite map_map. simpl. apply map_id. Qed.

Lemma labels_of_options (values : list string) :
  map Dropdown.label (options_of values) = values.
Proof. unfold options_of. rewrite map_map. simpl. apply map_id. Qed.

Lemma dict_get_keys (f : string -> list string) (keys : list string) (key : string)
    (default : list string) :
  dict_get key (map (fun k => (k, f k)) keys) default
  = if existsb (fun k => String.eqb k key) keys then f key else default.
Proof.
  induction keys as [|k keys IH]; simpl; [reflexivity|].
  destruct (String.eqb k key) eqn:E; simpl; [|exact IH].
  apply String.eqb_eq in E. subst. reflexivity.
Qed.

Lemma countries_of_continent (csv : list Row) (c : string) :
  dict_get c (continent_countries csv) []
  = unique String.eqb (map country (filter (fun r => String.eqb (continent r) c) csv)).
Proof.
  unfold continent_countries. destruct (is_empty_table csv) eqn:E.
  - destruct csv; [reflexivity | discriminate].
  - rewrite (dict_get_keys
               (fun c => unique String.eqb
                           (map country (filter (fun r => String.eqb (continent r) c) csv)))).
    destruct (existsb _ _) eqn:X; [reflexivity|].
    rewrite filter_none; [reflexivity|].
    intros r I. destruct (String.eqb (continent r) c) eqn:C; [|reflexivity].
    rewrite <- X. symmetry. apply existsb_exists. exists (continent r). split.
    + apply in_string_keys. apply in_map. exact I.
    + exact C.
Qed.

(** The values of the country dropdown: the distinct countries of the rows
    of the selected continent, or of all rows when none is selected. *)
Lemma country_values (csv : list Row) (selected : option string) :
  map Dropdown.value (update_country_filter csv selected)
  = sorted String.leb
      (unique String.eqb
         (map country
            (filter (fun r => if truthy_str selected
                              then String.eqb (continent r) (unwrap_str selected)
                              else true) csv))).
Proof.
  unfold update_country_filter.
  destruct (truthy_str selected); simpl.
  - destruct csv as [|r csv]; [reflexivity|].
    cbn [is_empty_table]. cbv zeta.
    rewrite values_of_options, countries_of_continent. reflexivity.
  - rewrite filter_true. destruct csv as [|r csv]; [reflexivity|].
    cbn [is_empty_table negb]. apply values_of_options.
Qed.

Lemma country_labels (csv : list Row) (selected : option string) :
  map Dropdown.label (update_country_filter csv selected)
  = map Dropdown.value (update_country_filter csv selected).
Proof.
  unfold update_country_filter.
  destruct (negb (truthy_str selected) || is_empty_table csv).
  - destruct (negb (is_empty_table csv)); [|reflexivity].
    rewrite values_of_options, labels_of_options. reflexivity.
  - cbv zeta. rewrite values_of_options, labels_of_options. reflexivity.
Qed.

Lemma column_option_values (column : Row -> string) (csv : list Row) :
  map Dropdown.value
    (if is_empty_table csv then []
     else options_of (sorted String.leb (unique String.eqb (map column csv))))
  = sorted String.leb (unique String.eqb (map column csv)).
Proof.
  destruct csv as [|r csv]; [reflexivity|]. cbn [is_empty_table]. apply values_of_options.
Qed.

Lemma in_sorted_unique (xs : list string) (x : string) :
  In x (sorted String.leb (unique String.eqb xs)) <-> In x xs.
Proof. rewrite in_sorted. apply in_unique. apply string_eqb_true. Qed.

Lemma NoDup_sorted_unique (xs : list string) :
  NoDup (sorted String.leb (unique String.eqb xs)).
Proof. apply NoDup_sorted. apply NoDup_unique_from. apply string_eqb_true. Qed.

Lemma Sorted_sorted_unique (xs : list string) :
  Sorted (fun a b => String.leb a b = true) (sorted String.leb (unique String.eqb xs)).
Proof. apply Sorted_sorted. apply String.leb_total. Qed.

(** X1.  The country dropdown offers exactly the countries that occur in
    the table: a country is among the options if and only if some row has
    it, and, when a continent is selected, that row is of the selected
    continent.  A continent that no row has, and an empty table, give no
    options. *)
Theorem country_options_are_the_countries_present (csv : list Row)
    (selected : option string) (x : string) :
  In x (map Dropdown.value (update_country_filter csv selected))
  <-> exists r, In r csv /\ country r = x
        /\ (truthy_str selected = true -> continent r = unwrap_str selected).
Proof.
  rewrite country_values, in_sorted_unique, in_map_iff. split.
  - intros (r & E & I). apply filter_In in I. destruct I as [I P].
    exists r. repeat split; auto.
    intros T. rewrite T in P. apply String.eqb_eq. exact P.
  - intros (r & I & E & C). exists r. split; [exact E|].
    apply filter_In. split; [exact I|].
    destruct (truthy_str selected); [|reflexivity].
    apply String.eqb_eq. auto.
Qed.

(** X2.  The options of the country dropdown are in ascending order of
    their text, no country is offered twice, and every option shows the
    country name as its label. *)
Theorem country_options_sorted_without_duplicates (csv : list Row)
    (selected : option string) :
  let options := update_country_filter csv selected in
  map Dropdown.label options = map Dropdown.value options
  /\ NoDup (map Dropdown.value options)
  /\ Sorted (fun a b => String.leb a b = true) (map Dropdown.value options).
Proof.
  cbv zeta. split; [apply country_labels|].
  rewrite country_values. split; [apply NoDup_sorted_unique | apply Sorted_sorted_unique].
Qed.

(** X3.  The continent dropdown and the product dropdown list exactly the
    continents and the product types that occur in the loaded table, each
    once, in ascending order; an empty table gives no options. *)
Theorem continent_and_product_options_list_the_table (csv : list Row) :
  let continents := map Dropdown.value (continent_options csv) in
  let products := map Dropdown.value (product_options csv) in
  (forall c, In c continents <-> exists r, In r csv /\ continent r = c)
  /\ (forall p, In p products <-> exists r, In r csv /\ product_type r = p)
  /\ NoDup continents /\ NoDup products
  /\ Sorted (fun a b => String.leb a b = true) continents
  /\ Sorted (fun a b => String.leb a b = true) products.
Proof.
  cbv zeta. unfold continent_options, product_options.
  rewrite !column_option_values.
  repeat split; try apply NoDup_sorted_unique; try apply Sorted_sorted_unique.
  - rewrite in_sorted_unique, in_map_iff. intros (r & E & I). eauto.
  - rewrite in_sorted_unique, in_map_iff. intros (r & I & E). eauto.
  - rewrite in_sorted_unique, in_map_iff. intros (r & E & I). eauto.
  - rewrite in_sorted_unique, in_map_iff. intros (r & I & E). eauto.
Qed.

(** X4.  The two dropdowns agree: a country offered under a continent is
    also offered when no continent is selected; every country offered
    without a selection is offered under one of the continents of the
    continent dropdown; and every continent of the continent dropdown has at
    least one country to offer. *)
Theorem every_country_is_offered_under_its_continent (csv : list Row) :
  let all_countries := map Dropdown.value (update_country_filter csv None) in
  let under c := map Dropdown.value (update_country_filter csv (Some c)) in
  let continents := map Dropdown.value (continent_options csv) in
  (forall c x, In x (under c) -> In x all_countries)
  /\ (forall x, In x all_countries -> exists c, In c continents /\ In x (under c))
  /\ (forall c, In c continents -> under c <> []).
Proof.
  cbv zeta. unfold continent_options. rewrite column_option_values.
  assert (U : forall c r, In r csv -> continent r = c ->
                In (country r) (map Dropdown.value (update_country_filter csv (Some c)))).
  { intros c r I E. rewrite country_values, in_sorted_unique.
    apply in_map. apply filter_In. split; [exact I|].
    destruct (truthy_str (Some c)); [|reflexivity].
    apply String.eqb_eq. exact E. }
  repeat split.
  - intros c x. rewrite !country_values, !in_sorted_unique, !in_map_iff.
    intros (r & E & I). apply filter_In in I. destruct I as [I _].
    exists r. split; [exact E|]. simpl. rewrite filter_true. exact I.
  - intros x. rewrite country_values, in_sorted_unique, in_map_iff.
    intros (r & E & I). apply filter_In in I. destruct I as [I _].
    exists (continent r). split.
    + apply in_sorted_unique. apply in_map. exact I.
    + subst x. apply U; auto.
  - intros c I. rewrite in_sorted_unique, in_map_iff in I.
    destruct I as (r & E & I). intros N.
    pose proof (U c r I E) as J. rewrite N in J. exact J.
Qed.

(** ** The cycle as a function of the table *)

Lemma isin_In (x : string) (xs : list string) : isin x xs = true <-> In x xs.
Proof. unfold isin. apply existsb_eqb. apply string_eqb_true. Qed.

Lemma same_bundle_refl (a : Outputs) : same_bundle a a.
Proof. unfold same_bundle. repeat split. Qed.

(** The outputs of a cycle on a table with rows, in terms of the rows that
    pass the filters. *)
Lemma run_cycle_table (csv : list Row) (triggered_id : option string)
    (continent : option string) (countries products : option (list string))
    (start_date end_date : DateInput) (trend_view : option string) :
  let mn := min_date_of csv in
  let mx := max_date_of csv in
  let v := handle_reset mn mx triggered_id df continent countries products
             start_date end_date trend_view in
  csv <> [] ->
  fst (run_cycle csv triggered_id continent countries products
         start_date end_date trend_view)
  = Ok (if dates_parse v then
          match filter (passes_all v) csv with
          | [] => placeholder mn mx "No Data Available" no_data_available
          | kept =>
              if accepts_scope (scope_of (Var.continent v)) then
                match trend_of (Var.trend_view v) (map retained kept) with
                | Ok fig => cycle_outputs (echo_dates v) (map loaded kept) fig
                | Raise e => placeholder mn mx "Error Occurred" (error_updating_dashboard e)
                end
              else placeholder mn mx "Error Occurred"
                     (error_updating_dashboard (ValueError (scope_of (Var.continent v))))
          end
        else
          match date_outcome (Var.start_date v), date_outcome (Var.end_date v) with
          | Ok _, Ok _ => placeholder mn mx "No Data Available" no_data_available
          | _, _ => placeholder mn mx "Invalid Date Range" invalid_date_range_selected
          end).
Proof.
  intros mn mx v N. rewrite run_cycle_outputs by exact N. fold mn mx v.
  unfold cycle_on_table. destruct (dates_parse v);
    [| destruct (date_outcome _); [destruct (date_outcome _)|]; reflexivity].
  unfold filtered. rewrite (filter_map_loaded (passes_all v)).
  destruct (filter (passes_all v) csv) as [|r kept] eqn:F; [reflexivity|].
  rewrite <- (retained_rows (r :: kept)).
  cbn [map]. destruct (accepts_scope _); [|reflexivity].
  destruct (trend_of _ _); reflexivity.
Qed.

Lemma run_cycle_same_bundle (csv : list Row)
    (triggered_id triggered_id' : option string)
    (continent continent' : option string)
    (countries countries' products products' : option (list string))
    (start_date start_date' end_date end_date' : DateInput)
    (trend_view trend_view' : option string) :
  let mn := min_date_of csv in
  let mx := max_date_of csv in
  let v := handle_reset mn mx triggered_id df continent countries products
             start_date end_date trend_view in
  let v' := handle_reset mn mx triggered_id' df continent' countries' products'
              start_date' end_date' trend_view' in
  csv <> [] ->
  (forall r, In r csv -> passes_all v r = passes_all v' r) ->
  dates_parse v = dates_parse v' ->
  Var.trend_view v = Var.trend_view v' ->
  Var.continent v = Var.continent v' ->
  Var.start_date v = Var.start_date v' ->
  Var.end_date v = Var.end_date v' ->
  exists a b,
    fst (run_cycle csv triggered_id continent countries products
           start_date end_date trend_view) = Ok a
    /\ fst (run_cycle csv triggered_id' continent' countries' products'
              start_date' end_date' trend_view') = Ok b
    /\ same_bundle a b.
Proof.
  intros mn mx v v' N P D T C S E.
  rewrite !run_cycle_table by exact N. fold mn mx v v'.
  eexists. eexists. split; [reflexivity|]. split; [reflexivity|].
  rewrite <- D, <- T, <- C, <- S, <- E.
  rewrite <- (filter_ext_in _ _ _ P).
  destruct (dates_parse v); [|apply same_bundle_refl].
  destruct (filter (passes_all v) csv) as [|r kept]; [apply same_bundle_refl|].
  cbv zeta. destruct (accepts_scope _); [|apply same_bundle_refl].
  destruct (trend_of _ _); [|apply same_bundle_refl].
  unfold same_bundle, cycle_outputs. cbn. rewrite C. repeat split.
Qed.

Lemma passes_continent_offered (csv : list Row) (v : locals) (r : Row) :
  In r csv -> passes ByContinent v r = true ->
  In (country r) (map Dropdown.value (update_country_filter csv (Var.continent v))).
Proof.
  intros I P. rewrite country_values, in_sorted_unique. apply in_map.
  apply filter_In. split; [exact I | exact P].
Qed.

(** X5.  On a table with rows, when every country that the country
    dropdown offers for the selected continent is among the selected
    countries, the country filter changes nothing: the KPI cards, charts,
    summary table, retained rows and message are those of the cycle without
    a country selection. *)
Theorem selecting_every_offered_country_changes_nothing (csv : list Row)
    (triggered_id : option string) (continent : option string)
    (countries products : option (list string)) (start_date end_date : DateInput)
    (trend_view : option string) :
  csv <> [] ->
  (forall x, In x (map Dropdown.value (update_country_filter csv continent)) ->
             In x (unwrap_list countries)) ->
  exists a b,
    fst (run_cycle csv triggered_id continent countries products
           start_date end_date trend_view) = Ok a
    /\ fst (run_cycle csv triggered_id continent None products
              start_date end_date trend_view) = Ok b
    /\ same_bundle a b.
Proof.
  intros N H. apply run_cycle_same_bundle; try exact N;
    try (unfold handle_reset; destruct (is_reset triggered_id); reflexivity).
  intros r I. unfold handle_reset. destruct (is_reset triggered_id); [reflexivity|].
  match goal with
  | |- passes_all ?v r = _ => pose proof (passes_continent_offered csv v r I) as O
  end.
  unfold passes_all, passes, range_of, dates_given in *.
  cbn [Var.continent Var.countries Var.products Var.start_date Var.end_date
       truthy_list unwrap_list] in *.
  match goal with |- ?a && _ && _ && _ = _ => destruct a end; [|reflexivity].
  specialize (O eq_refl). apply H in O. apply isin_In in O. rewrite O.
  destruct (truthy_list countries); reflexivity.
Qed.

(** X6.  On a table with rows, when countries are selected and none of
    them is among the countries that the dropdown offers for the selected
    continent (or for the whole table when no continent is selected), no row
    matches: a cycle whose date bounds parse ends in the "No Data
    Available" tuple. *)
Theorem countries_never_offered_match_nothing (csv : list Row)
    (triggered_id : option string) (continent : option string)
    (countries products : option (list string)) (start_date end_date : DateInput)
    (trend_view : option string) :
  let v := handle_reset (min_date_of csv) (max_date_of csv) triggered_id df
             continent countries products start_date end_date trend_view in
  csv <> [] -> is_reset triggered_id = false ->
  truthy_list countries = true -> dates_parse v = true ->
  (forall x, In x (unwrap_list countries) ->
             ~ In x (map Dropdown.value (update_country_filter csv continent))) ->
  fst (run_cycle csv triggered_id continent countries products
         start_date end_date trend_view)
  = Ok (placeholder (min_date_of csv) (max_date_of csv)
          "No Data Available" no_data_available).
Proof.
  intros v N R T D H.
  rewrite run_cycle_outputs by exact N. fold v.
  rewrite cycle_without_match; [reflexivity | exact D |].
  intros r I. unfold passes_all.
  pose proof (passes_continent_offered csv v r I) as O.
  destruct (passes ByContinent v r) eqn:PC; [|reflexivity].
  specialize (O eq_refl).
  assert (PK : passes ByCountries v r = false).
  { unfold v, handle_reset in *. rewrite R in *.
    cbn [passes Var.countries Var.continent] in *. rewrite T.
    destruct (isin (country r) (unwrap_list countries)) eqn:E; [|reflexivity].
    apply isin_In in E. exfalso. exact (H _ E O). }
  rewrite PK. reflexivity.
Qed.


(** The trend figure in terms of what [pd.to_datetime(trend_view).date()]
    answers. *)
Lemma trend_of_outcome (trend_view : option string) (rows : list DfRow) :
  trend_of trend_view rows
  = if is_average trend_view then
      Ok (fig_trend "Average Hourly Trends: Promo, Demo, AI Assist, and Job Placements"
            (hourly_trend rows))
    else
      match date_outcome (trend_input trend_view) with
      | Ok selected_date =>
          Ok (fig_trend ("Hourly Trends on " ++ str_date selected_date
                           ++ ": Promo, Demo, AI Assist, and Job Placements")%string
                (hourly_trend
                   (filter (fun r => same_date (dt_date (timestamp (base r))) selected_date)
                      rows)))
      | Raise e => Raise e
      end.
Proof.
  unfold trend_of, trend_figure. destruct (is_average trend_view); [reflexivity|].
  unfold bind. rewrite to_date_outcome.
  destruct (date_outcome (trend_input trend_view)); reflexivity.
Qed.

Lemma trend_of_figure (trend_view : option string) (rows : list DfRow) (fig : Figure) :
  trend_of trend_view rows = Ok fig ->
  exists title trend_data, fig = fig_trend title trend_data.
Proof.
  rewrite trend_of_outcome. destruct (is_average trend_view).
  - intros H. injection H as <-. eauto.
  - destruct (date_outcome _); [|discriminate].
    intros H. injection H as <-. eauto.
Qed.



(** Every cycle returns, either the outputs of a healthy cycle or one of the
    three placeholder tuples. *)
Lemma run_cycle_shape (csv : list Row) (triggered_id : option string)
    (continent : option string) (countries products : option (list string))
    (start_date end_date : DateInput) (trend_view : option string) :
  exists outputs,
    fst (run_cycle csv triggered_id continent countries products
           start_date end_date trend_view) = Ok outputs
    /\ ((error_message outputs = healthy
         /\ filtered_data outputs <> []
         /\ List.length (kpi_cards outputs) = 6%nat
         /\ List.length (summary_stats_table outputs) = 4%nat
         /\ exists title trend_data, trend_graph outputs = fig_trend title trend_data)
        \/ exists title message,
             outputs = placeholder (min_date_of csv) (max_date_of csv) title message
             /\ ((title = "No Data Available" /\ message = no_data_available)
                 \/ (title = "Invalid Date Range" /\ message = invalid_date_range_selected)
                 \/ (title = "Error Occurred"
                     /\ exists e, message = error_updating_dashboard e))).
Proof.
  destruct csv as [|r0 csv0].
  - rewrite run_cycle_no_rows. cbv zeta. cbn [fst].
    eexists. split; [reflexivity|]. right.
    repeat match goal with
           | |- context [if ?b then _ else _] => destruct b
           end; eauto 10.
  - set (csv := r0 :: csv0). assert (N : csv <> []) by discriminate.
    rewrite run_cycle_table by exact N.
    set (v := handle_reset _ _ _ _ _ _ _ _ _ _).
    eexists. split; [reflexivity|].
    destruct (dates_parse v);
      [| destruct (date_outcome _); [destruct (date_outcome _)|]; right; eauto 10].
    destruct (filter (passes_all v) csv) as [|k kept]; [right; eauto 10|].
    cbv zeta. destruct (accepts_scope _); [|right; eauto 10].
    destruct (trend_of _ _) as [fig|e] eqn:T; [|right; eauto 10].
    left. apply trend_of_figure in T. cbn.
    repeat split; [discriminate | exact T].
Qed.

(** What a healthy cycle has computed. *)
Lemma run_cycle_healthy (csv : list Row) (triggered_id : option string)
    (continent : option string) (countries products : option (list string))
    (start_date end_date : DateInput) (trend_view : option string)
    (outputs : Outputs) :
  let v := handle_reset (min_date_of csv) (max_date_of csv) triggered_id df
             continent countries products start_date end_date trend_view in
  fst (run_cycle csv triggered_id continent countries products
         start_date end_date trend_view) = Ok outputs ->
  error_message outputs = healthy ->
  csv <> [] /\ dates_parse v = true /\ filter (passes_all v) csv <> []
  /\ accepts_scope (scope_of (Var.continent v)) = true
  /\ exists fig,
       trend_of (Var.trend_view v) (map retained (filter (passes_all v) csv)) = Ok fig
       /\ outputs = cycle_outputs (echo_dates v) (map loaded (filter (passes_all v) csv)) fig.
Proof.
  intros v R H.
  assert (N : csv = [] \/ csv <> [])
    by (destruct csv; [left; reflexivity | right; discriminate]).
  destruct N as [E | N].
  - subst csv. exfalso. rewrite run_cycle_no_rows in R. cbv zeta in R. cbn [fst] in R.
    injection R as <-.
    repeat match type of H with
           | context [if ?b then _ else _] => destruct b
           end; discriminate.
  - rewrite run_cycle_table in R by exact N. fold v in R.
    injection R as <-.
    destruct (dates_parse v);
      [| destruct (date_outcome _); [destruct (date_outcome _)|]; cbn in H; discriminate H].
    destruct (filter (passes_all v) csv) as [|k kept]; [cbn in H; discriminate H|].
    cbv zeta in *. destruct (accepts_scope _); [|cbn in H; discriminate H].
    destruct (trend_of _ _) as [fig|e] eqn:T; [|cbn in H; discriminate H].
    split; [exact N|]. split; [reflexivity|]. split; [discriminate|].
    split; [reflexivity|].
    exists fig. split; reflexivity.
Qed.

(** X8.  Every cycle returns one of four results, whatever the table and
    the inputs: the outputs of a healthy cycle (empty message, at least one
    retained row, six KPI cards, four summary rows, a trend chart), or the
    "No Data Available", "Invalid Date Range" or "Error Occurred"
    placeholder tuple, whose message is never empty and which retains no
    rows and resets the controls. *)
Theorem every_cycle_is_healthy_or_a_placeholder (csv : list Row)
    (triggered_id : option string) (continent : option string)
    (countries products : option (list string)) (start_date end_date : DateInput)
    (trend_view : option string) :
  exists outputs,
    fst (run_cycle csv triggered_id continent countries products
           start_date end_date trend_view) = Ok outputs
    /\ ((error_message outputs = healthy
         /\ filtered_data outputs <> []
         /\ List.length (kpi_cards outputs) = 6%nat
         /\ List.length (summary_stats_table outputs) = 4%nat
         /\ exists title trend_data, trend_graph outputs = fig_trend title trend_data)
        \/ exists title message,
             outputs = placeholder (min_date_of csv) (max_date_of csv) title message
             /\ ((title = "No Data Available" /\ message = no_data_available)
                 \/ (title = "Invalid Date Range" /\ message = invalid_date_range_selected)
                 \/ (title = "Error Occurred"
                     /\ exists e, message = error_updating_dashboard e))).
Proof. apply run_cycle_shape. Qed.

(** X9.  The download produces a report exactly after a healthy cycle:
    on the rows that a cycle stores, [download_report] returns nothing if
    and only if the cycle ended with a message; and with nothing stored yet
    it returns nothing. *)
Theorem report_exactly_after_a_healthy_cycle (csv : list Row)
    (triggered_id : option string) (continent : option string)
    (countries products : option (list string)) (start_date end_date : DateInput)
    (trend_view : option string) :
  download_report None = None
  /\ exists outputs,
       fst (run_cycle csv triggered_id continent countries products
              start_date end_date trend_view) = Ok outputs
       /\ (download_report (Some (filtered_data outputs)) = None
           <-> error_message outputs <> healthy).
Proof.
  split; [reflexivity|].
  destruct (run_cycle_shape csv triggered_id continent countries products
              start_date end_date trend_view) as (outputs & R & S).
  exists outputs. split; [exact R|].
  destruct S as [(H & F & _) | (title & message & -> & M)].
  - rewrite H, (download_report_some _ F). split; [discriminate | congruence].
  - cbn. split; [|reflexivity]. intros _.
    destruct M as [[_ ->] | [[_ ->] | [_ [e ->]]]]; discriminate.
Qed.


(** X11.  A healthy cycle sends the selection back to the controls: the
    continent, the countries and the products as they were selected (the
    defaults after a reset), and the two dates as the dates that the bounds
    parse to when both were given, unchanged otherwise. *)
Theorem a_healthy_cycle_echoes_the_selection (csv : list Row)
    (triggered_id : option string) (continent : option string)
    (countries products : option (list string)) (start_date end_date : DateInput)
    (trend_view : option string) :
  let v := handle_reset (min_date_of csv) (max_date_of csv) triggered_id df
             continent countries products start_date end_date trend_view in
  exists outputs,
    fst (run_cycle csv triggered_id continent countries products
           start_date end_date trend_view) = Ok outputs
    /\ (error_message outputs = healthy ->
        continent_value outputs = Var.continent v
        /\ country_value outputs = Var.countries v
        /\ product_value outputs = Var.products v
        /\ match range_of v with
           | Some (s, e) =>
               start_date_value outputs = DDate s /\ end_date_value outputs = DDate e
           | None =>
               start_date_value outputs = Var.start_date v
               /\ end_date_value outputs = Var.end_date v
           end).
Proof.
  intros v.
  destruct (run_cycle_shape csv triggered_id continent countries products
              start_date end_date trend_view) as (outputs & R & _).
  exists outputs. split; [exact R|]. intros H.
  destruct (run_cycle_healthy csv triggered_id continent countries products
              start_date end_date trend_view outputs R H)
    as (_ & D & _ & _ & fig & _ & ->).
  fold v in D |- *.
  cbn [continent_value country_value product_value start_date_value end_date_value
       cycle_outputs echo_dates Var.continent Var.countries Var.products
       Var.start_date Var.end_date].
  repeat split.
  unfold range_of, dates_parse, echo_date in *.
  destruct (dates_given v); [|split; reflexivity].
  destruct (parsed (Var.start_date v)) as [s|]; [|discriminate].
  destruct (parsed (Var.end_date v)) as [e|]; [|discriminate].
  split; reflexivity.
Qed.


(** X13.  When the base table has no rows, no cycle shows data: a reset,
    and any cycle with both dates given and no continent, country or product
    selected, ends in "Invalid Date Range"; a selected continent makes the
    cycle end in "Error Occurred" (the frame that stands in for the empty
    table has no continent column); with nothing selected at all the cycle
    ends in "No Data Available".  The date fields are set to the fixed
    bounds 2024-01-01 and 2025-05-31. *)
Theorem empty_table_never_shows_data (triggered_id : option string)
    (continent : option string) (countries products : option (list string))
    (start_date end_date : DateInput) (trend_view : option string) :
  exists title message,
    fst (run_cycle [] triggered_id continent countries products
           start_date end_date trend_view)
    = Ok (placeholder (days_from_civil 2024 1 1) (days_from_civil 2025 5 31) title message)
    /\ message <> healthy
    /\ (is_reset triggered_id = true -> message = invalid_date_range_selected)
    /\ (is_reset triggered_id = false -> truthy_str continent = true ->
        message = error_updating_dashboard (KeyError "continent"))
    /\ (is_reset triggered_id = false -> truthy_str continent = false ->
        truthy_list countries = false -> truthy_list products = false ->
        message = if truthy_date start_date && truthy_date end_date
                  then invalid_date_range_selected else no_data_available).
Proof.
  rewrite run_cycle_no_rows. cbv zeta. cbn [fst].
  unfold handle_reset, dates_given.
  destruct (is_reset triggered_id).
  - cbn. eexists. eexists. split; [reflexivity|].
    repeat split; try discriminate.
  - cbn [Var.continent Var.countries Var.products Var.start_date Var.end_date].
    destruct (truthy_str continent).
    + eexists. eexists. split; [reflexivity|]. repeat split; try discriminate.
    + destruct (truthy_list countries).
      * eexists. eexists. split; [reflexivity|]. repeat split; try discriminate.
      * destruct (truthy_list products).
        -- eexists. eexists. split; [reflexivity|]. repeat split; try discriminate.
        -- destruct (truthy_date start_date && truthy_date end_date);
             eexists; eexists; (split; [reflexivity|]); repeat split; try discriminate.
Qed.

(** ** Sums over groups *)

Lemma series_sum_none {K} (m : K -> bool) (keys : list K) :
  (forall k, In k keys -> m k = false) ->
  series_sum (map (fun k => if m k then 1 else 0) keys) = 0.
Proof.
  induction keys as [|k keys IH]; intros H; [reflexivity|].
  cbn [map]. rewrite series_sum_cons, (H k (or_introl eq_refl)), IH; [reflexivity|].
  intros j J. apply H. right. exact J.
Qed.

(** Exactly one of the distinct keys matches. *)
Lemma series_sum_one {K} (m : K -> bool) (keys : list K) (k0 : K) :
  NoDup keys -> In k0 keys -> (forall k, In k keys -> (m k = true <-> k = k0)) ->
  series_sum (map (fun k => if m k then 1 else 0) keys) = 1.
Proof.
  induction 1 as [|k keys N D IH]; intros I M; [destruct I|].
  cbn [map]. rewrite series_sum_cons. destruct I as [-> | I].
  - rewrite (proj2 (M k0 (or_introl eq_refl)) eq_refl).
    rewrite series_sum_none; [reflexivity|].
    intros j J. destruct (m j) eqn:E; [|reflexivity].
    apply (M j (or_intror J)) in E. subst. contradiction.
  - destruct (m k) eqn:E.
    + apply (M k (or_introl eq_refl)) in E. subst. contradiction.
    + rewrite IH; [reflexivity | exact I |].
      intros j J. apply M. right. exact J.
Qed.

(** The counts by group add up to the count of the whole, when every row
    belongs to exactly one of the groups. *)
Lemma partition_counts {K R} (m : K -> R -> bool) (p : R -> bool) (keys : list K)
    (rows : list R) :
  NoDup keys ->
  (forall r, In r rows ->
     exists k0, In k0 keys /\ forall k, In k keys -> (m k r = true <-> k = k0)) ->
  series_sum (map (fun k => len (filter (fun r => m k r && p r) rows)) keys)
  = len (filter p rows).
Proof.
  intros N. induction rows as [|r rows IH]; intros H.
  - cbn [filter]. apply series_sum_zeros.
  - rewrite (map_ext _ (fun k => (if m k r && p r then 1 else 0)
                                 + len (filter (fun r => m k r && p r) rows))).
    + rewrite series_sum_add, IH by (intros; apply H; right; assumption).
      cbn [filter]. destruct (p r).
      * rewrite len_cons. f_equal.
        rewrite (map_ext _ (fun k => if m k r then 1 else 0))
          by (intros; rewrite andb_true_r; reflexivity).
        destruct (H r (or_introl eq_refl)) as (k0 & I & M).
        exact (series_sum_one (fun k => m k r) keys k0 N I M).
      * rewrite (map_ext _ (fun _ => 0)) by (intros; rewrite andb_false_r; reflexivity).
        rewrite series_sum_zeros. reflexivity.
    + intros k. cbn [filter]. destruct (m k r && p r); rewrite ?len_cons; lia.
Qed.

Lemma groupby_revenue_keys (key : Row -> string) (rows : list DfRow) :
  NoDup (map fst (groupby_revenue key rows))
  /\ forall k, In k (map fst (groupby_revenue key rows))
               <-> exists r, In r rows /\ key (base r) = k.
Proof.
  unfold groupby_revenue. rewrite map_map. cbn [fst]. rewrite map_id. split.
  - apply NoDup_string_keys.
  - intros k. rewrite in_string_keys, in_map_iff. split.
    + intros (r & E & I). eauto.
    + intros (r & I & E). eauto.
Qed.

(** ** Counts by value *)

Lemma distinct_unique (ks seen : list string) :
  distinct seen ks = unique_from String.eqb seen ks.
Proof.
  revert seen. induction ks as [|k ks IH]; intros seen; [reflexivity|].
  cbn [distinct unique_from]. unfold isin. rewrite !IH. reflexivity.
Qed.

Lemma insert_by_count_perm (x : string * Z) (l : list (string * Z)) :
  Permutation (insert_by_count x l) (x :: l).
Proof.
  induction l as [|y l IH]; [reflexivity|].
  cbn [insert_by_count]. destruct (snd y <=? snd x); [reflexivity|].
  rewrite IH. apply perm_swap.
Qed.

Lemma sort_by_count_perm (l : list (string * Z)) :
  Permutation (fold_right insert_by_count [] l) l.
Proof.
  induction l as [|x l IH]; [reflexivity|].
  cbn [fold_right]. rewrite insert_by_count_perm, IH. reflexivity.
Qed.

Lemma series_sum_perm (xs ys : list Z) : Permutation xs ys -> series_sum xs = series_sum ys.
Proof.
  induction 1; rewrite ?series_sum_cons; lia.
Qed.

Lemma sort_by_count_descending (l : list (string * Z)) :
  Sorted (fun a b => snd b <= snd a) (fold_right insert_by_count [] l).
Proof.
  induction l as [|x l IH]; [constructor|].
  cbn [fold_right]. induction IH as [|y s S IHs H].
  - repeat constructor.
  - cbn [insert_by_count]. destruct (snd y <=? snd x) eqn:E.
    + constructor; [constructor; assumption|]. constructor. lia.
    + constructor; [exact IHs|].
      destruct s as [|z s]; cbn [insert_by_count].
      * constructor. lia.
      * inversion H; subst. destruct (snd z <=? snd x); constructor; lia.
Qed.

Lemma len_map {A B} (f : A -> B) (l : list A) : len (map f l) = len l.
Proof. unfold len. rewrite length_map. reflexivity. Qed.

Lemma len_positive {A} (p : A -> bool) (l : list A) (x : A) :
  In x l -> p x = true -> 0 < len (filter p l).
Proof.
  intros I P. assert (J : In x (filter p l)) by (apply filter_In; auto).
  destruct (filter p l); [destruct J|]. rewrite len_cons. pose proof (len_nonneg l0). lia.
Qed.

(** [value_counts]: one entry per distinct value with its number of
    occurrences, the counts adding up to the length, largest first. *)
Lemma value_counts_facts (ks : list string) :
  series_sum (map snd (value_counts ks)) = len ks
  /\ NoDup (map fst (value_counts ks))
  /\ (forall k c, In (k, c) (value_counts ks)
                  <-> In k ks /\ c = len (filter (String.eqb k) ks))
  /\ Sorted (fun a b => snd b <= snd a) (value_counts ks).
Proof.
  unfold value_counts.
  set (pairs := map (fun k => (k, len (filter (String.eqb k) ks))) (distinct [] ks)).
  pose proof (sort_by_count_perm pairs) as P.
  assert (D : NoDup (distinct [] ks))
    by (rewrite distinct_unique; apply NoDup_unique_from; apply string_eqb_true).
  assert (I : forall k, In k (distinct [] ks) <-> In k ks).
  { intros k. rewrite distinct_unique. apply (in_unique _ _ string_eqb_true). }
  split; [|split; [|split]].
  - rewrite (series_sum_perm _ _ (Permutation_map snd P)).
    unfold pairs. rewrite map_map. cbn [snd].
    rewrite (map_ext _ (fun k => len (filter (fun x => String.eqb k x && true) ks)))
      by (intros k; f_equal; apply filter_ext; intros x; rewrite andb_true_r; reflexivity).
    rewrite (partition_counts String.eqb (fun _ => true) _ ks D).
    + rewrite filter_true. reflexivity.
    + intros x X. exists x. split; [apply I; exact X|].
      intros k _. rewrite String.eqb_eq. split; congruence.
  - apply (Permutation_NoDup (Permutation_sym (Permutation_map fst P))).
    unfold pairs. rewrite map_map. cbn [fst]. rewrite map_id. exact D.
  - intros k c. split.
    + intros H. apply (Permutation_in _ P) in H. unfold pairs in H.
      apply in_map_iff in H. destruct H as (j & E & J). injection E as -> <-.
      split; [apply I; exact J | reflexivity].
    + intros (J & ->). apply (Permutation_in _ (Permutation_sym P)).
      unfold pairs. apply in_map_iff. exists k. split; [reflexivity | apply I; exact J].
  - apply sort_by_count_descending.
Qed.

(** ** The charts against the KPI cards *)

Lemma filter_of_map {A B} (f : A -> B) (p : B -> bool) (l : list A) :
  filter p (map f l) = map f (filter (fun x => p (f x)) l).
Proof.
  induction l as [|x l IH]; [reflexivity|].
  cbn [map filter]. destruct (p (f x)); cbn [map]; rewrite IH; reflexivity.
Qed.

(** The bars of a revenue chart, those with a key that [keep] admits: one
    bar for each value of the key column among the rows, holding the sum of
    the revenues of the rows with that value, in table order; the rows with
    an admitted key are divided among the bars. *)
Lemma groupby_revenue_groups (key : Row -> string) (keep : string -> bool)
    (rows : list DfRow) :
  let bars := filter (fun kv => keep (fst kv)) (groupby_revenue key rows) in
  NoDup (map fst bars)
  /\ (forall k, In k (map fst bars)
                <-> keep k = true /\ exists r, In r rows /\ key (base r) = k)
  /\ (forall k a, In (k, a) bars ->
        a = group_sum lib (map (fun r => revenue (base r)) (group_rows key k rows)))
  /\ series_sum (map (fun k => len (group_rows key k rows)) (map fst bars))
     = len (filter (fun r => keep (key (base r))) rows).
Proof.
  cbv zeta. unfold groupby_revenue. rewrite filter_of_map, !map_map. cbn [fst].
  rewrite map_id.
  set (keys := group_keys String.compare (map (fun r => key (base r)) rows)).
  split; [apply NoDup_filter; apply NoDup_string_keys|]. split; [|split].
  - intros k. rewrite filter_In. unfold keys. rewrite in_string_keys, in_map_iff. split.
    + intros [(r & E & I) K]. eauto.
    + intros [K (r & I & E)]. eauto.
  - intros k a I. apply in_map_iff in I. destruct I as (j & E & _).
    injection E as <- <-. reflexivity.
  - set (kept := filter (fun r => keep (key (base r))) rows).
    rewrite (map_ext_in _ (fun k => len (filter (fun r => String.eqb (key (base r)) k && true)
                                           kept))).
    + rewrite (partition_counts (fun k r => String.eqb (key (base r)) k) (fun _ => true)).
      * rewrite filter_true. reflexivity.
      * apply NoDup_filter. apply NoDup_string_keys.
      * intros r I. apply filter_In in I. destruct I as [I K].
        exists (key (base r)). split.
        -- apply filter_In. split; [|exact K].
           apply in_string_keys. apply (in_map (fun r => key (base r))). exact I.
        -- intros k _. rewrite String.eqb_eq. split; congruence.
    + intros k K. apply filter_In in K. destruct K as [_ K].
      unfold kept, group_rows. rewrite filter_filter. f_equal. apply filter_ext.
      intros r. rewrite andb_true_r.
      destruct (String.eqb (key (base r)) k) eqn:E; [|symmetry; apply andb_false_r].
      apply String.eqb_eq in E. rewrite E, K. reflexivity.
Qed.

Lemma group_rows_map (key : Row -> string) (k : string) (g : DfRow -> DfRow)
    (rows : list DfRow) :
  (forall r, base (g r) = base r) ->
  group_rows key k (map g rows) = map g (group_rows key k rows).
Proof.
  intros B. unfold group_rows. rewrite filter_of_map. f_equal.
  apply filter_ext. intros r. rewrite B. reflexivity.
Qed.

Lemma map_base_map (f : Row -> Q) (g : DfRow -> DfRow) (rows : list DfRow) :
  (forall r, base (g r) = base r) ->
  map (fun r => f (base r)) (map g rows) = map (fun r => f (base r)) rows.
Proof. intros B. rewrite map_map. apply map_ext. intros r. rewrite B. reflexivity. Qed.

Lemma request_pie_facts (rows : list DfRow) :
  exists dist,
    request_pie_of rows = fig_pie dist
    /\ series_sum (map snd dist) = len rows
    /\ NoDup (map fst dist)
    /\ (forall k c, In (k, c) dist -> 0 < c /\ c = len (filter (request_is k) rows))
    /\ Sorted (fun a b => snd b <= snd a) dist.
Proof.
  unfold request_pie_of. eexists. split; [reflexivity|].
  destruct (value_counts_facts (map (fun r => request_type (base r)) rows))
    as (S & N & C & O).
  rewrite len_map in S. split; [exact S|]. split; [exact N|]. split; [|exact O].
  intros k c H. apply C in H. destruct H as [I ->].
  rewrite len_filter_of_map.
  rewrite (filter_ext _ (request_is k))
    by (intros r; unfold request_is; apply String.eqb_sym).
  split; [|reflexivity].
  apply in_map_iff in I. destruct I as (r & E & I).
  apply (len_positive _ _ r I). unfold request_is. apply String.eqb_eq. exact E.
Qed.

Lemma job_type_bar_facts (rows : list DfRow) :
  exists jobs,
    job_type_bar_of rows = fig_job jobs
    /\ series_sum (map snd jobs) = len (filter is_job rows)
    /\ NoDup (map fst jobs)
    /\ (forall k c, In (k, c) jobs ->
          0 < c /\ k <> "None"
          /\ c = len (filter (fun r => String.eqb (job_type (base r)) k) rows))
    /\ Sorted (fun a b => snd b <= snd a) jobs.
Proof.
  unfold job_type_bar_of. eexists. split; [reflexivity|].
  destruct (value_counts_facts (map (fun r => job_type (base r)) (filter is_job rows)))
    as (S & N & C & O).
  rewrite len_map in S. split; [exact S|]. split; [exact N|]. split; [|exact O].
  intros k c H. apply C in H. destruct H as [I ->].
  apply in_map_iff in I. destruct I as (r & E & I).
  apply filter_In in I. destruct I as [I J].
  assert (K : k <> "None").
  { intros ->. unfold is_job in J. rewrite E in J. discriminate. }
  rewrite len_filter_of_map, filter_filter.
  rewrite (filter_ext _ (fun r => String.eqb (job_type (base r)) k)).
  - split; [|split; [exact K | reflexivity]].
    apply (len_positive _ _ r I). apply String.eqb_eq. exact E.
  - intros q. rewrite (String.eqb_sym k). unfold is_job.
    destruct (String.eqb (job_type (base q)) k) eqn:Q; [|apply andb_false_r].
    apply String.eqb_eq in Q. rewrite Q.
    apply String.eqb_neq in K. rewrite K. reflexivity.
Qed.

(** X14.  In a healthy cycle the three revenue charts group the retained
    rows: the bars by salesperson, the values by country on the map and the
    bars by affiliate code (without the code "None") each have one entry
    for every value of their column among the retained rows; an entry holds
    the sum that the group-by computes of the revenues of the retained rows
    with that value, in table order; and every retained row (with an
    affiliate code, for the affiliate chart) falls in exactly one entry, so
    the sizes of the groups add up to the number of these rows.  The
    Revenue card holds the sum over the revenue column of the retained
    rows; the map is drawn on the scope of the selected continent. *)
Theorem revenue_charts_group_the_retained_rows (csv : list Row)
    (triggered_id : option string) (continent : option string)
    (countries products : option (list string)) (start_date end_date : DateInput)
    (trend_view : option string) :
  let v := handle_reset (min_date_of csv) (max_date_of csv) triggered_id df
             continent countries products start_date end_date trend_view in
  exists outputs,
    fst (run_cycle csv triggered_id continent countries products
           start_date end_date trend_view) = Ok outputs
    /\ (error_message outputs = healthy ->
        exists by_salesperson by_affiliate by_country revenue_card cards,
          revenue_bar outputs = fig_bar by_salesperson TARGETS.revenue
          /\ affiliate_bar outputs = fig_affiliate by_affiliate
          /\ revenue_map outputs = fig_map (scope_of (Var.continent v)) by_country
          /\ kpi_cards outputs = revenue_card :: cards
          /\ title revenue_card = "Revenue"
          /\ value revenue_card
             = float_sum lib (map (fun r => revenue (base r)) (filtered_data outputs))
          /\ forall key keep bars,
               In (key, keep, bars)
                  [ (salesperson_id, fun _ => true, by_salesperson);
                    (country, fun _ => true, by_country);
                    (affiliate_code, fun k => negb (String.eqb k "None"), by_affiliate) ] ->
               NoDup (map fst bars)
               /\ (forall k, In k (map fst bars)
                             <-> keep k = true
                                 /\ exists r, In r (filtered_data outputs)
                                              /\ key (base r) = k)
               /\ (forall k a, In (k, a) bars ->
                     a = group_sum lib
                           (map (fun r => revenue (base r))
                              (group_rows key k (filtered_data outputs))))
               /\ series_sum (map (fun k => len (group_rows key k (filtered_data outputs)))
                                (map fst bars))
                  = len (filter (fun r => keep (key (base r))) (filtered_data outputs))).
Proof.
  intros v.
  destruct (run_cycle_shape csv triggered_id continent countries products
              start_date end_date trend_view) as (outputs & R & _).
  exists outputs. split; [exact R|]. intros H.
  destruct (run_cycle_healthy csv triggered_id continent countries products
              start_date end_date trend_view outputs R H)
    as (_ & _ & _ & _ & fig & _ & ->).
  fold v.
  set (rows := map loaded (filter (passes_all v) csv)).
  unfold cycle_outputs, revenue_bar_of, affiliate_bar_of, revenue_map_figure, kpi_cards_of.
  cbn [revenue_bar affiliate_bar revenue_map kpi_cards filtered_data
       echo_dates Var.continent].
  do 5 eexists.
  split; [reflexivity|]. split; [reflexivity|]. split; [reflexivity|].
  split; [reflexivity|]. split; [reflexivity|].
  cbn [value create_metric_card total_revenue compute_kpis].
  split.
  { unfold col_sum. rewrite !map_base_map by reflexivity. reflexivity. }
  assert (G : forall key keep,
            let bars := filter (fun kv => keep (fst kv))
                          (groupby_revenue key (map with_date rows)) in
            NoDup (map fst bars)
            /\ (forall k, In k (map fst bars)
                          <-> keep k = true
                              /\ exists r, In r (map with_hour (map with_date rows))
                                           /\ key (base r) = k)
            /\ (forall k a, In (k, a) bars ->
                  a = group_sum lib
                        (map (fun r => revenue (base r))
                           (group_rows key k (map with_hour (map with_date rows)))))
            /\ series_sum
                 (map (fun k => len (group_rows key k (map with_hour (map with_date rows))))
                    (map fst bars))
               = len (filter (fun r => keep (key (base r)))
                        (map with_hour (map with_date rows)))).
  { intros key keep.
    destruct (groupby_revenue_groups key keep (map with_date rows)) as (N & K & A & S).
    cbv zeta. split; [exact N|]. split; [|split].
    - intros k. rewrite K. split; intros [E (r & I & F)]; (split; [exact E|]).
      + exists (with_hour r). split; [apply in_map; exact I | exact F].
      + apply in_map_iff in I. destruct I as (r0 & <- & I). eauto.
    - intros k a I. rewrite (A k a I).
      rewrite (group_rows_map key k with_hour) by reflexivity.
      rewrite (map_base_map revenue with_hour) by reflexivity. reflexivity.
    - rewrite (len_filter_map with_hour) by reflexivity. rewrite <- S.
      f_equal. apply map_ext. intros k.
      rewrite (group_rows_map key k with_hour) by reflexivity.
      apply len_map. }
  intros key keep bars [E | [E | [E | []]]]; injection E as <- <- <-.
  - pose proof (G salesperson_id (fun _ => true)) as F. cbv zeta in F.
    rewrite filter_true in F. exact F.
  - pose proof (G country (fun _ => true)) as F. cbv zeta in F.
    rewrite filter_true in F. exact F.
  - exact (G affiliate_code (fun k => negb (String.eqb k "None"))).
Qed.

(** X15.  In a healthy cycle the slices of the request pie are the
    request types that occur among the retained rows, each once with its
    number of rows, largest first, and they add up to the number of retained
    rows; the bars of the job chart are the job types other than "None",
    each with its number of rows, largest first, and they add up to the
    value of the Jobs Placed card. *)
Theorem request_and_job_charts_count_the_retained_rows (csv : list Row)
    (triggered_id : option string) (continent : option string)
    (countries products : option (list string)) (start_date end_date : DateInput)
    (trend_view : option string) :
  exists outputs,
    fst (run_cycle csv triggered_id continent countries products
           start_date end_date trend_view) = Ok outputs
    /\ (error_message outputs = healthy ->
        exists dist jobs c1 c2 c3 jobs_card c5 c6,
          request_pie outputs = fig_pie dist
          /\ job_type_bar outputs = fig_job jobs
          /\ kpi_cards outputs = [c1; c2; c3; jobs_card; c5; c6]
          /\ title jobs_card = "Jobs Placed"
          /\ series_sum (map snd dist) = len (filtered_data outputs)
          /\ inject_Z (series_sum (map snd jobs)) = value jobs_card
          /\ NoDup (map fst dist) /\ NoDup (map fst jobs)
          /\ (forall k c, In (k, c) dist ->
                0 < c /\ c = len (filter (request_is k) (filtered_data outputs)))
          /\ (forall k c, In (k, c) jobs ->
                0 < c /\ k <> "None"
                /\ c = len (filter (fun r => String.eqb (job_type (base r)) k)
                              (filtered_data outputs)))
          /\ Sorted (fun a b => snd b <= snd a) dist
          /\ Sorted (fun a b => snd b <= snd a) jobs).
Proof.
  destruct (run_cycle_shape csv triggered_id continent countries products
              start_date end_date trend_view) as (outputs & R & _).
  exists outputs. split; [exact R|]. intros H.
  destruct (run_cycle_healthy csv triggered_id continent countries products
              start_date end_date trend_view outputs R H)
    as (_ & _ & _ & _ & fig & _ & ->).
  set (v := handle_reset _ _ _ _ _ _ _ _ _ _).
  set (rows := map loaded (filter (passes_all v) csv)).
  destruct (request_pie_facts (map with_date rows)) as (dist & PE & PS & PN & PC & PO).
  destruct (job_type_bar_facts (map with_date rows)) as (jobs & JE & JS & JN & JC & JO).
  unfold cycle_outputs, kpi_cards_of.
  cbn [request_pie job_type_bar kpi_cards filtered_data].
  exists dist, jobs. do 6 eexists.
  split; [exact PE|]. split; [exact JE|]. split; [reflexivity|]. split; [reflexivity|].
  cbn [value create_metric_card jobs_placed compute_kpis].
  split; [rewrite PS, !len_map; reflexivity|].
  split; [rewrite JS, len_filter_map by reflexivity; reflexivity|].
  split; [exact PN|]. split; [exact JN|].
  split; [|split; [|split; [exact PO | exact JO]]].
  - intros k c I. destruct (PC k c I) as [P ->]. split; [exact P|].
    symmetry. apply len_filter_map. reflexivity.
  - intros k c I. destruct (JC k c I) as (P & K & ->). split; [exact P|].
    split; [exact K|]. symmetry.
    apply (len_filter_map with_hour (fun r => String.eqb (job_type (base r)) k)).
    reflexivity.
Qed.

(** ** The daily series and the trend of one date *)

Lemma sum_over_dates (p : DfRow -> bool) (rows : list DfRow) :
  series_sum (map (fun d => len (filter (fun r => key_is date d r && p r)
                                   (map with_date rows)))
                  (key_index date (map with_date rows)))
  = len (filter p (map with_date rows)).
Proof.
  apply (partition_counts (key_is date)); [apply NoDup_key_index|].
  intros r I. apply in_map_iff in I. destruct I as (r0 & <- & I).
  exists (dt_date (timestamp (base r0))). split.
  - apply in_key_index. exists (with_date r0). split; [|reflexivity].
    apply in_map. exact I.
  - intros k _. unfold key_is. cbn [date base with_date]. rewrite Z.eqb_eq.
    split; congruence.
Qed.

Lemma mean_of_series (xs : list Z) :
  xs <> [] -> mean xs = rat (inject_Z (series_sum xs) / inject_Z (len xs)).
Proof. destruct xs; [congruence | reflexivity]. Qed.

(** X16.  The daily series behind the summary table cover every retained
    row once: the days are the calendar dates of the rows, each once, in
    ascending order; over the days the demo, ai_assist and promo series add
    up to the counts of the KPIs and the job placements to the jobs placed;
    so on a non-empty table each mean is the KPI count divided by the
    number of days with data. *)
Theorem daily_series_add_up_to_the_kpi_counts (rows : list DfRow) :
  let frame := map with_date rows in
  let stats_data := stats_data_of frame in
  let kpis := compute_kpis rows in
  let days := len (s_date stats_data) in
  series_sum (s_demo stats_data) = demo_count kpis
  /\ series_sum (s_ai_assist stats_data) = ai_assist_requests kpis
  /\ series_sum (s_promo stats_data) = promo_requests kpis
  /\ series_sum (s_job_placements stats_data) = jobs_placed kpis
  /\ StronglySorted Z.lt (s_date stats_data)
  /\ (forall d, In d (s_date stats_data)
                <-> exists r, In r rows /\ dt_date (timestamp (base r)) = d)
  /\ (rows <> [] ->
      Mean (stat_row "Demo Requests" (s_demo stats_data))
      = rat (inject_Z (demo_count kpis) / inject_Z days)
      /\ Mean (stat_row "AI Assist Requests" (s_ai_assist stats_data))
         = rat (inject_Z (ai_assist_requests kpis) / inject_Z days)
      /\ Mean (stat_row "Promo Events" (s_promo stats_data))
         = rat (inject_Z (promo_requests kpis) / inject_Z days)
      /\ Mean (stat_row "Job Placements" (s_job_placements stats_data))
         = rat (inject_Z (jobs_placed kpis) / inject_Z days)).
Proof.
  cbv zeta. rewrite stats_data_counts. cbv zeta.
  cbn [s_demo s_ai_assist s_promo s_job_placements s_date
       demo_count ai_assist_requests promo_requests jobs_placed compute_kpis].
  assert (S : forall p : DfRow -> bool,
            (forall r, p (with_date r) = p r) ->
            series_sum (map (fun d => len (filter (fun r => key_is date d r && p r)
                                             (map with_date rows)))
                          (key_index date (map with_date rows)))
            = len (filter p rows)).
  { intros p E. rewrite sum_over_dates. apply len_filter_map. exact E. }
  rewrite !S by reflexivity.
  split; [reflexivity|]. split; [reflexivity|]. split; [reflexivity|].
  split; [reflexivity|]. split; [|split].
  - apply (group_keys_increasing Z Z.compare).
    + apply Z.compare_eq_iff.
    + intros x y. apply Z.compare_antisym.
    + intros x y z. rewrite !Z.compare_lt_iff. lia.
  - intros d. rewrite in_key_index. split.
    + intros (r & I & E). apply in_map_iff in I. destruct I as (r0 & <- & I).
      exists r0. split; [exact I|]. cbn [date base with_date] in E. injection E as E. exact E.
    + intros (r & I & E). exists (with_date r). split; [apply in_map; exact I|].
      cbn [date base with_date]. f_equal. exact E.
  - intros N.
    assert (M : forall g : Z -> Z,
              map g (key_index date (map with_date rows)) <> [])
      by (intros g E; apply map_eq_nil in E; exact (date_index_nonempty rows N E)).
    unfold stat_row. cbn [Mean].
    rewrite !mean_of_series by apply M.
    rewrite !S by reflexivity. rewrite !len_map. repeat split.
Qed.

Lemma Forall_filter {A} (P : A -> Prop) (p : A -> bool) (l : list A) :
  Forall P l -> Forall P (filter p l).
Proof.
  intros F. apply Forall_forall. intros x I. apply filter_In in I.
  rewrite Forall_forall in F. apply F. apply I.
Qed.

(** X17.  With a date as trend view, the trend chart is titled with that
    date and drawn from the retained rows of that date alone: over the 24
    hours each series adds up to the number of these rows of its kind, and
    when no retained row is of that date all four series are zero. *)
Theorem date_trend_counts_the_rows_of_the_date (rows : list DfRow) (s : string)
    (d : Date) :
  String.eqb s "average" = false -> to_datetime s = Some d ->
  let frame := map with_hour (map with_date rows) in
  let on_date (r : DfRow) := dt_date (timestamp (base r)) =? d in
  exists trend_data,
    trend_of (Some s) frame
    = Ok (fig_trend ("Hourly Trends on " ++ isoformat d
                       ++ ": Promo, Demo, AI Assist, and Job Placements")%string
            trend_data)
    /\ series_sum (promo trend_data)
       = len (filter (fun r => on_date r && request_is "promo" r) rows)
    /\ series_sum (demo trend_data)
       = len (filter (fun r => on_date r && request_is "demo" r) rows)
    /\ series_sum (ai_assist trend_data)
       = len (filter (fun r => on_date r && request_is "ai_assist" r) rows)
    /\ series_sum (job_placements trend_data)
       = len (filter (fun r => on_date r && is_job r) rows)
    /\ ((forall r, In r rows -> dt_date (timestamp (base r)) <> d) ->
        promo trend_data = repeat 0 24 /\ demo trend_data = repeat 0 24
        /\ ai_assist trend_data = repeat 0 24
        /\ job_placements trend_data = repeat 0 24).
Proof.
  intros A P frame on_date.
  rewrite trend_of_outcome. cbn [is_average trend_input]. rewrite A.
  rewrite (date_outcome_of_parsed (DStr s) d P). cbn [str_date same_date].
  eexists. split; [reflexivity|].
  assert (S : forall p : DfRow -> bool,
            (forall r, p (with_hour (with_date r)) = p r) ->
            series_sum
              (map (fun h => len (filter (fun r => key_is hour h r && p r)
                                    (filter on_date frame))) all_hours)
            = len (filter (fun r => on_date r && p r) rows)).
  { intros p E. rewrite sum_over_hours.
    - rewrite filter_filter. unfold frame. rewrite map_map.
      apply (len_filter_map (fun r => with_hour (with_date r))
               (fun r => on_date r && p r)).
      intros r. rewrite E. reflexivity.
    - apply Forall_filter. apply hours_assigned. }
  split; [|split; [|split; [|split]]].
  - rewrite hourly_trend_counts. cbn [promo]. apply S. reflexivity.
  - rewrite hourly_trend_counts. cbn [demo]. apply S. reflexivity.
  - rewrite hourly_trend_counts. cbn [ai_assist]. apply S. reflexivity.
  - rewrite hourly_trend_counts. cbn [job_placements]. apply S. reflexivity.
  - intros N.
    rewrite (filter_none (fun r => dt_date (timestamp (base r)) =? d) frame).
    + repeat split.
    + intros r I. unfold frame in I. rewrite map_map in I.
      apply in_map_iff in I. destruct I as (r0 & <- & I).
      unfold on_date. cbn [base with_hour with_date]. apply Z.eqb_neq. apply N. exact I.
Qed.

(** ** The KPI cards *)

(** X18.  The status of a KPI card never drops when the value rises, for
    any target; and for a target that is not negative the three statuses
    split the values at 70% and 90% of the target: success from 90% on,
    warning from 70% up to 90%, danger below 70%. *)
Theorem card_status_rises_with_the_value (title unit : string) (value value' target : Q) :
  let card := create_metric_card title value target unit in
  let card' := create_metric_card title value' target unit in
  ((value <= value')%Q -> status_rank (status card) <= status_rank (status card'))
  /\ ((0 <= target)%Q ->
      (status card = success <-> (target * (9 # 10) <= value)%Q)
      /\ (status card = warning
          <-> (target * (7 # 10) <= value)%Q /\ (value < target * (9 # 10))%Q)
      /\ (status card = danger <-> (value < target * (7 # 10))%Q)).
Proof.
  cbv zeta. unfold create_metric_card. cbn [status].
  destruct (Qle_bool (target * (9 # 10)) value) eqn:A;
    destruct (Qle_bool (target * (7 # 10)) value) eqn:B;
    destruct (Qle_bool (target * (9 # 10)) value') eqn:A';
    destruct (Qle_bool (target * (7 # 10)) value') eqn:B';
    rewrite ?Qle_bool_iff in *;
    repeat match goal with
           | H : Qle_bool _ _ = false |- _ =>
               apply not_true_iff_false in H; rewrite Qle_bool_iff in H;
               apply Qnot_le_lt in H
           end;
    cbn [status_rank];
    (split; [intros L; first [lia | exfalso; lra]
            | intros T; repeat split; intros; try discriminate; try assumption;
              try lra; exfalso; lra]).
Qed.

(** ** The date bounds and the trend-view options *)

Lemma minimum_in (t : Timestamp) (ts : list Timestamp) : In (minimum t ts) (t :: ts).
Proof.
  induction ts as [|x ts IH]; [left; reflexivity|].
  unfold minimum in *. cbn [fold_right].
  destruct (Z.min_spec x (fold_right Z.min t ts)) as [[_ ->] | [_ ->]].
  - right. left. reflexivity.
  - destruct IH as [E | I]; [left; exact E | right; right; exact I].
Qed.

Lemma maximum_in (t : Timestamp) (ts : list Timestamp) : In (maximum t ts) (t :: ts).
Proof.
  induction ts as [|x ts IH]; [left; reflexivity|].
  unfold maximum in *. cbn [fold_right].
  destruct (Z.max_spec x (fold_right Z.max t ts)) as [[_ ->] | [_ ->]].
  - destruct IH as [E | I]; [left; exact E | right; right; exact I].
  - right. left. reflexivity.
Qed.

(** X19.  The bounds of the date picker enclose the data: the date of
    every row lies between the minimum and the maximum date, the minimum is
    not after the maximum, and on a table with rows each bound is the date
    of some row. *)
Theorem date_bounds_enclose_every_row (csv : list Row) :
  (forall r, In r csv ->
     min_date_of csv <= dt_date (timestamp r) <= max_date_of csv)
  /\ min_date_of csv <= max_date_of csv
  /\ (csv <> [] ->
      (exists r, In r csv /\ dt_date (timestamp r) = min_date_of csv)
      /\ (exists r, In r csv /\ dt_date (timestamp r) = max_date_of csv)).
Proof.
  assert (B : forall r, In r csv ->
                min_date_of csv <= dt_date (timestamp r) <= max_date_of csv).
  { intros r I. pose proof (in_full_range csv r I) as F.
    unfold in_range in F. apply andb_prop in F. destruct F as [F G].
    apply Z.leb_le in F, G. split; assumption. }
  split; [exact B|]. destruct csv as [|r0 csv0].
  - split; [vm_compute; discriminate|]. intros N. congruence.
  - split; [specialize (B r0 (or_introl eq_refl)); lia|]. intros _. split.
    + unfold min_date_of. cbn [map].
      pose proof (minimum_in (timestamp r0) (map timestamp csv0)) as I.
      change (timestamp r0 :: map timestamp csv0)
        with (map timestamp (r0 :: csv0)) in I.
      apply in_map_iff in I. destruct I as (r & E & I).
      exists r. split; [exact I|]. rewrite E. reflexivity.
    + unfold max_date_of. cbn [map].
      pose proof (maximum_in (timestamp r0) (map timestamp csv0)) as I.
      change (timestamp r0 :: map timestamp csv0)
        with (map timestamp (r0 :: csv0)) in I.
      apply in_map_iff in I. destruct I as (r & E & I).
      exists r. split; [exact I|]. rewrite E. reflexivity.
Qed.

Lemma length_append (s1 s2 : string) :
  String.length (s1 ++ s2) = (String.length s1 + String.length s2)%nat.
Proof. induction s1 as [|c s1 IH]; cbn; [reflexivity | rewrite IH; reflexivity]. Qed.

Lemma length_zero_padded (width : nat) : forall n, String.length (zero_padded width n) = width.
Proof.
  induction width as [|w IH]; intros n; [reflexivity|].
  cbn [zero_padded]. rewrite length_append, IH. cbn. lia.
Qed.

Lemma length_isoformat (d : Date) : String.length (isoformat d) = 10%nat.
Proof.
  unfold isoformat. destruct (civil_from_days d) as [[y m] dd].
  rewrite !length_append, !length_zero_padded. reflexivity.
Qed.

Lemma isoformat_not_average (d : Date) : String.eqb (isoformat d) "average" = false.
Proof.
  apply String.eqb_neq. intros E.
  pose proof (length_isoformat d) as L. rewrite E in L. discriminate.
Qed.

Lemma in_trend_dates (csv : list Row) (d : Date) :
  In d (sorted Z.leb (unique Z.eqb (map (fun r => dt_date (timestamp r)) csv)))
  <-> exists r, In r csv /\ dt_date (timestamp r) = d.
Proof.
  rewrite in_sorted, (in_unique _ _ Z.eqb_eq), in_map_iff. split.
  - intros (r & E & I). eauto.
  - intros (r & I & E). eauto.
Qed.

(** X20.  For a table that was read from the file, the trend-view dropdown
    offers "average" first and then the calendar dates of the table: each
    date once, in ascending order, with its ISO text as label and as value;
    every date offered is the date of some row and lies within the bounds of
    the date picker, every date of a row is offered, and no date text reads
    "average". *)
Theorem trend_view_options_are_the_dates_of_the_table (csv : list Row) :
  exists dates,
    trend_view_options csv
    = {| Dropdown.label := "Average 24-Hour Trend"; Dropdown.value := "average" |}
      :: map (fun d => {| Dropdown.label := isoformat d; Dropdown.value := isoformat d |})
             dates
    /\ NoDup dates
    /\ Sorted (fun a b => a <= b) dates
    /\ (forall d, In d dates <-> exists r, In r csv /\ dt_date (timestamp r) = d)
    /\ (forall d, In d dates -> min_date_of csv <= d <= max_date_of csv)
    /\ (forall d, In d dates -> isoformat d <> "average").
Proof.
  unfold trend_view_options. eexists. split; [reflexivity|].
  split; [apply NoDup_sorted; apply NoDup_unique_from; apply Z.eqb_eq|].
  split.
  { assert (S : forall l, Sorted (fun a b => Z.leb a b = true) l ->
                          Sorted (fun a b => a <= b) l).
    { induction 1 as [|a l S IH H]; constructor; [exact IH|].
      destruct H as [|b l H]; constructor. apply Z.leb_le. exact H. }
    apply S. apply Sorted_sorted. intros x y. rewrite !Z.leb_le. lia. }
  split; [apply in_trend_dates|]. split.
  - intros d I. apply in_trend_dates in I. destruct I as (r & I & <-).
    pose proof (in_full_range csv r I) as F.
    unfold in_range in F. apply andb_prop in F. destruct F as [F G].
    apply Z.leb_le in F, G. split; assumption.
  - intros d _ E. pose proof (isoformat_not_average d) as N.
    rewrite E in N. discriminate.
Qed.


(** ** Loading and cleaning *)

Lemma clean_row_cases (strptime : string -> option Timestamp) (raw : RawRow) :
  (complete strptime raw = true /\ exists r, clean_row strptime raw = Some r)
  \/ (complete strptime raw = false /\ clean_row strptime raw = None).
Proof.
  unfold complete, clean_row.
  destruct (coerce_timestamp strptime (raw_timestamp raw)); [|right; split; reflexivity].
  destruct (raw_continent raw); [|right; split; reflexivity].
  destruct (raw_country raw); [|right; split; reflexivity].
  destruct (raw_product_type raw); [|right; split; reflexivity].
  destruct (raw_request_type raw); [|right; split; reflexivity].
  destruct (raw_salesperson_id raw); [|right; split; reflexivity].
  left. split; [reflexivity | eauto].
Qed.

Lemma load_data_cons (strptime : string -> option Timestamp) (raw : RawRow)
    (rows : list RawRow) :
  load_data strptime (Frame (raw :: rows))
  = match clean_row strptime raw with
    | Some r => r :: load_data strptime (Frame rows)
    | None => load_data strptime (Frame rows)
    end.
Proof. cbn [load_data flat_map]. destruct (clean_row strptime raw); reflexivity. Qed.

(** X22.  The loader keeps exactly the raw rows that have a timestamp of
    the expected format, a continent, a country, a product type, a request
    type and a salesperson, in file order, each cleaned; so the number of
    loaded rows is the number of such raw rows, a file that cannot be read
    gives the empty table, and loading a file of two parts gives the rows of
    the first part followed by the rows of the second. *)
Theorem loader_keeps_exactly_the_complete_rows (strptime : string -> option Timestamp)
    (rows more : list RawRow) :
  let table := load_data strptime (Frame rows) in
  map Some table = map (clean_row strptime) (filter (complete strptime) rows)
  /\ len table = len (filter (complete strptime) rows)
  /\ load_data strptime Unreadable = []
  /\ load_data strptime (Frame (rows ++ more))
     = table ++ load_data strptime (Frame more).
Proof.
  cbv zeta.
  assert (E : map Some (load_data strptime (Frame rows))
              = map (clean_row strptime) (filter (complete strptime) rows)).
  { induction rows as [|raw rows IH]; [reflexivity|].
    rewrite load_data_cons. cbn [filter].
    destruct (clean_row_cases strptime raw) as [[C [r R]] | [C R]]; rewrite C, R.
    - cbn [map]. rewrite IH, R. reflexivity.
    - exact IH. }
  split; [exact E|]. split; [|split; [reflexivity|]].
  - rewrite <- (len_map Some), E. apply len_map.
  - cbn [load_data]. apply flat_map_app.
Qed.

(** X23.  Every loaded row is a row of the file with all six required
    cells present: its timestamp is the parsed timestamp text and its
    continent, country, product type, request type and salesperson are the
    cells of the file, so that the request type is never the default
    "Unknown" of the loader unless the file says so; the job type and the
    affiliate code are the cells or "None" when missing, the revenue and the
    purchase flag the cells or 0. *)
Theorem loaded_rows_take_their_cells_from_the_file
    (strptime : string -> option Timestamp) (file : CsvFile) (r : Row) :
  In r (load_data strptime file) ->
  exists rows raw text,
    file = Frame rows /\ In raw rows
    /\ raw_timestamp raw = Some text /\ strptime text = Some (timestamp r)
    /\ raw_continent raw = Some (continent r)
    /\ raw_country raw = Some (country r)
    /\ raw_product_type raw = Some (product_type r)
    /\ raw_request_type raw = Some (request_type r)
    /\ raw_salesperson_id raw = Some (salesperson_id r)
    /\ job_type r = fillna "None" (raw_job_type raw)
    /\ revenue r = fillna 0%Q (raw_revenue raw)
    /\ purchase_flag r = fillna 0 (raw_purchase_flag raw)
    /\ affiliate_code r = fillna "None" (raw_affiliate_code raw).
Proof.
  destruct file as [|rows]; [intros []|]. intros I. exists rows.
  cbn [load_data] in I. apply in_flat_map in I. destruct I as (raw & I & C).
  exists raw. unfold clean_row, coerce_timestamp in C.
  destruct (raw_timestamp raw) as [text|]; [|destruct C].
  exists text.
  destruct (strptime text) as [t|]; [|destruct C].
  destruct (raw_continent raw); [|destruct C].
  destruct (raw_country raw); [|destruct C].
  destruct (raw_product_type raw); [|destruct C].
  destruct (raw_request_type raw); [|destruct C].
  destruct (raw_salesperson_id raw); [|destruct C].
  destruct C as [<- | []]. cbn. repeat split. exact I.
Qed.

(** X24.  The KPIs of a freshly loaded table in terms of the file: the
    interactions are the complete raw rows; a job placement is a complete
    row with a job type other than "None", so a missing job type counts as
    no job; the total revenue and the purchases add the cells of the
    complete rows, in the order of the file, a missing or non-numeric cell
    counting as 0. *)
Theorem missing_cells_count_as_no_job_and_no_revenue
    (strptime : string -> option Timestamp) (rows : list RawRow) :
  let kpis := compute_kpis (map loaded (load_data strptime (Frame rows))) in
  let complete_rows := filter (complete strptime) rows in
  total_interactions kpis = len complete_rows
  /\ jobs_placed kpis
     = len (filter (fun raw => match raw_job_type raw with
                               | Some j => negb (String.eqb j "None")
                               | None => false
                               end) complete_rows)
  /\ total_revenue kpis = float_sum lib (map (fun raw => fillna 0%Q (raw_revenue raw))
                                           complete_rows)
  /\ purchases kpis = series_sum (map (fun raw => fillna 0 (raw_purchase_flag raw))
                                    complete_rows).
Proof.
  cbv zeta. cbn [total_interactions jobs_placed total_revenue purchases compute_kpis].
  unfold col_sum.
  enough (G : len (map loaded (load_data strptime (Frame rows)))
              = len (filter (complete strptime) rows)
              /\ len (filter is_job (map loaded (load_data strptime (Frame rows))))
                 = len (filter (fun raw => match raw_job_type raw with
                                           | Some j => negb (String.eqb j "None")
                                           | None => false
                                           end) (filter (complete strptime) rows))
              /\ map (fun r => revenue (base r))
                   (map loaded (load_data strptime (Frame rows)))
                 = map (fun raw => fillna 0%Q (raw_revenue raw))
                     (filter (complete strptime) rows)
              /\ series_sum (map (fun r => purchase_flag (base r))
                               (map loaded (load_data strptime (Frame rows))))
                 = series_sum (map (fun raw => fillna 0 (raw_purchase_flag raw))
                                 (filter (complete strptime) rows))).
  { destruct G as (G1 & G2 & G3 & G4). rewrite G3. repeat split; assumption. }
  induction rows as [|raw rows (IH1 & IH2 & IH3 & IH4)].
  - repeat split.
  - rewrite load_data_cons. cbn [filter].
    destruct (clean_row_cases strptime raw) as [[C [r R]] | [C R]]; rewrite C, R;
      [|repeat split; assumption].
    assert (F : job_type r = fillna "None" (raw_job_type raw)
                /\ revenue r = fillna 0%Q (raw_revenue raw)
                /\ purchase_flag r = fillna 0 (raw_purchase_flag raw)).
    { unfold clean_row in R.
      destruct (coerce_timestamp strptime (raw_timestamp raw)); [|discriminate].
      destruct (raw_continent raw); [|discriminate].
      destruct (raw_country raw); [|discriminate].
      destruct (raw_product_type raw); [|discriminate].
      destruct (raw_request_type raw); [|discriminate].
      destruct (raw_salesperson_id raw); [|discriminate].
      injection R as <-. repeat split. }
    destruct F as (FJ & FR & FP).
    cbn [map filter]. rewrite !len_cons, series_sum_cons.
    cbn [base loaded map].
    rewrite series_sum_cons, <- IH1, <- IH3, <- IH4, FR, FP.
    split; [reflexivity|]. split; [|split; reflexivity].
    unfold is_job at 1. cbn [base loaded]. rewrite FJ.
    destruct (raw_job_type raw) as [j|]; cbn [fillna].
    + destruct (negb (String.eqb j "None")); rewrite ?len_cons, <- IH2; reflexivity.
    + cbn. exact IH2.
Qed.

(** ** The synthetic data set *)

Lemma round_half_even_bounds (x : Q) (lo hi : Z) :
  (inject_Z lo <= x)%Q -> (x <= inject_Z hi)%Q ->
  lo <= round_half_even x <= hi.
Proof.
  intros L H. unfold round_half_even.
  pose proof (Qfloor_resp_le _ _ L) as FL. rewrite Qfloor_Z in FL.
  pose proof (Qfloor_resp_le _ _ H) as FH. rewrite Qfloor_Z in FH.
  pose proof (Qfloor_le x) as FX.
  assert (U : (1 # 2 <= x - inject_Z (Qfloor x))%Q -> Qfloor x + 1 <= hi).
  { intros G. assert (S : (inject_Z (Qfloor x) < inject_Z hi)%Q) by lra.
    rewrite <- Zlt_Qlt in S. lia. }
  destruct (Qcompare_spec (x - inject_Z (Qfloor x)) (1 # 2)) as [E | E | E].
  - assert (G : (1 # 2 <= x - inject_Z (Qfloor x))%Q) by (rewrite E; apply Qle_refl).
    specialize (U G). destruct (Z.even (Qfloor x)); lia.
  - lia.
  - specialize (U (Qlt_le_weak _ _ E)). lia.
Qed.

Lemma round_2_bounds (x : Q) :
  (100 <= x <= 300)%Q -> (100 <= round_2 x <= 300)%Q.
Proof.
  intros [L H]. unfold round_2.
  destruct (round_half_even_bounds (x * 100) 10000 30000) as [A B].
  - change (inject_Z 10000) with (100 * 100)%Q. lra.
  - change (inject_Z 30000) with (300 * 100)%Q. lra.
  - rewrite Zle_Qle in A, B.
    change (inject_Z 10000) with (100 * 100)%Q in A.
    change (inject_Z 30000) with (300 * 100)%Q in B.
    split.
    + apply Qle_shift_div_l; [reflexivity | exact A].
    + apply Qle_shift_div_r; [reflexivity | exact B].
Qed.

Lemma in_range_countries (n : nat) :
  (n < List.length DISTRIBUTION_keys)%nat ->
  In (nth n DISTRIBUTION_keys EmptyString,
      dict_get (nth n DISTRIBUTION_keys EmptyString) CONTINENTS []) CONTINENTS.
Proof.
  intros L. do 6 (destruct n as [|n]; [cbn; tauto|]). cbn in L. lia.
Qed.

(** X25.  Every generated row names a continent of the distribution and
    a country of that continent, a salesperson, a product type, a request
    type, a status code and an affiliate code of the lists they are drawn
    from; it has a job type of the list exactly when its request type is
    "job", and the empty text otherwise; and the file has one row per pass
    of the loop. *)
Theorem generated_rows_draw_from_the_catalogues (AFFILIATE_CODES : list string)
    (draws : list Draws) :
  Forall (in_range_draws AFFILIATE_CODES) draws ->
  List.length (generate AFFILIATE_CODES draws) = List.length draws
  /\ Forall (fun g =>
       (exists countries,
          In (g_continent g, countries) CONTINENTS /\ In (g_country g) countries)
       /\ In (g_salesperson_id g) SALESPEOPLE
       /\ In (g_product_type g) PRODUCT_TYPES
       /\ In (g_request_type g) REQUEST_TYPES
       /\ In (g_status_code g) STATUS_CODES
       /\ In (g_affiliate_code g) AFFILIATE_CODES
       /\ (g_request_type g = "job" -> In (g_job_type g) JOB_TYPES)
       /\ (g_request_type g <> "job" -> g_job_type g = EmptyString))
     (generate AFFILIATE_CODES draws).
Proof.
  intros F. unfold generate. split; [apply length_map|].
  apply Forall_map. eapply Forall_impl; [|exact F].
  intros d (H1 & H2 & H3 & H4 & H5 & H6 & H7 & H8 & H9 & H10 & H11 & H12 & H13).
  unfold generate_row. cbv zeta.
  cbn [g_continent g_country g_salesperson_id g_product_type g_request_type
       g_status_code g_affiliate_code g_job_type].
  split; [|repeat split; try (apply nth_In; assumption)].
  - eexists. split; [apply in_range_countries; exact H1 | apply nth_In; exact H2].
  - intros ->. apply nth_In. exact H10.
  - intros N. apply String.eqb_neq in N. rewrite N. reflexivity.
Qed.

(** X26.  The timestamp of every generated row lies in the period from
    2024-01-01 00:00:00 to 2025-05-31 23:59:59: its date is the start date
    plus the drawn number of days, and its hour is the drawn hour. *)
Theorem generated_timestamps_lie_in_the_period (AFFILIATE_CODES : list string)
    (draws : list Draws) :
  Forall (in_range_draws AFFILIATE_CODES) draws ->
  Forall (fun g => datetime 2024 1 1 0 0 0 <= g_timestamp g <= datetime 2025 5 31 23 59 59)
    (generate AFFILIATE_CODES draws)
  /\ forall d, In d draws ->
       dt_date (g_timestamp (generate_row AFFILIATE_CODES d))
       = dt_date START_DATE + draw_day d
       /\ dt_hour (g_timestamp (generate_row AFFILIATE_CODES d)) = draw_hour d.
Proof.
  intros F.
  assert (T : forall d, in_range_draws AFFILIATE_CODES d ->
                g_timestamp (generate_row AFFILIATE_CODES d)
                = (19723 + draw_day d) * 86400
                  + (draw_hour d * 3600 + draw_minute d * 60 + draw_second d)
                /\ 0 <= draw_day d <= 516
                /\ 0 <= draw_hour d * 3600 + draw_minute d * 60 + draw_second d < 86400
                /\ 0 <= draw_minute d * 60 + draw_second d < 3600).
  { intros d (_ & _ & H3 & H4 & H5 & H6 & _).
    change ((END_DATE - START_DATE) / 86400) with 516 in H3.
    unfold generate_row. cbv zeta. cbn [g_timestamp].
    change START_DATE with (19723 * 86400). unfold dt_date.
    replace (19723 * 86400 + draw_day d * 86400) with ((19723 + draw_day d) * 86400) by lia.
    rewrite Z.div_mul by lia. repeat split; lia. }
  split.
  - unfold generate. apply Forall_map. eapply Forall_impl; [|exact F].
    intros d H. destruct (T d H) as (-> & D & S & _).
    change (datetime 2024 1 1 0 0 0) with (19723 * 86400).
    change (datetime 2025 5 31 23 59 59) with (20239 * 86400 + 86399). lia.
  - intros d I. rewrite Forall_forall in F.
    destruct (T d (F d I)) as (-> & D & S & M).
    change START_DATE with (19723 * 86400). unfold dt_date, dt_hour.
    rewrite Z.div_mul by lia.
    rewrite Z.add_comm, Z.div_add, Z.mod_add by lia.
    rewrite (Z.div_small _ 86400), (Z.mod_small _ 86400) by lia.
    split; [lia|].
    rewrite <- Z.add_assoc, Z.add_comm, Z.div_add by lia.
    rewrite Z.div_small by lia. reflexivity.
Qed.

(** X27.  In every generated row the revenue is either 0 or an amount from
    100 to 300 with two decimals, and it is positive only for a job or a
    demo request; the purchase flag is 0 or 1, and it is 1 only when the
    revenue is positive. *)
Theorem generated_revenue_and_purchase_flags (AFFILIATE_CODES : list string)
    (draws : list Draws) :
  Forall (in_range_draws AFFILIATE_CODES) draws ->
  Forall (fun g =>
       ((g_revenue g == 0)%Q \/ (100 <= g_revenue g <= 300)%Q)
       /\ (exists cents, (g_revenue g == inject_Z cents / 100)%Q)
       /\ ((0 < g_revenue g)%Q -> g_request_type g = "job" \/ g_request_type g = "demo")
       /\ (g_purchase_flag g = 0 \/ g_purchase_flag g = 1)
       /\ (g_purchase_flag g = 1 -> (0 < g_revenue g)%Q))
    (generate AFFILIATE_CODES draws).
Proof.
  intros F. unfold generate. apply Forall_map. eapply Forall_impl; [|exact F].
  intros d H.
  assert (U : (100 <= draw_uniform d <= 300)%Q) by apply H.
  unfold generate_row. cbv zeta. cbn [g_revenue g_request_type g_purchase_flag].
  set (request_type := nth (draw_request d) REQUEST_TYPES EmptyString).
  set (revenue := if isin request_type ["job"; "demo"]
                     && negb (Qle_bool (3 # 10) (draw_revenue_coin d))
                  then round_2 (draw_uniform d) else 0%Q).
  assert (R : ((revenue == 0)%Q \/ (100 <= revenue <= 300)%Q)
              /\ (exists cents, (revenue == inject_Z cents / 100)%Q)
              /\ ((0 < revenue)%Q -> request_type = "job" \/ request_type = "demo")).
  { unfold revenue.
    destruct (isin request_type ["job"; "demo"]) eqn:J; cbn [andb].
    - apply isin_In in J.
      assert (K : request_type = "job" \/ request_type = "demo")
        by (destruct J as [<- | [<- | []]]; auto).
      destruct (negb (Qle_bool (3 # 10) (draw_revenue_coin d))).
      + split; [right; apply round_2_bounds; exact U|].
        split; [eexists; unfold round_2; reflexivity | intros _; exact K].
      + split; [left; reflexivity|].
        split; [exists 0; reflexivity | intros _; exact K].
    - split; [left; reflexivity|].
      split; [exists 0; reflexivity | intros L; exfalso; revert L; apply Qlt_irrefl]. }
  destruct R as (R1 & R2 & R3).
  split; [exact R1|]. split; [exact R2|]. split; [exact R3|].
  destruct (Qle_bool revenue 0) eqn:P; cbn [negb andb].
  - split; [left; reflexivity | discriminate].
  - assert (L : (0 < revenue)%Q).
    { apply Qnot_le_lt. intros G. apply Qle_bool_iff in G. congruence. }
    destruct (negb (Qle_bool (1 # 2) (draw_purchase_coin d))).
    + split; [right; reflexivity | intros _; exact L].
    + split; [left; reflexivity | discriminate].
Qed.

(** ** Cycles in sequence *)

(** From any store that holds the base table, the callback returns what it
    returns at load, and leaves the objects of the store as they were. *)
Lemma update_dashboard_any_store (csv : list Row) (h : heap)
    (triggered_id : option string) (continent : option string)
    (countries products : option (list string)) (start_date end_date : DateInput)
    (trend_view : option string) :
  nth_error h df = Some (load csv) ->
  exists h',
    update_dashboard (min_date_of csv) (max_date_of csv) triggered_id
      continent countries products start_date end_date trend_view h
    = (fst (run_cycle csv triggered_id continent countries products
              start_date end_date trend_view), h')
    /\ forall l, (l < List.length h)%nat -> nth_error h' l = nth_error h l.
Proof.
  intros B. unfold update_dashboard.
  rewrite (bind_ok _ _ h h (load csv)) by (unfold deref; rewrite B; reflexivity).
  assert (N : csv = [] \/ csv <> [])
    by (destruct csv; [left; reflexivity | right; discriminate]).
  destruct N as [-> | N].
  - change (negb (df_empty (load []))) with false. cbv iota.
    rewrite (bind_ok _ _ h (h ++ [NoColumns]) (List.length h)) by reflexivity.
    cbv zeta. rewrite handle_reset_rebind.
    set (v := handle_reset _ _ _ df _ _ _ _ _ _).
    unfold try_except.
    rewrite (filter_and_aggregate_no_columns _ _ (rebind_df v (List.length h))
               (h ++ [NoColumns]) (nth_error_alloc h NoColumns)).
    rewrite run_cycle_no_rows. cbv zeta. cbn [fst]. fold v.
    change (Var.continent (rebind_df v (List.length h))) with (Var.continent v).
    change (Var.countries (rebind_df v (List.length h))) with (Var.countries v).
    change (Var.products (rebind_df v (List.length h))) with (Var.products v).
    change (dates_given (rebind_df v (List.length h))) with (dates_given v).
    exists (h ++ [NoColumns]). split.
    + destruct (truthy_str (Var.continent v)); [reflexivity|].
      destruct (truthy_list (Var.countries v)); [reflexivity|].
      destruct (truthy_list (Var.products v)); [reflexivity|].
      destruct (dates_given v); reflexivity.
    + intros l L. apply nth_error_app1. exact L.
  - assert (E : negb (df_empty (load csv)) = true)
      by (destruct csv; [congruence | reflexivity]).
    rewrite E.
    rewrite (bind_ok _ _ h (h ++ [load csv]) (List.length h)) by reflexivity.
    cbv zeta. rewrite handle_reset_rebind.
    set (v := handle_reset _ _ _ df _ _ _ _ _ _).
    assert (H : holds (h ++ [load csv]) (rebind_df v (List.length h)) (map loaded csv))
      by apply nth_error_alloc.
    destruct (filter_and_aggregate_table (min_date_of csv) (max_date_of csv) _ _ _ H)
      as (h' & U & A).
    unfold try_except. rewrite A, cycle_on_table_rebind.
    rewrite run_cycle_outputs by exact N. fold v.
    exists h'. split.
    + destruct (cycle_on_table _ _ v (map loaded csv)); reflexivity.
    + intros l L. rewrite U.
      * apply nth_error_app1. exact L.
      * rewrite length_app. lia.
      * cbn [Var.filtered_df rebind_df]. lia.
Qed.

Lemma run_cycle_store (csv : list Row) (triggered_id : option string)
    (continent : option string) (countries products : option (list string))
    (start_date end_date : DateInput) (trend_view : option string) :
  nth_error (snd (run_cycle csv triggered_id continent countries products
                    start_date end_date trend_view)) df = Some (load csv).
Proof.
  assert (N : csv = [] \/ csv <> [])
    by (destruct csv; [left; reflexivity | right; discriminate]).
  destruct N as [-> | N].
  - rewrite run_cycle_no_rows. reflexivity.
  - destruct (run_cycle_rows csv triggered_id continent countries products
                start_date end_date trend_view N) as (h' & B & R).
    rewrite R. exact B.
Qed.

(** X28.  Cycles do not interfere: run on the store that an earlier cycle
    has left behind, the callback returns exactly what it returns at load
    for the same inputs, whatever the earlier cycle filtered; the base table
    is still in the store as loaded, and the frames of the earlier cycle are
    untouched. *)
Theorem a_cycle_does_not_depend_on_earlier_cycles (csv : list Row)
    (triggered_id' : option string) (continent' : option string)
    (countries' products' : option (list string)) (start_date' end_date' : DateInput)
    (trend_view' : option string)
    (triggered_id : option string) (continent : option string)
    (countries products : option (list string)) (start_date end_date : DateInput)
    (trend_view : option string) :
  let earlier := run_cycle csv triggered_id' continent' countries' products'
                   start_date' end_date' trend_view' in
  let later := update_dashboard (min_date_of csv) (max_date_of csv) triggered_id
                 continent countries products start_date end_date trend_view
                 (snd earlier) in
  fst later = fst (run_cycle csv triggered_id continent countries products
                     start_date end_date trend_view)
  /\ nth_error (snd later) df = Some (load csv)
  /\ forall l, (l < List.length (snd earlier))%nat ->
               nth_error (snd later) l = nth_error (snd earlier) l.
Proof.
  intros earlier later.
  pose proof (run_cycle_store csv triggered_id' continent' countries' products'
                start_date' end_date' trend_view') as B.
  fold earlier in B.
  destruct (update_dashboard_any_store csv (snd earlier) triggered_id continent
              countries products start_date end_date trend_view B) as (h' & R & U).
  fold later in R. rewrite R. cbn [fst snd].
  split; [reflexivity|]. split; [|exact U].
  rewrite U; [exact B|]. apply nth_error_Some. unfold df in *. rewrite B. discriminate.
Qed.

End Dashboard.

(** * Concrete runs *)

Example calendar_round_trip :
  fromisoformat "2024-03-01" = Some (days_from_civil 2024 3 1)
  /\ isoformat (days_from_civil 2024 3 1) = "2024-03-01"
  /\ fromisoformat "2024-02-30" = None
  /\ dt_date (datetime 2024 3 1 10 0 0) = days_from_civil 2024 3 1
  /\ dt_hour (datetime 2024 3 1 10 0 0) = 10.
Proof. repeat split; reflexivity. Qed.

(** The scenario of the specification: one demo request from Germany with a
    purchase, filtered by continent "Europe". *)
Example germany_demo_scenario :
  exists outputs,
    fst (run_cycle sample_libraries one_row_table None (Some "Europe") None None
           (DStr "2024-03-01") (DStr "2024-03-01") (Some "average")) = Ok outputs
    /\ filtered_data outputs = [retained germany_demo]
    /\ map value (kpi_cards outputs) = [150; 100; 100; 0; 0; 0]%Q
    /\ map status (kpi_cards outputs) = [danger; success; success; danger; danger; danger]
    /\ revenue_map outputs = fig_map "europe" [("Germany", 150%Q)]
    /\ exists title trend,
         trend_graph outputs = fig_trend title trend
         /\ demo trend = [0; 0; 0; 0; 0; 0; 0; 0; 0; 0; 1; 0; 0; 0; 0; 0; 0; 0; 0; 0; 0; 0; 0; 0]
         /\ promo trend = repeat 0 24 /\ ai_assist trend = repeat 0 24
         /\ job_placements trend = repeat 0 24.
Proof.
  eexists. split; [vm_compute; reflexivity|].
  repeat split. do 2 eexists. repeat split.
Qed.

(** Three days of data: the sample standard deviation of the daily job
    placements 0, 2, 0 is the square root of 4/3, shown as 1.15 = 23/20. *)
Example four_rows_statistics :
  download_report (Some (map retained four_row_table))
  = Some [ {| Metric := "Demo Requests"; Mean := Rat (1 # 3); Median := Rat 0;
              Standard_Deviation := Sqrt (1 # 3) |};
           {| Metric := "AI Assist Requests"; Mean := Rat 0; Median := Rat 0;
              Standard_Deviation := Rat 0 |};
           {| Metric := "Promo Events"; Mean := Rat (1 # 3); Median := Rat 0;
              Standard_Deviation := Sqrt (1 # 3) |};
           {| Metric := "Job Placements"; Mean := Rat (2 # 3); Median := Rat 0;
              Standard_Deviation := Sqrt (4 # 3) |} ]
  /\ round2 (Sqrt (4 # 3)) = Rat (23 # 20)
  /\ round2 (Rat (2 # 3)) = Rat (67 # 100).
Proof. repeat split; vm_compute; reflexivity. Qed.


Lemma filter_subset_idempotent_witness :
  exists w t kept,
    apply_filters sample_libraries source_order europe_in_march
      (initial_heap four_row_table) = (Ok w, initial_heap four_row_table ++ t)
    /\ holds (initial_heap four_row_table ++ t) w kept
    /\ kept = filtered sample_libraries europe_in_march (map loaded four_row_table)
    /\ incl kept (map loaded four_row_table)
    /\ exists w' t',
         apply_filters sample_libraries source_order
           (rebind_df europe_in_march (Var.filtered_df w))
           (initial_heap four_row_table ++ t)
         = (Ok w', (initial_heap four_row_table ++ t) ++ t')
         /\ holds ((initial_heap four_row_table ++ t) ++ t') w' kept.
Proof.
  apply (filter_subset_idempotent sample_libraries europe_in_march
           (initial_heap four_row_table) (map loaded four_row_table));
    reflexivity.
Defined.

Lemma filters_order_independent_witness :
  exists w t,
    apply_filters sample_libraries [ByDates; ByProducts; ByContinent; ByCountries]
      europe_in_march (initial_heap four_row_table)
    = (Ok w, initial_heap four_row_table ++ t)
    /\ holds (initial_heap four_row_table ++ t) w
         (filter (fun r => passes_all sample_libraries europe_in_march (base r))
                 (map loaded four_row_table)).
Proof.
  apply (filters_order_independent sample_libraries europe_in_march
           (initial_heap four_row_table) (map loaded four_row_table)
           [ByDates; ByProducts; ByContinent; ByCountries]);
    [reflexivity | reflexivity |].
  apply perm_trans with [ByProducts; ByContinent; ByCountries; ByDates].
  - apply (Permutation_cons_append [ByProducts; ByContinent; ByCountries] ByDates).
  - apply (Permutation_app_tail [ByDates]
             (Permutation_cons_append [ByContinent; ByCountries] ByProducts)).
Defined.

Lemma invalid_date_range_is_a_raising_bound_witness :
  date_outcome sample_libraries (DStr "yesterday") = Raise (ParseError "yesterday")
  /\ fst (run_cycle sample_libraries one_row_table None None None None
            (DStr "yesterday") (DStr "2024-03-01") (Some "average"))
     = Ok (placeholder (min_date_of one_row_table) (max_date_of one_row_table)
             "Invalid Date Range" invalid_date_range_selected).
Proof.
  split; [reflexivity|].
  apply (invalid_date_range_is_a_raising_bound sample_libraries one_row_table
           None None None None (DStr "yesterday") (DStr "2024-03-01") (Some "average"));
    [discriminate | reflexivity | reflexivity | reflexivity].
Defined.

(** A start that [pd.to_datetime] reads as NaT does not raise: no row is in
    the range and the cycle ends in "No Data Available". *)
Example nat_bound_is_no_data_available :
  date_outcome sample_libraries (DStr "NaT") = Ok None
  /\ fst (run_cycle sample_libraries one_row_table None None None None
            (DStr "NaT") (DStr "2024-03-01") (Some "average"))
     = Ok (placeholder (min_date_of one_row_table) (max_date_of one_row_table)
             "No Data Available" no_data_available).
Proof. split; vm_compute; reflexivity. Qed.

(** C1, as stated, fails: with start 2025-01-01 and end 2024-01-01 both
    bounds parse, no row lies in the range, and the cycle ends in
    "No Data Available", not in "Invalid Date Range". *)
Lemma start_after_end_is_not_invalid_date_range :
  parsed sample_libraries (DStr "2025-01-01") = Some (days_from_civil 2025 1 1)
  /\ parsed sample_libraries (DStr "2024-01-01") = Some (days_from_civil 2024 1 1)
  /\ days_from_civil 2024 1 1 < days_from_civil 2025 1 1
  /\ exists outputs,
       fst (run_cycle sample_libraries one_row_table None None None None
              (DStr "2025-01-01") (DStr "2024-01-01") (Some "average")) = Ok outputs
       /\ trend_graph outputs = empty_fig "No Data Available"
       /\ error_message outputs = no_data_available
       /\ trend_graph outputs <> empty_fig "Invalid Date Range"
       /\ error_message outputs <> invalid_date_range_selected.
Proof.
  repeat split; try reflexivity.
  eexists. split; [vm_compute; reflexivity|].
  repeat split; try reflexivity; discriminate.
Qed.

Lemma empty_result_resets_controls_witness :
  fst (run_cycle sample_libraries one_row_table None (Some "Asia") None None
         (DStr "2024-03-01") (DStr "2024-03-01") (Some "average"))
  = Ok (placeholder (min_date_of one_row_table) (max_date_of one_row_table)
          "No Data Available" no_data_available).
Proof.
  apply (empty_result_resets_controls sample_libraries one_row_table
           None (Some "Asia") None None (DStr "2024-03-01") (DStr "2024-03-01")
           (Some "average")).
  - discriminate.
  - reflexivity.
  - intros r [<- | []]. reflexivity.
Defined.

(** C9, as stated, fails: filtering the four-row table by continent "Asia"
    over 2 and 3 March matches no row and ends in "No Data Available", and
    the continent and the start date reported back are the defaults (no
    continent, the first day of the data set), not the selection that led
    there. *)
Lemma empty_result_does_not_echo_selection :
  exists outputs,
    fst (run_cycle sample_libraries four_row_table None (Some "Asia") None None
           (DStr "2024-03-02") (DStr "2024-03-03") (Some "average")) = Ok outputs
    /\ error_message outputs = no_data_available
    /\ continent_value outputs = None
    /\ continent_value outputs <> Some "Asia"
    /\ start_date_value outputs = DDate (days_from_civil 2024 3 1)
    /\ start_date_value outputs <> DStr "2024-03-02"
    /\ start_date_value outputs <> DDate (days_from_civil 2024 3 2).
Proof.
  eexists. split; [vm_compute; reflexivity|].
  repeat split; try reflexivity; discriminate.
Qed.

Lemma reset_restores_all_but_the_trend_view_control_witness :
  exists after_reset initial,
    fst (run_cycle sample_libraries four_row_table (Some "reset-button")
           (Some "Asia") (Some ["Japan"]) None
           (DStr "2024-03-02") (DStr "2024-03-03") (Some "2024-03-02")) = Ok after_reset
    /\ fst (run_cycle sample_libraries four_row_table None None None None
              (DStr "2024-03-01") (DStr "2024-03-04") (Some "average")) = Ok initial
    /\ same_bundle after_reset initial
    /\ continent_value after_reset = None
    /\ country_value after_reset = Some []
    /\ product_value after_reset = Some []
    /\ start_date_value after_reset = DDate (min_date_of four_row_table)
    /\ end_date_value after_reset = DDate (max_date_of four_row_table)
    /\ (four_row_table <> [] -> filtered_data after_reset = map retained four_row_table)
    /\ controls_after
         {| c_continent := Some "Asia"; c_countries := Some ["Japan"];
            c_products := None; c_start_date := DStr "2024-03-02";
            c_end_date := DStr "2024-03-03"; c_trend_view := Some "2024-03-02" |}
         after_reset
       = {| c_continent := None; c_countries := Some [];
            c_products := Some []; c_start_date := DDate (min_date_of four_row_table);
            c_end_date := DDate (max_date_of four_row_table);
            c_trend_view := Some "2024-03-02" |}
    /\ (c_trend_view
          (controls_after
             {| c_continent := Some "Asia"; c_countries := Some ["Japan"];
                c_products := None; c_start_date := DStr "2024-03-02";
                c_end_date := DStr "2024-03-03"; c_trend_view := Some "2024-03-02" |}
             after_reset) = Some "average"
        <-> Some "2024-03-02" = Some "average").
Proof.
  apply (reset_restores_all_but_the_trend_view_control sample_libraries four_row_table
           (Some "Asia") (Some ["Japan"]) None
           (DStr "2024-03-02") (DStr "2024-03-03") (Some "2024-03-02")
           (DStr "2024-03-01") (DStr "2024-03-04")); reflexivity.
Defined.

(** The reset with the trend view on 2 March: the cycle draws the average
    trend, the trend-view dropdown still shows 2 March, and the next cycle,
    run on the controls as they stand, draws the trend of 2 March again. *)
Example reset_leaves_the_trend_view_dropdown :
  exists after_reset next,
    fst (run_cycle sample_libraries four_row_table (Some "reset-button")
           (Some "Asia") (Some ["Japan"]) None
           (DStr "2024-03-02") (DStr "2024-03-03") (Some "2024-03-02")) = Ok after_reset
    /\ (exists trend_data,
          trend_graph after_reset
          = fig_trend "Average Hourly Trends: Promo, Demo, AI Assist, and Job Placements"
              trend_data)
    /\ (let controls :=
          controls_after
            {| c_continent := Some "Asia"; c_countries := Some ["Japan"];
               c_products := None; c_start_date := DStr "2024-03-02";
               c_end_date := DStr "2024-03-03"; c_trend_view := Some "2024-03-02" |}
            after_reset in
        c_trend_view controls = Some "2024-03-02"
        /\ c_trend_view controls <> Some "average"
        /\ fst (run_cycle sample_libraries four_row_table (Some "continent-filter")
                  (c_continent controls) (c_countries controls) (c_products controls)
                  (c_start_date controls) (c_end_date controls) (c_trend_view controls))
           = Ok next
        /\ exists trend_data,
             trend_graph next
             = fig_trend
                 "Hourly Trends on 2024-03-02: Promo, Demo, AI Assist, and Job Placements"
                 trend_data).
Proof.
  do 2 eexists. split; [vm_compute; reflexivity|].
  split; [eexists; reflexivity|]. cbv zeta.
  split; [reflexivity|]. split; [discriminate|].
  split; [vm_compute; reflexivity|]. eexists. reflexivity.
Qed.

Lemma retained_rows_carry_date_and_hour_witness :
  exists outputs h',
    run_cycle sample_libraries four_row_table None (Some "Europe") None None
      (DStr "2024-03-01") (DStr "2024-03-03") (Some "average") = (Ok outputs, h')
    /\ nth_error h' df = Some (load four_row_table)
    /\ exists kept,
         kept <> [] /\ incl kept four_row_table
         /\ filtered_data outputs = map retained kept.
Proof.
  destruct (retained_rows_carry_date_and_hour sample_libraries four_row_table None
              (Some "Europe") None None (DStr "2024-03-01") (DStr "2024-03-03")
              (Some "average")) as (outputs & h' & R & B & K).
  exists outputs, h'. split; [exact R|]. split; [exact B|].
  apply K. vm_compute in R. injection R as <- _. reflexivity.
Defined.

Lemma kpi_rates_bounded_witness :
  let k := compute_kpis sample_libraries (map loaded four_row_table) in
  (0 <= conversion_rate k <= 100)%Q
  /\ (0 <= demo_rate k <= 100)%Q
  /\ (total_interactions k = 0 -> (conversion_rate k == 0)%Q)
  /\ (demo_count k = 0 -> (demo_rate k == 0)%Q)
  /\ ((conversion_rate k == 0)%Q <-> purchases k = 0)
  /\ ((demo_rate k == 0)%Q <-> demo_purchases k = 0).
Proof.
  apply (kpi_rates_bounded sample_libraries (map loaded four_row_table)).
  repeat (apply Forall_cons; [simpl; auto|]). apply Forall_nil.
Defined.

(** C5, as stated, fails: one demo request without a purchase gives a
    conversion rate and a demo-to-purchase rate of 0 although both
    denominators are 1. *)
Lemma zero_rate_with_positive_denominator :
  let k := compute_kpis sample_libraries (map loaded no_purchase_table) in
  (conversion_rate k == 0)%Q /\ total_interactions k = 1
  /\ (demo_rate k == 0)%Q /\ demo_count k = 1
  /\ ~ ((conversion_rate k == 0)%Q <-> total_interactions k = 0)
  /\ ~ ((demo_rate k == 0)%Q <-> demo_count k = 0).
Proof.
  cbv zeta. repeat split; try reflexivity.
  - intros [H _]. specialize (H eq_refl). discriminate.
  - intros [H _]. specialize (H eq_refl). discriminate.
Qed.


Lemma summary_statistics_of_short_series_witness :
  exists table,
    download_report (Some (map with_hour (map with_date (map loaded four_row_table))))
    = Some table
    /\ live_summary_stats (map with_date (map loaded four_row_table))
       = map round_row table
    /\ nth 1 table (stat_row EmptyString [])
       = {| Metric := "AI Assist Requests"; Mean := Rat 0; Median := Rat 0;
            Standard_Deviation := Rat 0 |}.
Proof.
  destruct (summary_statistics_of_short_series (map loaded four_row_table))
    as (L & D & Z0 & _); [discriminate|].
  eexists. split; [exact D|]. split; [exact L|].
  apply (Z0 "AI Assist Requests" "ai_assist").
  - right. left. reflexivity.
  - intros r I. simpl in I.
    destruct I as [<- | [<- | [<- | [<- | []]]]]; discriminate.
Defined.

(** C7, as stated, fails: the standard deviation of pandas is the sample
    one, NaN on fewer than two observations.  On the one-row table, whose
    data spans a single calendar day, the four standard deviations of the
    table on screen and of the export are NaN, not 0. *)
Lemma single_day_standard_deviation_is_nan :
  std [] = NaN /\ std [5] = NaN
  /\ exists outputs,
       fst (run_cycle sample_libraries one_row_table None None None None
              (DStr "2024-03-01") (DStr "2024-03-01") (Some "average")) = Ok outputs
       /\ map Standard_Deviation (summary_stats_table outputs) = [NaN; NaN; NaN; NaN]
       /\ option_map (map Standard_Deviation)
            (download_report (Some (filtered_data outputs)))
          = Some [NaN; NaN; NaN; NaN]
       /\ Forall (fun row => Standard_Deviation row <> Rat 0)
            (summary_stats_table outputs).
Proof.
  split; [reflexivity|]. split; [reflexivity|].
  eexists. split; [vm_compute; reflexivity|].
  split; [reflexivity|]. split; [reflexivity|].
  repeat constructor; discriminate.
Qed.

(** ** Instances of the further properties *)

(** Europe selected in the four-row table: the dropdown offers France and
    Germany, and selecting both changes nothing. *)
Lemma selecting_every_offered_country_changes_nothing_witness :
  map Dropdown.value (update_country_filter four_row_table (Some "Europe"))
  = ["France"; "Germany"]
  /\ exists a b,
       fst (run_cycle sample_libraries four_row_table None (Some "Europe")
              (Some ["France"; "Germany"]) None DNone DNone (Some "average")) = Ok a
       /\ fst (run_cycle sample_libraries four_row_table None (Some "Europe")
                 None None DNone DNone (Some "average")) = Ok b
       /\ same_bundle a b.
Proof.
  split; [reflexivity|].
  apply (selecting_every_offered_country_changes_nothing sample_libraries four_row_table
           None (Some "Europe") (Some ["France"; "Germany"]) None DNone DNone
           (Some "average")).
  - discriminate.
  - intros x H. vm_compute in H. simpl. tauto.
Defined.

(** Asia selected together with France: the country is not offered for the
    continent, and the cycle finds no data. *)
Lemma countries_never_offered_match_nothing_witness :
  fst (run_cycle sample_libraries four_row_table None (Some "Asia") (Some ["France"]) None
         DNone DNone (Some "average"))
  = Ok (placeholder (min_date_of four_row_table) (max_date_of four_row_table)
          "No Data Available" no_data_available).
Proof.
  apply (countries_never_offered_match_nothing sample_libraries four_row_table
           None (Some "Asia") (Some ["France"]) None DNone DNone (Some "average")).
  - discriminate.
  - reflexivity.
  - reflexivity.
  - reflexivity.
  - intros x [<- | []] H. vm_compute in H. destruct H as [H | []]. discriminate H.
Defined.


(** Oceania, a continent of the generated data set, is no scope of the map:
    the rows of Australia pass the filters, and the cycle ends in "Error
    Occurred". *)
Example unknown_scope_fails_the_cycle :
  let australia := sample_row (datetime 2024 3 1 10 0 0) "Oceania" "Australia"
                     "demo" "None" 150 1 in
  In "Oceania" (map fst CONTINENTS)
  /\ map Dropdown.value (update_country_filter [australia] (Some "Oceania"))
     = ["Australia"]
  /\ accepts_scope sample_libraries (scope_of (Some "Oceania")) = false
  /\ fst (run_cycle sample_libraries [australia] None (Some "Oceania")
            (Some ["Australia"]) None DNone DNone (Some "average"))
     = Ok (placeholder (min_date_of [australia]) (max_date_of [australia])
             "Error Occurred" (error_updating_dashboard (ValueError "oceania"))).
Proof.
  cbv zeta. split; [cbn; tauto|]. repeat split; vm_compute; reflexivity.
Qed.


(** The empty text as trend view is read as NaT: the cycle is healthy, the
    trend is titled with NaT and counts no row. *)
Example empty_trend_view_draws_nat :
  exists outputs,
    fst (run_cycle sample_libraries four_row_table None None None None DNone DNone
           (Some EmptyString)) = Ok outputs
    /\ error_message outputs = healthy
    /\ filtered_data outputs = map retained four_row_table
    /\ trend_graph outputs
       = fig_trend "Hourly Trends on NaT: Promo, Demo, AI Assist, and Job Placements"
           {| hours := all_hours;
              promo := repeat 0 24; demo := repeat 0 24;
              ai_assist := repeat 0 24; job_placements := repeat 0 24 |}.
Proof.
  eexists. split; [vm_compute; reflexivity|]. repeat split.
Qed.

(** The trend of 2024-03-02 in the four-row table: the two job placements
    of that day and nothing else. *)
Lemma date_trend_counts_the_rows_of_the_date_witness :
  exists trend_data,
    trend_of sample_libraries (Some "2024-03-02")
      (map with_hour (map with_date (map loaded four_row_table)))
    = Ok (fig_trend "Hourly Trends on 2024-03-02: Promo, Demo, AI Assist, and Job Placements"
            trend_data)
    /\ series_sum (job_placements trend_data) = 2
    /\ series_sum (demo trend_data) = 0.
Proof.
  destruct (date_trend_counts_the_rows_of_the_date sample_libraries
              (map loaded four_row_table) "2024-03-02" (days_from_civil 2024 3 2)
              eq_refl eq_refl) as (trend_data & T & _ & D & _ & J & _).
  exists trend_data. split; [exact T|]. split; [exact J | exact D].
Defined.


(** The first line of the sample file is loaded as the demo request from
    Germany: every required cell is read from the file, the job type is the
    default. *)
Lemma loaded_rows_take_their_cells_from_the_file_witness :
  load_data parse_timestamp sample_file = [germany_demo]
  /\ exists rows raw text,
       sample_file = Frame rows /\ In raw rows
       /\ raw_timestamp raw = Some text
       /\ parse_timestamp text = Some (timestamp germany_demo)
       /\ raw_request_type raw = Some "demo"
       /\ job_type germany_demo = fillna "None" (raw_job_type raw).
Proof.
  assert (L : load_data parse_timestamp sample_file = [germany_demo])
    by (vm_compute; reflexivity).
  split; [exact L|].
  assert (I0 : In germany_demo (load_data parse_timestamp sample_file))
    by (rewrite L; left; reflexivity).
  destruct (loaded_rows_take_their_cells_from_the_file parse_timestamp sample_file
              germany_demo I0)
    as (rows & raw & text & F & I & T & P & _ & _ & _ & R & _ & J & _).
  exists rows, raw, text.
  exact (conj F (conj I (conj T (conj P (conj R J))))).
Defined.

Lemma sample_draws_in_range : Forall (in_range_draws sample_codes) sample_draws.
Proof.
  repeat (apply Forall_cons;
          [unfold in_range_draws; cbn; repeat split;
           try lia; try discriminate | ]).
  apply Forall_nil.
Qed.

(** The two sample passes of the loop: Germany in Europe, Japan in Asia. *)
Lemma generated_rows_draw_from_the_catalogues_witness :
  map g_country (generate sample_codes sample_draws) = ["Germany"; "Japan"]
  /\ List.length (generate sample_codes sample_draws) = 2%nat
  /\ Forall (fun g =>
       (exists countries,
          In (g_continent g, countries) CONTINENTS /\ In (g_country g) countries)
       /\ In (g_salesperson_id g) SALESPEOPLE
       /\ In (g_product_type g) PRODUCT_TYPES
       /\ In (g_request_type g) REQUEST_TYPES
       /\ In (g_status_code g) STATUS_CODES
       /\ In (g_affiliate_code g) sample_codes
       /\ (g_request_type g = "job" -> In (g_job_type g) JOB_TYPES)
       /\ (g_request_type g <> "job" -> g_job_type g = EmptyString))
     (generate sample_codes sample_draws).
Proof.
  split; [reflexivity|].
  apply (generated_rows_draw_from_the_catalogues sample_codes sample_draws).
  exact sample_draws_in_range.
Defined.

(** The timestamps of the two sample passes: 2024-01-15 10:30:00 and
    2025-05-31 23:59:59, the last second of the period. *)
Lemma generated_timestamps_lie_in_the_period_witness :
  map g_timestamp (generate sample_codes sample_draws)
  = [datetime 2024 1 15 10 30 0; datetime 2025 5 31 23 59 59]
  /\ Forall (fun g => datetime 2024 1 1 0 0 0 <= g_timestamp g
                      <= datetime 2025 5 31 23 59 59)
       (generate sample_codes sample_draws).
Proof.
  split; [reflexivity|].
  apply (generated_timestamps_lie_in_the_period sample_codes sample_draws).
  exact sample_draws_in_range.
Defined.

(** The revenue of the two sample passes: 150.12 with a purchase for the
    demo, and nothing for the job whose coin fell above 0.3. *)
Lemma generated_revenue_and_purchase_flags_witness :
  map (fun g => (g_revenue g, g_purchase_flag g)) (generate sample_codes sample_draws)
  = [((inject_Z 15012 / 100)%Q, 1); (0%Q, 0)]
  /\ Forall (fun g =>
       ((g_revenue g == 0)%Q \/ (100 <= g_revenue g <= 300)%Q)
       /\ (exists cents, (g_revenue g == inject_Z cents / 100)%Q)
       /\ ((0 < g_revenue g)%Q -> g_request_type g = "job" \/ g_request_type g = "demo")
       /\ (g_purchase_flag g = 0 \/ g_purchase_flag g = 1)
       /\ (g_purchase_flag g = 1 -> (0 < g_revenue g)%Q))
    (generate sample_codes sample_draws).
Proof.
  split; [reflexivity|].
  apply (generated_revenue_and_purchase_flags sample_codes sample_draws).
  exact sample_draws_in_range.
Defined.
